(** * AutoAgile: field extraction and reconciliation engine

    A shallow embedding of the field extraction service
    ([FieldExtractionService]) and of the Jira field service
    ([JiraFieldService]: the fields inferred from an error response, the
    catalogue of fields and the saved field mappings), with the properties
    of the specification stated and settled over it.

    Conventions of the embedding:
    - a JavaScript string is the [string] of its UTF-16 code units, for the
      texts whose code units are all below 256 (the characters of ISO 8859-1:
      the ASCII characters and, from 160 on, the no-break space and the
      accented letters of Western Europe). The character [ascii_of_nat n] is
      the code unit [n]: the no-break space U+00A0 is [ascii_of_nat 160],
      and a [string] is not read as UTF-8. Case mapping, [trim] and the
      classes of regular expressions are those of ECMAScript on these code
      units, and lower-casing and matching keep a text within them. A text
      with a code unit above 255 is not among the texts of the embedding:
      its case mapping needs the tables of Unicode;
    - the response of the AI provider, which the code only trims and hands
      to [JSON.parse], is the list of its code units with no bound on them,
      so that every response is covered;
    - a [number] used as a confidence or a threshold is a rational [Q], story
      points and calendar numbers are [N];
    - a [Map<string, _>] is a [gmap string _], arrays are lists;
    - a function that may throw returns a [Result];
    - the clock ([new Date()]), the AI provider, [JSON.parse], the answers
      of the Jira instance, the browser and the item of [localStorage] are
      inputs. *)

From Stdlib Require Import Ascii String QArith Sorted.
From stdpp Require Import base gmap strings list pretty.

Local Close Scope Q_scope.
Local Open Scope string_scope.
Local Open Scope list_scope.

Set Warnings "-register-all".

(** ** Results of fallible code *)

Inductive Result (A : Type) : Type :=
| Ok (a : A)
| Throw (message : string).
Arguments Ok {A} a.
Arguments Throw {A} message.

Definition rbind {A B} (r : Result A) (f : A → Result B) : Result B :=
  match r with
  | Ok a => f a
  | Throw e => Throw e
  end.

Notation "x ←! r ; k" := (rbind r (fun x => k))
  (at level 100, r at next level, right associativity).

(** ** JavaScript strings *)

Module Js.

Definition code (c : ascii) : nat := nat_of_ascii c.
Definition in_range (lo hi : ascii) (c : ascii) : bool :=
  (code lo <=? code c)%nat && (code c <=? code hi)%nat.

Definition is_upper (c : ascii) : bool := in_range "A" "Z" c.
Definition is_lower (c : ascii) : bool := in_range "a" "z" c.
Definition is_digit (c : ascii) : bool := in_range "0" "9" c.
Definition is_alpha (c : ascii) : bool := is_upper c || is_lower c.
Definition is_alnum (c : ascii) : bool := is_alpha c || is_digit c.
(** [\w] *)
Definition is_word (c : ascii) : bool := is_alnum c || Ascii.eqb c "_".
(** The no-break space U+00A0. *)
Definition nbsp : ascii := ascii_of_nat 160.
(** [\s], and the characters removed by [trim]: the white space and the
    line terminators of ECMAScript. Below 256 they are tab, line feed,
    vertical tab, form feed, carriage return, space and the no-break space.
    (The others are U+1680, U+2000 to U+200A, U+2028, U+2029, U+202F, U+205F,
    U+3000 and U+FEFF; see [is_white_space] below for texts with such code
    units.) *)
Definition is_space (c : ascii) : bool :=
  in_range (ascii_of_nat 9) (ascii_of_nat 13) c || Ascii.eqb c " "
  || Ascii.eqb c nbsp.

(** The capital letters beyond ASCII: U+00C0 to U+00DE without the
    multiplication sign U+00D7; their small letters are 32 further, U+00E0
    to U+00FE without the division sign U+00F7. *)
Definition is_upper_latin (c : ascii) : bool :=
  in_range (ascii_of_nat 192) (ascii_of_nat 222) c
  && negb (Ascii.eqb c (ascii_of_nat 215)).
Definition is_lower_latin (c : ascii) : bool :=
  in_range (ascii_of_nat 224) (ascii_of_nat 254) c
  && negb (Ascii.eqb c (ascii_of_nat 247)).

(** [toLowerCase] on one code unit: the small letter of a capital letter,
    which is below 256 as well; every other code unit is mapped to
    itself. *)
Definition lower_char (c : ascii) : ascii :=
  if is_upper c || is_upper_latin c then ascii_of_nat (code c + 32) else c.
(** The capital letter of a small letter, where it is one code unit below
    256. The three small letters left out are the sharp s U+00DF, whose
    capital is written SS, and U+00B5 and U+00FF, whose capitals are U+039C
    and U+0178. *)
Definition upper_char (c : ascii) : ascii :=
  if is_lower c || is_lower_latin c then ascii_of_nat (code c - 32) else c.
(** [c.toUpperCase()] for a text [c] of one code unit. The code upper-cases
    one character only, the first of a field id; an id that starts with
    U+00B5 or U+00FF, which are kept as they are here, gets a name that is
    outside the texts of this model. *)
Definition toUpperCase1 (c : ascii) : string :=
  if Ascii.eqb c (ascii_of_nat 223) then "SS"
  else String (upper_char c) EmptyString.

Fixpoint toLowerCase (s : string) : string :=
  match s with
  | EmptyString => EmptyString
  | String c s' => String (lower_char c) (toLowerCase s')
  end.

Fixpoint startsWith (s p : string) : bool :=
  match p, s with
  | EmptyString, _ => true
  | String a p', String b s' => Ascii.eqb a b && startsWith s' p'
  | String _ _, EmptyString => false
  end.

(** [s.includes(sub)] *)
Fixpoint includes (s sub : string) : bool :=
  if startsWith s sub then true
  else match s with
       | EmptyString => false
       | String _ s' => includes s' sub
       end.

Fixpoint trimStart (s : string) : string :=
  match s with
  | EmptyString => EmptyString
  | String c s' => if is_space c then trimStart s' else s
  end.

(** [s.trim() === ''] *)
Definition is_blank (s : string) : bool :=
  String.eqb (trimStart s) EmptyString.

(** [s.substring(1)] and [s.slice(1)] *)
Definition substring1 (s : string) : string :=
  match s with
  | EmptyString => EmptyString
  | String _ s' => s'
  end.

(** [s.split(/\s+/)]: the pieces between maximal runs of white space; a
    string that starts (ends) with white space gives a leading (trailing)
    empty piece. *)
Fixpoint split_ws_go (s : string) (cur : string) (in_gap : bool) : list string :=
  match s with
  | EmptyString => [cur]
  | String c s' =>
      if is_space c
      then (if in_gap then split_ws_go s' EmptyString true
            else cur :: split_ws_go s' EmptyString true)
      else split_ws_go s' (cur +:+ String c EmptyString) false
  end.

Definition split_ws (s : string) : list string :=
  split_ws_go s EmptyString false.

(** [xs.join(sep)] *)
Fixpoint join (sep : string) (xs : list string) : string :=
  match xs with
  | [] => EmptyString
  | [x] => x
  | x :: rest => x +:+ sep +:+ join sep rest
  end.

(** [parseInt] on a string of decimal digits. *)
Definition digit_value (c : ascii) : N := N.of_nat (code c - code "0").
Definition parseInt (s : string) : N :=
  fold_left (fun acc c => (10 * acc + digit_value c)%N) (list_ascii_of_string s) 0%N.

(** *** Texts that are only trimmed

    A text as the list of its UTF-16 code units, whatever they are. *)
Definition codeUnits : Type := list N.

Definition units_of (s : string) : codeUnits :=
  (fun c => N.of_nat (code c)) <$> list_ascii_of_string s.

(** The white space and the line terminators of ECMAScript, which [trim]
    removes: U+0009 to U+000D, U+0020, U+00A0, U+1680, U+2000 to U+200A,
    U+2028, U+2029, U+202F, U+205F, U+3000 and U+FEFF. *)
Definition is_white_space (u : N) : bool :=
  ((9 <=? u) && (u <=? 13))%N
  || existsb (N.eqb u) [32; 160; 5760; 8232; 8233; 8239; 8287; 12288; 65279]%N
  || ((8192 <=? u) && (u <=? 8202))%N.

(** [t.trim() === '']: nothing is left of [t] once the white space at its
    two ends is removed. *)
Definition trims_to_empty (t : codeUnits) : bool := forallb is_white_space t.

(** A value is truthy when it is not the empty string (for an optional
    string: when it is present and not empty). *)
Definition truthy_str (s : string) : bool := negb (String.eqb s EmptyString).
Definition truthy_opt (o : option string) : bool :=
  match o with
  | Some s => truthy_str s
  | None => false
  end.

End Js.

(** ** Regular expressions

    The regular expressions of the source are written as terms of [regex];
    [rmatch] is a backtracking matcher with the semantics of JavaScript's
    [RegExp] for the constructs the source uses: ordered alternation, greedy
    quantifiers, capture groups and the word boundary [\b]. *)

Module Regex.

Inductive regex : Type :=
| Eps
| Chr (p : ascii → bool)      (* one character of a class *)
| Seq (r1 r2 : regex)
| Alt (r1 r2 : regex)         (* r1|r2, r1 tried first *)
| Star (r : regex)            (* r*, greedy *)
| Grp (n : nat) (r : regex)   (* capture group number n *)
| WordB.                      (* \b *)

(** A position in the subject: the character before it, what is left, and
    the groups captured so far. *)
Record mstate : Type := MState {
  prev : option ascii;
  rest : list ascii;
  caps : list (nat * string)
}.

Definition is_word_opt (o : option ascii) : bool :=
  match o with
  | Some c => Js.is_word c
  | None => false
  end.

Definition consumed (st st' : mstate) : string :=
  string_of_list_ascii (take (length (rest st) - length (rest st')) (rest st)).

Fixpoint rmatch (r : regex) (st : mstate) (k : mstate → option mstate)
  : option mstate :=
  match r with
  | Eps => k st
  | Chr p =>
      match rest st with
      | c :: cs => if p c then k (MState (Some c) cs (caps st)) else None
      | [] => None
      end
  | Seq r1 r2 => rmatch r1 st (fun st' => rmatch r2 st' k)
  | Alt r1 r2 =>
      match rmatch r1 st k with
      | Some m => Some m
      | None => rmatch r2 st k
      end
  | Star r' =>
      (fix loop (fuel : nat) (st : mstate) : option mstate :=
         match fuel with
         | O => k st
         | S fuel' =>
             match rmatch r' st (fun st' =>
                     if (length (rest st') <? length (rest st))%nat
                     then loop fuel' st' else None) with
             | Some m => Some m
             | None => k st
             end
         end) (length (rest st)) st
  | Grp n r' =>
      rmatch r' st (fun st' =>
        k (MState (prev st') (rest st') ((n, consumed st st') :: caps st')))
  | WordB =>
      if xorb (is_word_opt (prev st)) (is_word_opt (head (rest st)))
      then k st else None
  end.

(** The result of [String.prototype.match] and [RegExp.prototype.exec]. *)
Record rmatch_result : Type := MatchResult {
  m_index : nat;
  m_text : string;               (* match[0] *)
  m_groups : list (nat * string);
  m_after : list ascii;          (* the subject after the match *)
  m_last : option ascii          (* the last character before [m_after] *)
}.

(** [match[n]]: [None] when group [n] did not take part in the match. *)
Definition group (n : nat) (m : rmatch_result) : option string :=
  snd <$> List.find (fun p => Nat.eqb (fst p) n) (m_groups m).

Definition match_here (r : regex) (before : option ascii) (s : list ascii)
    (idx : nat) : option rmatch_result :=
  match rmatch r (MState before s []) Some with
  | Some st' =>
      Some (MatchResult idx (consumed (MState before s []) st') (caps st')
              (rest st')
              (if (length (rest st') <? length s)%nat then prev st' else before))
  | None => None
  end.

(** The leftmost match that starts at or after the current position. *)
Fixpoint search_from (r : regex) (before : option ascii) (s : list ascii)
    (idx : nat) : option rmatch_result :=
  match match_here r before s idx with
  | Some m => Some m
  | None =>
      match s with
      | [] => None
      | c :: cs => search_from r (Some c) cs (S idx)
      end
  end.

(** [s.match(r)] for a regex without the [g] flag. *)
Definition search (r : regex) (s : string) : option rmatch_result :=
  search_from r None (list_ascii_of_string s) 0.

(** [r.test(s)] *)
Definition test (r : regex) (s : string) : bool :=
  match search r s with
  | Some _ => true
  | None => false
  end.

(** All matches of a regex with the [g] flag, left to right, each search
    starting where the previous match ended ([matchAll], and a loop on
    [exec]). After an empty match [matchAll] moves on by one character; the
    patterns that the source runs in a loop on [exec] match no empty text. *)
Fixpoint search_all_from (fuel : nat) (r : regex) (before : option ascii)
    (s : list ascii) (idx : nat) : list rmatch_result :=
  match fuel with
  | O => []
  | S fuel' =>
      match search_from r before s idx with
      | None => []
      | Some m =>
          let idx' := (m_index m + String.length (m_text m))%nat in
          match m_text m, m_after m with
          | EmptyString, [] => [m]
          | EmptyString, c :: cs =>
              m :: search_all_from fuel' r (Some c) cs (S idx')
          | String _ _, after =>
              m :: search_all_from fuel' r (m_last m) after idx'
          end
      end
  end.

Definition search_all (r : regex) (s : string) : list rmatch_result :=
  search_all_from (S (String.length s)) r None (list_ascii_of_string s) 0.

(** *** Notations of the regular expressions of the source *)

Definition chr (c : ascii) : regex := Chr (Ascii.eqb c).
(** A character of the pattern under the [i] flag: the two characters are
    compared after [Canonicalize], which upper-cases a code unit unless that
    would turn a code unit from 128 on into an ASCII one. The characters of
    the patterns of the source are ASCII, so a letter of a pattern matches
    its small and its capital form and nothing else, and any other character
    matches itself; comparing the small forms says the same. *)
Definition chri (c : ascii) : regex :=
  Chr (fun x => Ascii.eqb (Js.lower_char x) (Js.lower_char c)).
Definition cls (p : ascii → bool) : regex := Chr p.

Fixpoint lit (s : string) : regex :=
  match s with
  | EmptyString => Eps
  | String c EmptyString => chr c
  | String c s' => Seq (chr c) (lit s')
  end.
Fixpoint liti (s : string) : regex :=
  match s with
  | EmptyString => Eps
  | String c EmptyString => chri c
  | String c s' => Seq (chri c) (liti s')
  end.

Fixpoint seqs (rs : list regex) : regex :=
  match rs with
  | [] => Eps
  | [r] => r
  | r :: rs' => Seq r (seqs rs')
  end.
Fixpoint alts (rs : list regex) : regex :=
  match rs with
  | [] => Chr (fun _ => false)
  | [r] => r
  | r :: rs' => Alt r (alts rs')
  end.

Definition plus (r : regex) : regex := Seq r (Star r).      (* r+ *)
Definition opt (r : regex) : regex := Alt r Eps.            (* r? *)
Fixpoint times (n : nat) (r : regex) : regex :=             (* r{n} *)
  match n with
  | O => Eps
  | S O => r
  | S n' => Seq r (times n' r)
  end.

Definition digit : regex := cls Js.is_digit.                (* \d *)
Definition space : regex := cls Js.is_space.                (* \s *)
Definition range (lo hi : ascii) : regex := cls (Js.in_range lo hi).

End Regex.

(** ** Data model *)

(** A value produced by [JSON.parse]; an object lists its entries in the
    order [Object.entries] enumerates them. *)
Inductive json : Type :=
| JNull
| JBool (b : bool)
| JNum (q : Q)
| JStr (s : string)
| JArr (items : list json)
| JObj (entries : list (string * json)).

(** [interface JiraFieldOption] *)
Record JiraFieldOption : Type := {
  opt_id : option string;
  opt_name : option string;
  opt_value : option string
}.

(** An element of [allowedValues : (string | JiraFieldOption)[]]. *)
Inductive AllowedValue : Type :=
| AVStr (s : string)
| AVOpt (o : JiraFieldOption).

(** [interface JiraField] (the fields the extraction reads). *)
Record JiraField : Type := {
  jf_id : string;
  jf_name : string;
  jf_type : string;
  jf_required : bool;
  jf_allowedValues : option (list AllowedValue);
  jf_description : option string
}.

(** [value: any] of an extracted field. *)
Inductive JsValue : Type :=
| VStr (s : string)
| VNum (n : N)
| VArr (items : list string)
| VOption (o : JiraFieldOption)
| VJson (j : json)
| VUndefined.

Definition value_of_allowed (a : AllowedValue) : JsValue :=
  match a with
  | AVStr s => VStr s
  | AVOpt o => VOption o
  end.

Inductive ExtractionMethod : Type := ByAi | ByPattern | ByDefault.

(** [interface ExtractedFieldValue] *)
Record ExtractedFieldValue : Type := {
  efv_fieldId : string;
  efv_value : JsValue;
  efv_confidence : Q;
  efv_extractionMethod : ExtractionMethod
}.

(** What [new Date()] gives: [getFullYear()] and [getMonth()] (0 to 11). *)
Record Clock : Type := {
  getFullYear : N;
  getMonth : N
}.

(** [Math.ceil((new Date().getMonth() + 1) / 3)] *)
Definition currentQuarter (now : Clock) : N := ((getMonth now + 1 + 2) / 3)%N.

(** [a >= b], [a > b] and [a < b] on numbers. *)
Definition q_ge (a b : Q) : bool := Qle_bool b a.
Definition q_gt (a b : Q) : bool := negb (Qle_bool a b).
Definition q_lt (a b : Q) : bool := negb (Qle_bool b a).

(** [allowedValues?.includes(s)] for a string [s]. *)
Definition allowed_includes (vs : option (list AllowedValue)) (s : string) : bool :=
  match vs with
  | None => false
  | Some l =>
      existsb (fun a => match a with
                        | AVStr v => String.eqb v s
                        | AVOpt _ => false
                        end) l
  end.

(** ** The field extraction service: pattern extraction *)

Module FieldExtractionService.
Import Regex.

Definition pattern_entry (fieldId : string) (v : JsValue) (confidence : Q)
  : ExtractedFieldValue :=
  {| efv_fieldId := fieldId; efv_value := v; efv_confidence := confidence;
     efv_extractionMethod := ByPattern |}.

(** *** [mapPriorityValue] *)

Definition priorityMap : list (string * list string) :=
  [ ("highest", ["highest"; "critical"; "1"]);
    ("high", ["high"; "major"; "2"]);
    ("medium", ["medium"; "normal"; "3"]);
    ("low", ["low"; "minor"; "4"]);
    ("lowest", ["lowest"; "trivial"; "5"]) ].

Definition lookup_key {A} (k : string) (m : list (string * A)) : option A :=
  snd <$> List.find (fun p => String.eqb (fst p) k) m.

(** [allowedValues.find(v => v.toLowerCase().includes(mapping.toLowerCase()))]:
    the callback throws a [TypeError] on an allowed value that is an object,
    which has no [toLowerCase]. *)
Fixpoint find_allowed (mapping : string) (vs : list AllowedValue)
  : Result (option string) :=
  match vs with
  | [] => Ok None
  | AVStr v :: vs' =>
      if Js.includes (Js.toLowerCase v) (Js.toLowerCase mapping)
      then Ok (Some v) else find_allowed mapping vs'
  | AVOpt _ :: _ => Throw "v.toLowerCase is not a function"
  end.

Fixpoint mapPriority_loop (priority : string) (mappings : list string)
    (vs : list AllowedValue) : Result string :=
  match mappings with
  | [] => Ok priority
  | mapping :: mappings' =>
      found ←! find_allowed mapping vs;
      match found with
      | Some v => if Js.truthy_str v then Ok v
                  else mapPriority_loop priority mappings' vs
      | None => mapPriority_loop priority mappings' vs
      end
  end.

Definition mapPriorityValue (priority : string)
    (allowedValues : option (list AllowedValue)) : Result string :=
  match allowedValues with
  | None => Ok priority
  | Some vs =>
      let mappings :=
        default [priority] (lookup_key (Js.toLowerCase priority) priorityMap) in
      mapPriority_loop priority mappings vs
  end.

(** *** The regular expressions of [extractWithPatterns] *)

Definition words (ws : list string) : regex := alts (lit <$> ws).
Definition wordsi (ws : list string) : regex := alts (liti <$> ws).

(** [/\b(highest|high|medium|low|lowest|critical|major|minor|trivial)\b/] *)
Definition priorityRe : regex :=
  seqs [WordB;
        Grp 1 (words ["highest"; "high"; "medium"; "low"; "lowest";
                      "critical"; "major"; "minor"; "trivial"]);
        WordB].

Definition one_to_four : regex := range "1" "4".
Definition year4 : regex := times 4 digit.
Definition spaces : regex := Star space.

Definition quarterPatterns : list regex :=
  [ (* /\b(q[1-4])\s*(\d{4})\b/i *)
    seqs [WordB; Grp 1 (Seq (chri "q") one_to_four); spaces; Grp 2 year4; WordB];
    (* /\bquarter\s*([1-4])\s*(\d{4})\b/i *)
    seqs [WordB; liti "quarter"; spaces; Grp 1 one_to_four; spaces;
          Grp 2 year4; WordB];
    (* /\b([1-4])(?:st|nd|rd|th)\s*quarter\s*(\d{4})\b/i *)
    seqs [WordB; Grp 1 one_to_four; wordsi ["st"; "nd"; "rd"; "th"]; spaces;
          liti "quarter"; spaces; Grp 2 year4; WordB];
    (* /\b(first|second|third|fourth)\s*quarter\s*(\d{4})\b/i *)
    seqs [WordB; Grp 1 (wordsi ["first"; "second"; "third"; "fourth"]); spaces;
          liti "quarter"; spaces; Grp 2 year4; WordB];
    (* /\b(q[1-4])\b/i *)
    seqs [WordB; Grp 1 (Seq (chri "q") one_to_four); WordB];
    (* /\bquarter\s*([1-4])\b/i *)
    seqs [WordB; liti "quarter"; spaces; Grp 1 one_to_four; WordB] ].

(** [/\b(\d{4})\b/] *)
Definition yearRe : regex := seqs [WordB; Grp 1 year4; WordB].

(** [/\b(internal|private|confidential|company|team|staff)\b/] *)
Definition internalRe : regex :=
  seqs [WordB;
        Grp 1 (words ["internal"; "private"; "confidential"; "company"; "team";
                      "staff"]);
        WordB].

(** [/\b(external|public|customer|client|visible|roadmap|showcase)\b/] *)
Definition externalRe : regex :=
  seqs [WordB;
        Grp 1 (words ["external"; "public"; "customer"; "client"; "visible";
                      "roadmap"; "showcase"]);
        WordB].

(** [/\b(roadmap|public|external|visible|show)\b/] *)
Definition roadmapRe : regex :=
  seqs [WordB;
        Grp 1 (words ["roadmap"; "public"; "external"; "visible"; "show"]);
        WordB].

(** [/\b(\d+)\s*(?:story\s* )?points?\b/i] (no space in the source) *)
Definition pointsRe : regex :=
  seqs [WordB; Grp 1 (plus digit); spaces; opt (Seq (liti "story") spaces);
        liti "point"; opt (chri "s"); WordB].

(** [/\b([A-Z]+-\d+)\b/] *)
Definition epicRe : regex :=
  seqs [WordB; Grp 1 (seqs [plus (cls Js.is_upper); chr "-"; plus digit]); WordB].

Definition is_dash (c : ascii) : bool := Ascii.eqb c "-".
Definition is_underscore (c : ascii) : bool := Ascii.eqb c "_".
Definition is_hash_sign (c : ascii) : bool := Ascii.eqb c "#".
Definition is_colon (c : ascii) : bool := Ascii.eqb c ":".

Definition labelPatterns : list regex :=
  [ (* /\b(20\d{2}[qQ]\d[a-zA-Z]* )\b/g, without the space *)
    seqs [WordB;
          Grp 1 (seqs [lit "20"; times 2 digit;
                       cls (fun c => Ascii.eqb c "q" || Ascii.eqb c "Q"); digit;
                       Star (cls Js.is_alpha)]);
          WordB];
    (* /\b([a-z]+-[a-z0-9-]+)\b/g *)
    seqs [WordB;
          Grp 1 (seqs [plus (cls Js.is_lower); chr "-";
                       plus (cls (fun c => Js.is_lower c || Js.is_digit c
                                           || is_dash c))]);
          WordB];
    (* /(?:label|tag|#)\s*[:\s]*([a-zA-Z0-9_-]+)/gi *)
    seqs [alts [liti "label"; liti "tag"; cls is_hash_sign]; spaces;
          Star (cls (fun c => is_colon c || Js.is_space c));
          Grp 1 (plus (cls (fun c => Js.is_alnum c || is_underscore c
                                     || is_dash c)))];
    (* /\b([a-zA-Z0-9]{3,}(?:[a-zA-Z0-9_-]*[a-zA-Z0-9])?)\b/g *)
    seqs [WordB;
          Grp 1 (seqs [times 3 (cls Js.is_alnum); Star (cls Js.is_alnum);
                       opt (Seq (Star (cls (fun c => Js.is_alnum c
                                                     || is_underscore c
                                                     || is_dash c)))
                                (cls Js.is_alnum))]);
          WordB] ].

(** *** [isCommonWord] *)

Definition commonWords : list string :=
  [ "the"; "and"; "for"; "are"; "but"; "not"; "you"; "all"; "can"; "had";
    "her"; "was"; "one"; "our"; "out"; "day"; "get"; "has"; "him"; "his";
    "how"; "its"; "may"; "new"; "now"; "old"; "see"; "two"; "way"; "who";
    "boy"; "did"; "man"; "end"; "why"; "let"; "put"; "say"; "she"; "too";
    "use";
    "that"; "with"; "have"; "this"; "will"; "your"; "from"; "they"; "know";
    "want"; "been"; "good"; "much"; "some"; "time"; "very"; "when"; "come";
    "here"; "just"; "like"; "long"; "make"; "many"; "over"; "such"; "take";
    "than"; "them"; "well"; "were"; "what";
    "would"; "there"; "could"; "other"; "after"; "first"; "never"; "these";
    "think"; "where"; "being"; "every"; "great"; "might"; "shall"; "still";
    "those"; "under"; "while"; "years"; "before"; "should"; "through";
    "system"; "process"; "project"; "service"; "feature"; "design";
    "development"; "implementation"; "management"; "application"; "solution" ].

Definition isCommonWord (word : string) : bool :=
  existsb (String.eqb (Js.toLowerCase word)) commonWords.

(** *** [extractInternalExternalValue] and [extractRoadmapValue] *)

Definition extractInternalExternalValue (description : string)
  : list ExtractedFieldValue :=
  let lowerDescription := Js.toLowerCase description in
  let values :=
    (if test internalRe lowerDescription then ["Internal"] else [])
    ++ (if test externalRe lowerDescription then ["External"] else []) in
  if (0 <? length values)%nat
  then [pattern_entry "customfield_26360" (VArr values) 0.8%Q]
  else [].

Definition extractRoadmapValue (description : string)
  : list ExtractedFieldValue :=
  let lowerDescription := Js.toLowerCase description in
  match search roadmapRe lowerDescription with
  | Some roadmapMatch =>
      [pattern_entry "customfield_26360" (VStr (m_text roadmapMatch)) 0.8%Q]
  | None => []
  end.

(** *** The branches of [extractWithPatterns] *)

(** What the body of the loop does for one field: it leaves
    [(extractedValue, confidence)], or it returns from the whole function. *)
Inductive FieldOutcome : Type :=
| Extracted (extractedValue : option JsValue) (confidence : Q)
| Returned (result : list ExtractedFieldValue).

Definition nothing : FieldOutcome := Extracted None 0%Q.

Section Patterns.
Variable now : Clock.

Definition extractPriority (lowerDescription : string) (field : JiraField)
  : Result FieldOutcome :=
  match search priorityRe lowerDescription with
  | Some priorityMatch =>
      v ←! mapPriorityValue (default EmptyString (group 1 priorityMatch))
             (jf_allowedValues field);
      Ok (Extracted (Some (VStr v)) 0.8%Q)
  | None => Ok nothing
  end.

(** The [quarterValue] built from a match of one of [quarterPatterns]. *)
Definition quarterValueOf (m : rmatch_result) : string :=
  let quarter := default EmptyString (group 1 m) in
  let year :=
    match group 2 m with
    | Some y => if Js.truthy_str y then y else pretty (getFullYear now)
    | None => pretty (getFullYear now)
    end in
  let quarter :=
    if String.eqb quarter "first" then "1"
    else if String.eqb quarter "second" then "2"
    else if String.eqb quarter "third" then "3"
    else if String.eqb quarter "fourth" then "4"
    else quarter in
  let quarter :=
    if Js.startsWith (Js.toLowerCase quarter) "q"
    then Js.substring1 quarter else quarter in
  "Q" +:+ quarter +:+ " " +:+ year.

(** The loop over [quarterPatterns], left at the first pattern whose
    [quarterValue] is an allowed value. *)
Fixpoint quarter_loop (patterns : list regex) (description : string)
    (allowedValues : option (list AllowedValue)) : option string :=
  match patterns with
  | [] => None
  | pattern :: patterns' =>
      match search pattern description with
      | Some m =>
          let quarterValue := quarterValueOf m in
          if allowed_includes allowedValues quarterValue
          then Some quarterValue
          else quarter_loop patterns' description allowedValues
      | None => quarter_loop patterns' description allowedValues
      end
  end.

(** The year found in the text with the current quarter. *)
Definition quarter_from_year (description : string)
    (allowedValues : option (list AllowedValue)) : option string :=
  match search yearRe description with
  | Some yearMatch =>
      let quarterValue :=
        "Q" +:+ pretty (currentQuarter now) +:+ " "
            +:+ default EmptyString (group 1 yearMatch) in
      if allowed_includes allowedValues quarterValue
      then Some quarterValue else None
  | None => None
  end.

(** The current quarter of the current year. *)
Definition quarter_from_clock (allowedValues : option (list AllowedValue))
  : option string :=
  let quarterValue :=
    "Q" +:+ pretty (currentQuarter now) +:+ " " +:+ pretty (getFullYear now) in
  if allowed_includes allowedValues quarterValue then Some quarterValue else None.

Definition extractQuarter (description : string) (field : JiraField)
  : FieldOutcome :=
  match quarter_loop quarterPatterns description (jf_allowedValues field) with
  | Some quarterValue => Extracted (Some (VStr quarterValue)) 0.8%Q
  | None =>
      match quarter_from_year description (jf_allowedValues field) with
      | Some quarterValue => Extracted (Some (VStr quarterValue)) 0.6%Q
      | None =>
          match quarter_from_clock (jf_allowedValues field) with
          | Some quarterValue => Extracted (Some (VStr quarterValue)) 0.4%Q
          | None => nothing
          end
      end
  end.

Definition extractStoryPoints (lowerDescription : string) : FieldOutcome :=
  match search pointsRe lowerDescription with
  | Some pointsMatch =>
      let points := default EmptyString (group 1 pointsMatch) in
      Extracted (Some (VNum (Js.parseInt points))) 0.9%Q
  | None => nothing
  end.

Definition componentName (allowedValue : AllowedValue) : string :=
  match allowedValue with
  | AVStr s => Js.toLowerCase s
  | AVOpt o =>
      match opt_value o with
      | Some v => Js.toLowerCase v
      | None => EmptyString
      end
  end.

Definition extractComponent (lowerDescription : string) (field : JiraField)
  : FieldOutcome :=
  match jf_allowedValues field with
  | Some allowedValues =>
      match List.find (fun allowedValue =>
                Js.truthy_str (componentName allowedValue)
                && Js.includes lowerDescription (componentName allowedValue))
              allowedValues with
      | Some allowedValue =>
          Extracted (Some (value_of_allowed allowedValue)) 0.7%Q
      | None => nothing
      end
  | None => nothing
  end.

(** The epic key is looked for in the lower-cased description. *)
Definition extractEpic (lowerDescription : string) : FieldOutcome :=
  match search epicRe lowerDescription with
  | Some epicMatch =>
      Extracted (Some (VStr (default EmptyString (group 1 epicMatch)))) 0.8%Q
  | None => nothing
  end.

(** [extractedLabels.add(label)] on a [Set] kept in insertion order. *)
Definition set_add (s : list string) (x : string) : list string :=
  if existsb (String.eqb x) s then s else s ++ [x].

Definition add_label (extractedLabels : list string) (m : rmatch_result)
  : list string :=
  match group 1 m with
  | Some label =>
      if Js.truthy_str label && negb (isCommonWord label)
         && (3 <=? String.length label)%nat
      then set_add extractedLabels (Js.toLowerCase label)
      else extractedLabels
  | None => extractedLabels
  end.

Definition collectLabels (description : string) : list string :=
  fold_left (fun extractedLabels pattern =>
               fold_left add_label (search_all pattern description)
                 extractedLabels)
    labelPatterns [].

Definition extractLabels (description : string) : FieldOutcome :=
  let extractedLabels := collectLabels description in
  if (0 <? length extractedLabels)%nat
  then Extracted (Some (VArr extractedLabels)) 0.7%Q
  else nothing.

(** The body of the loop of [extractWithPatterns] for one field: the first
    branch whose test on the field succeeds is taken. *)
Definition extractField (description : string) (field : JiraField)
  : Result FieldOutcome :=
  let lowerDescription := Js.toLowerCase description in
  let fieldName := Js.toLowerCase (jf_name field) in
  if Js.includes fieldName "priority" then
    extractPriority lowerDescription field
  else if Js.includes fieldName "quarter"
          || String.eqb (jf_id field) "customfield_26362" then
    Ok (extractQuarter description field)
  else if Js.includes fieldName "roadmap" || Js.includes fieldName "include"
          || String.eqb (jf_id field) "customfield_26360" then
    if String.eqb (jf_id field) "customfield_26360"
    then Ok (Returned (extractInternalExternalValue description))
    else Ok (Returned (extractRoadmapValue description))
  else if Js.includes fieldName "story" && Js.includes fieldName "point" then
    Ok (extractStoryPoints lowerDescription)
  else if Js.includes fieldName "component" then
    Ok (extractComponent lowerDescription field)
  else if Js.includes fieldName "epic" then
    Ok (extractEpic lowerDescription)
  else if Js.includes fieldName "label" then
    Ok (extractLabels description)
  else Ok nothing.

(** [extractWithPatterns]: the loop over the fields, with the entries pushed
    so far; a [return] in the body leaves the loop with its own result. *)
Fixpoint extractWithPatterns_from (description : string)
    (jiraFields : list JiraField) (extractedFields : list ExtractedFieldValue)
  : Result (list ExtractedFieldValue) :=
  match jiraFields with
  | [] => Ok extractedFields
  | field :: jiraFields' =>
      outcome ←! extractField description field;
      match outcome with
      | Returned result => Ok result
      | Extracted (Some extractedValue) confidence =>
          extractWithPatterns_from description jiraFields'
            (extractedFields
               ++ [pattern_entry (jf_id field) extractedValue confidence])
      | Extracted None _ =>
          extractWithPatterns_from description jiraFields' extractedFields
      end
  end.

Definition extractWithPatterns (description : string)
    (jiraFields : list JiraField) : Result (list ExtractedFieldValue) :=
  extractWithPatterns_from description jiraFields [].

End Patterns.

(** *** [generateSuggestions] and [generateFieldSuggestion] *)

(** The lower-cased text an allowed value is scored by. *)
Definition suggestion_key (allowedValue : AllowedValue) : string :=
  match allowedValue with
  | AVStr s => Js.toLowerCase s
  | AVOpt o =>
      let of_value := default EmptyString (Js.toLowerCase <$> opt_value o) in
      let of_name := default EmptyString (Js.toLowerCase <$> opt_name o) in
      if Js.truthy_str of_value then of_value
      else if Js.truthy_str of_name then of_name
      else EmptyString
  end.

Definition suggestion_score (field : JiraField) (lowerDescription : string)
    (allowedValue : AllowedValue) : nat :=
  let value := suggestion_key allowedValue in
  let exact := if Js.includes lowerDescription value then 10 else 0 in
  let partial :=
    fold_left (fun score word =>
                 if (2 <? String.length word)%nat
                    && Js.includes lowerDescription word
                 then score + 3 else score)
      (Js.split_ws value) 0 in
  let bonus (cond : bool) (n : nat) := if cond then n else 0 in
  let common :=
    if Js.includes (Js.toLowerCase (jf_name field)) "priority"
    then bonus (Js.includes lowerDescription "urgent"
                && Js.includes value "high") 5
         + bonus (Js.includes lowerDescription "important"
                  && Js.includes value "high") 3
         + bonus (Js.includes lowerDescription "later"
                  && Js.includes value "low") 3
    else 0 in
  exact + partial + common.

(** [sort((a, b) => b.score - a.score)]: a stable sort, highest score first.
    [insert_by_score x sorted] puts [x], which comes before every element of
    [sorted] in the array, in front of the first element that does not score
    more than [x]. *)
Fixpoint insert_by_score (x : AllowedValue * nat)
    (sorted : list (AllowedValue * nat)) : list (AllowedValue * nat) :=
  match sorted with
  | [] => [x]
  | y :: sorted' =>
      if (snd y <=? snd x)%nat then x :: sorted
      else y :: insert_by_score x sorted'
  end.

Definition sort_by_score (l : list (AllowedValue * nat))
  : list (AllowedValue * nat) :=
  fold_right insert_by_score [] l.

Definition generateSuggestions (field : JiraField) (description : string)
  : list AllowedValue :=
  match jf_allowedValues field with
  | None => []
  | Some allowedValues =>
      let lowerDescription := Js.toLowerCase description in
      let suggestions :=
        List.filter (fun s => (0 <? snd s)%nat)
          ((fun allowedValue =>
              (allowedValue,
               suggestion_score field lowerDescription allowedValue))
             <$> allowedValues) in
      fst <$> take 5 (sort_by_score suggestions)
  end.

(** How an allowed value prints inside [join]. *)
Definition print_allowed (allowedValue : AllowedValue) : string :=
  match allowedValue with
  | AVStr s => s
  | AVOpt _ => "[object Object]"
  end.

Definition generateFieldSuggestion (jiraField : JiraField)
    (description : string) : string :=
  let suggestions := generateSuggestions jiraField description in
  if (0 <? length suggestions)%nat
  then "Consider: " +:+ Js.join ", " (print_allowed <$> take 3 suggestions)
  else EmptyString.

(** *** Configuration and result types *)

(** Modelled from the spec: the declaration of [FieldExtractionConfig], in a
    module of types that is not among the sources. The method is one of
    ['ai'], ['pattern'], ['manual'] and the mode one of ['auto-apply'],
    ['always-confirm'], ['manual-only']; they are kept as the strings the
    code compares them with. *)
Record FieldExtractionConfig : Type := {
  jiraFieldId : string;
  extractionEnabled : bool;
  extractionMethod : string;
  extractionMode : string;
  confidenceThreshold : Q;
  displayName : string;
  requiredForSubmission : bool
}.

(** Modelled from the spec: the declaration of [ExtractionPreferences], in
    the same module of types. *)
Record ExtractionPreferences : Type := {
  defaultMethod : string;
  globalConfidenceThreshold : Q;
  requireConfirmationForAll : bool;
  enableSmartDefaults : bool
}.

(** Modelled from the spec: the declaration of [ExtractionCandidate], with
    the fields the code gives it. *)
Record ExtractionCandidate : Type := {
  cand_fieldId : string;
  cand_value : JsValue;
  cand_confidence : Q;
  cand_extractionMethod : ExtractionMethod;
  cand_suggestion : string
}.

(** The counters of [extractionSummary], as the code returns them. *)
Record ExtractionSummary : Type := {
  totalFields : nat;
  autoAppliedCount : nat;
  confirmationCount : nat;
  manualCount : nat;
  skippedCount : nat
}.

(** Modelled from the spec: the declaration of [EnhancedExtractionResult],
    with the fields of the object the code returns. While a run goes on, the
    same record holds the buckets and the counters built so far. *)
Record EnhancedExtractionResult : Type := {
  autoApplied : gmap string JsValue;
  requiresConfirmation : gmap string ExtractionCandidate;
  manualFields : list string;
  skippedFields : list string;
  extractionSummary : ExtractionSummary
}.

(** *** [extractWithAI] *)

(** An element of [fieldsInfo], which the prompt prints. *)
Record FieldInfo : Type := {
  fi_id : string;
  fi_name : string;
  fi_type : string;
  fi_required : bool;
  fi_allowedValues : option (list AllowedValue)
}.

(** The two values that the prompt, a fixed text otherwise, is built from. *)
Record Prompt : Type := {
  prompt_description : string;
  prompt_fieldsInfo : list FieldInfo
}.

Definition fieldInfo (field : JiraField) : FieldInfo :=
  {| fi_id := jf_id field;
     fi_name := jf_name field;
     fi_type := if Js.truthy_str (jf_type field) then jf_type field else "string";
     fi_required := jf_required field;
     fi_allowedValues := take 10 <$> jf_allowedValues field |}.

Definition buildPrompt (description : string) (jiraFields : list JiraField)
  : Prompt :=
  {| prompt_description := description;
     prompt_fieldsInfo := fieldInfo <$> jiraFields |}.

(** [o.key] on a parsed value: [None] is [undefined]. *)
Definition get (key : string) (j : json) : option json :=
  match j with
  | JObj entries => lookup_key key entries
  | _ => None
  end.

Definition js_truthy (j : json) : bool :=
  match j with
  | JNull => false
  | JBool b => b
  | JNum q => negb (Qeq_bool q 0)
  | JStr s => Js.truthy_str s
  | JArr _ | JObj _ => true
  end.

(** The id of an accepted extraction, which the interface types as a string;
    an id of another kind is kept as the empty string. *)
Definition fieldId_of (j : json) : string :=
  match j with
  | JStr s => s
  | _ => EmptyString
  end.

(** [interface FieldExtractionResult] *)
Record FieldExtractionResult : Type := {
  extractedFields : list ExtractedFieldValue;
  missingFields : list string;
  suggestions : gmap string (list AllowedValue)
}.

Section Service.

Variable now : Clock.
(** [callAIProvider(prompt, provider, apiKey)]: the text of the response,
    as its code units, or the error of a failed request. *)
Variable callAIProvider : Prompt → string → string → Result Js.codeUnits.
(** [JSON.parse]: [None] when it throws a [SyntaxError]. *)
Variable JSON_parse : Js.codeUnits → option json.
(** The number a parsed value that is not a number converts to in a
    comparison; [None] is [NaN]. *)
Variable ToNumber : json → option Q.
(** [templateService.getFieldExtractionConfig(workItemType)] *)
Variable getFieldExtractionConfig :
  string → list FieldExtractionConfig * ExtractionPreferences.

Definition number_of (j : option json) : option Q :=
  match j with
  | Some (JNum q) => Some q
  | Some other => ToNumber other
  | None => None
  end.

(** The test and the [push] of the loop over [result.extractions]; reading a
    property of [null] throws. *)
Definition acceptExtraction (extraction : json)
  : Result (option ExtractedFieldValue) :=
  match extraction with
  | JNull => Throw "Cannot read properties of null (reading 'fieldId')"
  | _ =>
      let fieldId := get "fieldId" extraction in
      let value := get "value" extraction in
      let confidence := number_of (get "confidence" extraction) in
      match fieldId, confidence with
      | Some fieldId, Some confidence =>
          if js_truthy fieldId
             && negb (match value with Some JNull => true | _ => false end)
             && q_gt confidence 0.5%Q
          then Ok (Some {| efv_fieldId := fieldId_of fieldId;
                           efv_value := match value with
                                        | Some v => VJson v
                                        | None => VUndefined
                                        end;
                           efv_confidence := confidence;
                           efv_extractionMethod := ByAi |})
          else Ok None
      | _, _ => Ok None
      end
  end.

Fixpoint acceptExtractions (extractions : list json)
    (extractedFields : list ExtractedFieldValue)
  : Result (list ExtractedFieldValue) :=
  match extractions with
  | [] => Ok extractedFields
  | extraction :: extractions' =>
      accepted ←! acceptExtraction extraction;
      acceptExtractions extractions'
        (match accepted with
         | Some e => extractedFields ++ [e]
         | None => extractedFields
         end)
  end.

Definition extractWithAI (description : string) (jiraFields : list JiraField)
    (aiProvider apiKey : string) : Result (list ExtractedFieldValue) :=
  match callAIProvider (buildPrompt description jiraFields) aiProvider apiKey with
  | Throw error => Throw error
  | Ok response =>
      if negb (0 <? length response)%nat || Js.trims_to_empty response
      then Throw "Empty response from AI provider"
      else
        match JSON_parse response with
        | None => Ok []
        | Some JNull =>
            Throw "Cannot read properties of null (reading 'extractions')"
        | Some result =>
            match get "extractions" result with
            | Some (JArr extractions) => acceptExtractions extractions []
            | _ => Ok []
            end
        end
  end.

(** *** The extraction policy engine *)

(** [aiExtracted.length > 0 && aiExtracted[0].confidence >= threshold] *)
Definition first_above (extracted : list ExtractedFieldValue) (threshold : Q)
  : option ExtractedFieldValue :=
  match extracted with
  | first :: _ =>
      if q_ge (efv_confidence first) threshold then Some first else None
  | [] => None
  end.

(** [extractSingleFieldValue]: an exception of either extractor is caught
    and gives [null]. *)
Definition extractSingleFieldValue (description : string)
    (jiraField : JiraField) (fieldConfig : FieldExtractionConfig)
    (aiProvider apiKey : option string) : option ExtractedFieldValue :=
  let fromPatterns :=
    if String.eqb (extractionMethod fieldConfig) "ai"
       || String.eqb (extractionMethod fieldConfig) "pattern"
    then
      match extractWithPatterns now description [jiraField] with
      | Ok patternExtracted =>
          first_above patternExtracted (confidenceThreshold fieldConfig)
      | Throw _ => None
      end
    else None in
  if String.eqb (extractionMethod fieldConfig) "ai"
     && Js.truthy_opt aiProvider && Js.truthy_opt apiKey
  then
    match extractWithAI description [jiraField]
            (default EmptyString aiProvider) (default EmptyString apiKey) with
    | Ok aiExtracted =>
        match first_above aiExtracted (confidenceThreshold fieldConfig) with
        | Some first => Some first
        | None => fromPatterns
        end
    | Throw _ => None
    end
  else fromPatterns.

Definition shouldAutoApplyField (fieldConfig : FieldExtractionConfig)
    (candidate : ExtractionCandidate) (preferences : ExtractionPreferences)
  : bool :=
  if requireConfirmationForAll preferences then false
  else if String.eqb (extractionMode fieldConfig) "auto-apply"
  then q_ge (cand_confidence candidate) (confidenceThreshold fieldConfig)
  else if String.eqb (extractionMode fieldConfig) "always-confirm" then false
  else if String.eqb (extractionMode fieldConfig) "manual-only" then false
  else false.

(** [extractSingleFieldWithDefaults] *)
Definition extractSingleFieldWithDefaults (description : string)
    (jiraField : JiraField) (preferences : ExtractionPreferences)
    (aiProvider apiKey : option string) : option ExtractedFieldValue :=
  let fromPatterns :=
    match extractWithPatterns now description [jiraField] with
    | Ok (first :: _) => Some first
    | Ok [] => None
    | Throw _ => None
    end in
  if String.eqb (defaultMethod preferences) "ai"
     && Js.truthy_opt aiProvider && Js.truthy_opt apiKey
  then
    match extractWithAI description [jiraField]
            (default EmptyString aiProvider) (default EmptyString apiKey) with
    | Ok (first :: _) => Some first
    | Ok [] => fromPatterns
    | Throw _ => None
    end
  else fromPatterns.

Definition mkCandidate (jiraField : JiraField) (description : string)
    (extractedValue : ExtractedFieldValue) : ExtractionCandidate :=
  {| cand_fieldId := jf_id jiraField;
     cand_value := efv_value extractedValue;
     cand_confidence := efv_confidence extractedValue;
     cand_extractionMethod := efv_extractionMethod extractedValue;
     cand_suggestion := generateFieldSuggestion jiraField description |}.

(** The updates of the buckets and of the counters. *)
Definition set_autoApplied (fieldId : string) (v : JsValue)
    (r : EnhancedExtractionResult) : EnhancedExtractionResult :=
  {| autoApplied := <[fieldId := v]> (autoApplied r);
     requiresConfirmation := requiresConfirmation r;
     manualFields := manualFields r;
     skippedFields := skippedFields r;
     extractionSummary := extractionSummary r |}.

Definition set_requiresConfirmation (fieldId : string)
    (candidate : ExtractionCandidate) (r : EnhancedExtractionResult)
  : EnhancedExtractionResult :=
  {| autoApplied := autoApplied r;
     requiresConfirmation := <[fieldId := candidate]> (requiresConfirmation r);
     manualFields := manualFields r;
     skippedFields := skippedFields r;
     extractionSummary := extractionSummary r |}.

Definition push_manualFields (fieldId : string) (r : EnhancedExtractionResult)
  : EnhancedExtractionResult :=
  {| autoApplied := autoApplied r;
     requiresConfirmation := requiresConfirmation r;
     manualFields := manualFields r ++ [fieldId];
     skippedFields := skippedFields r;
     extractionSummary := extractionSummary r |}.

Definition push_skippedFields (fieldId : string) (r : EnhancedExtractionResult)
  : EnhancedExtractionResult :=
  {| autoApplied := autoApplied r;
     requiresConfirmation := requiresConfirmation r;
     manualFields := manualFields r;
     skippedFields := skippedFields r ++ [fieldId];
     extractionSummary := extractionSummary r |}.

Definition with_summary (f : ExtractionSummary → ExtractionSummary)
    (r : EnhancedExtractionResult) : EnhancedExtractionResult :=
  {| autoApplied := autoApplied r;
     requiresConfirmation := requiresConfirmation r;
     manualFields := manualFields r;
     skippedFields := skippedFields r;
     extractionSummary := f (extractionSummary r) |}.

(** [totalFields++] and the like *)
Definition incr_totalFields (s : ExtractionSummary) : ExtractionSummary :=
  {| totalFields := S (totalFields s);
     autoAppliedCount := autoAppliedCount s;
     confirmationCount := confirmationCount s;
     manualCount := manualCount s;
     skippedCount := skippedCount s |}.
Definition incr_autoAppliedCount (s : ExtractionSummary) : ExtractionSummary :=
  {| totalFields := totalFields s;
     autoAppliedCount := S (autoAppliedCount s);
     confirmationCount := confirmationCount s;
     manualCount := manualCount s;
     skippedCount := skippedCount s |}.
Definition incr_confirmationCount (s : ExtractionSummary) : ExtractionSummary :=
  {| totalFields := totalFields s;
     autoAppliedCount := autoAppliedCount s;
     confirmationCount := S (confirmationCount s);
     manualCount := manualCount s;
     skippedCount := skippedCount s |}.
Definition incr_manualCount (s : ExtractionSummary) : ExtractionSummary :=
  {| totalFields := totalFields s;
     autoAppliedCount := autoAppliedCount s;
     confirmationCount := confirmationCount s;
     manualCount := S (manualCount s);
     skippedCount := skippedCount s |}.
Definition incr_skippedCount (s : ExtractionSummary) : ExtractionSummary :=
  {| totalFields := totalFields s;
     autoAppliedCount := autoAppliedCount s;
     confirmationCount := confirmationCount s;
     manualCount := manualCount s;
     skippedCount := S (skippedCount s) |}.

(** [processFieldWithDefaults]: it updates the two maps and the list of
    manual fields it is given; the counters are local variables of its
    caller, which it does not see. *)
Definition processFieldWithDefaults (description : string)
    (jiraField : JiraField) (preferences : ExtractionPreferences)
    (aiProvider apiKey : option string) (r : EnhancedExtractionResult)
  : EnhancedExtractionResult :=
  match extractSingleFieldWithDefaults description jiraField preferences
          aiProvider apiKey with
  | Some extractedValue =>
      if q_ge (efv_confidence extractedValue)
           (globalConfidenceThreshold preferences)
      then
        let candidate := mkCandidate jiraField description extractedValue in
        if requireConfirmationForAll preferences
           || q_lt (efv_confidence extractedValue) 0.8%Q
        then set_requiresConfirmation (jf_id jiraField) candidate r
        else set_autoApplied (jf_id jiraField) (efv_value extractedValue) r
      else push_manualFields (jf_id jiraField) r
  | None => push_manualFields (jf_id jiraField) r
  end.

(** The body of the loop of [extractFieldValuesWithConfig]. *)
Definition processField (description : string)
    (fieldConfigs : list FieldExtractionConfig)
    (preferences : ExtractionPreferences) (aiProvider apiKey : option string)
    (r : EnhancedExtractionResult) (jiraField : JiraField)
  : EnhancedExtractionResult :=
  let config :=
    List.find (fun c => String.eqb (jiraFieldId c) (jf_id jiraField))
      fieldConfigs in
  match config with
  | None =>
      if negb (jf_required jiraField) then r
      else
        processFieldWithDefaults description jiraField preferences
          aiProvider apiKey (with_summary incr_totalFields r)
  | Some config =>
      let r := with_summary incr_totalFields r in
      if negb (extractionEnabled config) then
        with_summary incr_skippedCount (push_skippedFields (jf_id jiraField) r)
      else if String.eqb (extractionMethod config) "manual"
              || String.eqb (extractionMode config) "manual-only" then
        with_summary incr_manualCount (push_manualFields (jf_id jiraField) r)
      else
        match extractSingleFieldValue description jiraField config
                aiProvider apiKey with
        | Some extractedValue =>
            let candidate := mkCandidate jiraField description extractedValue in
            if shouldAutoApplyField config candidate preferences
            then with_summary incr_autoAppliedCount
                   (set_autoApplied (jf_id jiraField)
                      (efv_value extractedValue) r)
            else with_summary incr_confirmationCount
                   (set_requiresConfirmation (jf_id jiraField) candidate r)
        | None =>
            with_summary incr_manualCount
              (push_manualFields (jf_id jiraField) r)
        end
  end.

Definition emptyResult : EnhancedExtractionResult :=
  {| autoApplied := ∅;
     requiresConfirmation := ∅;
     manualFields := [];
     skippedFields := [];
     extractionSummary :=
       {| totalFields := 0; autoAppliedCount := 0; confirmationCount := 0;
          manualCount := 0; skippedCount := 0 |} |}.

Definition extractFieldValuesWithConfig (description : string)
    (jiraFields : list JiraField) (workItemType : string)
    (aiProvider apiKey : option string) : EnhancedExtractionResult :=
  let '(fieldConfigs, preferences) := getFieldExtractionConfig workItemType in
  fold_left (processField description fieldConfigs preferences aiProvider apiKey)
    jiraFields emptyResult.

(** *** The earlier entry point, [extractFieldValues] *)

(** [new Set(extractedFields.map(f => f.fieldId)).has(id)] *)
Definition has_entry (extracted : list ExtractedFieldValue) (id : string)
  : bool :=
  existsb (fun f => String.eqb (efv_fieldId f) id) extracted.

(** The loop that fills [suggestions]: an entry for every field with a
    list of allowed values that is not empty. *)
Definition collectSuggestions (description : string)
    (jiraFields : list JiraField) : gmap string (list AllowedValue) :=
  fold_left (fun suggestions field =>
               match jf_allowedValues field with
               | Some (_ :: _) =>
                   <[jf_id field := generateSuggestions field description]>
                     suggestions
               | _ => suggestions
               end)
    jiraFields ∅.

(** [extractFieldValues]: a failure of [extractWithAI] is caught and the
    patterns take over; an exception of [extractWithPatterns] is not. *)
Definition extractFieldValues (description : string)
    (jiraFields : list JiraField) (aiProvider apiKey : option string)
  : Result FieldExtractionResult :=
  let aiExtracted :=
    if Js.truthy_opt aiProvider && Js.truthy_opt apiKey
    then
      match extractWithAI description jiraFields
              (default EmptyString aiProvider) (default EmptyString apiKey) with
      | Ok aiExtracted => aiExtracted
      | Throw _ => []
      end
    else [] in
  let remainingFields :=
    List.filter (fun field => negb (has_entry aiExtracted (jf_id field)))
      jiraFields in
  patternExtracted ←! extractWithPatterns now description remainingFields;
  let extractedFields := aiExtracted ++ patternExtracted in
  Ok {| extractedFields := extractedFields;
        missingFields :=
          jf_id <$> List.filter
                      (fun field => jf_required field
                                    && negb (has_entry extractedFields
                                               (jf_id field)))
                      jiraFields;
        suggestions := collectSuggestions description jiraFields |}.

End Service.

End FieldExtractionService.

(** ** The Jira field service: fields inferred from an error response *)

Module JiraFieldService.
Import Regex.

(** The double quote. *)
Definition dquote : ascii := ascii_of_nat 34.
Definition is_not (c : ascii) (x : ascii) : bool := negb (Ascii.eqb x c).

(** The three patterns tried on an error text, with the flags [gi]. *)
Definition requiredPatterns : list regex :=
  [ (* /Field '([^']+)' is required/gi *)
    seqs [liti "Field '"; Grp 1 (plus (cls (is_not "'"))); liti "' is required"];
    (* /([a-zA-Z_][a-zA-Z0-9_]* ) is required/gi, without the space *)
    seqs [Grp 1 (Seq (cls (fun c => Js.is_alpha c || Ascii.eqb c "_"))
                     (Star (cls Js.is_word)));
          liti " is required"];
    (* the same as the first with double quotes instead of 'Field' and quotes *)
    seqs [chr dquote; Grp 1 (plus (cls (is_not dquote))); chr dquote;
          liti " is required"] ].

(** [/^([^.]+) is required/i] *)
Definition nameRe : regex :=
  seqs [Grp 1 (plus (cls (is_not "."))); liti " is required"].

(** [errorMessage.match(/^([^.]+) is required/i)]: [^] holds at the start of
    the text only. *)
Definition match_name (errorMessage : string) : option rmatch_result :=
  match_here nameRe None (list_ascii_of_string errorMessage) 0.

Definition guessFieldTypeFromId (fieldId : string) : string :=
  if String.eqb fieldId "customfield_26362" then "select"
  else if String.eqb fieldId "customfield_26360" then "multiselect"
  else if Js.includes fieldId "date" || Js.includes fieldId "time" then "date"
  else if Js.includes fieldId "number" || Js.includes fieldId "point"
  then "number"
  else if Js.includes fieldId "priority" || Js.includes fieldId "status"
          || Js.includes fieldId "type" then "select"
  else if Js.includes fieldId "description" || Js.includes fieldId "comment"
  then "textarea"
  else if Js.includes fieldId "roadmap" || Js.includes fieldId "include"
  then "select"
  else if Js.includes fieldId "quarter" then "select"
  else "text".

Definition quarter_of (q : string) (year : N) : string :=
  q +:+ " " +:+ pretty year.

Definition getCommonAllowedValues (now : Clock) (fieldId fieldName : string)
  : option (list string) :=
  let lowerFieldName := Js.toLowerCase fieldName in
  let currentYear := getFullYear now in
  let nextYear := (currentYear + 1)%N in
  if String.eqb fieldId "customfield_26362"
     || Js.includes lowerFieldName "delivery quarter" then
    Some [quarter_of "Q1" currentYear; quarter_of "Q2" currentYear;
          quarter_of "Q3" currentYear; quarter_of "Q4" currentYear;
          quarter_of "Q1" nextYear; quarter_of "Q2" nextYear;
          quarter_of "Q3" nextYear; quarter_of "Q4" nextYear]
  else if String.eqb fieldId "customfield_26360"
          || Js.includes lowerFieldName "roadmap"
          || Js.includes lowerFieldName "include on roadmap" then
    Some ["Internal"; "External"]
  else if String.eqb fieldId "issuetype"
          || Js.includes lowerFieldName "issue type" then
    Some ["Epic"; "Story"; "Task"; "Bug"; "Initiative"]
  else if String.eqb fieldId "priority"
          || Js.includes lowerFieldName "priority" then
    Some ["Highest"; "High"; "Medium"; "Low"; "Lowest"]
  else if Js.includes lowerFieldName "quarter" then
    Some [quarter_of "Q1" currentYear; quarter_of "Q2" currentYear;
          quarter_of "Q3" currentYear; quarter_of "Q4" currentYear;
          quarter_of "Q1" nextYear; quarter_of "Q2" nextYear]
  else if Js.includes lowerFieldName "yes" || Js.includes lowerFieldName "no"
          || Js.includes lowerFieldName "include" then
    Some ["Yes"; "No"]
  else None.

Definition standardNames : list (string * string) :=
  [ ("summary", "Title"); ("description", "Description");
    ("assignee", "Assignee"); ("reporter", "Reporter");
    ("priority", "Priority"); ("issuetype", "Issue Type");
    ("project", "Project"); ("fixVersions", "Fix Version/s");
    ("versions", "Affects Version/s"); ("components", "Component/s");
    ("labels", "Labels"); ("duedate", "Due Date");
    ("resolution", "Resolution"); ("status", "Status");
    ("created", "Created"); ("updated", "Updated");
    ("resolutiondate", "Resolved"); ("worklog", "Work Log");
    ("attachment", "Attachment"); ("comment", "Comments");
    ("issuelinks", "Linked Issues"); ("subtasks", "Sub-tasks");
    ("parent", "Parent"); ("customfield_10000", "Story Points");
    ("customfield_10001", "Epic Name"); ("customfield_10002", "Epic Link") ].

(** The properties that the object literal [standardNames] inherits from
    [Object.prototype]: a look-up of one of them gives a function or an
    object, which is truthy and is not a string. *)
Definition inheritedProperties : list string :=
  [ "constructor"; "hasOwnProperty"; "isPrototypeOf"; "propertyIsEnumerable";
    "toLocaleString"; "toString"; "valueOf"; "__proto__";
    "__defineGetter__"; "__defineSetter__"; "__lookupGetter__";
    "__lookupSetter__" ].

(** [fieldId.charAt(0).toUpperCase() + fieldId.slice(1)] *)
Definition capitalize (s : string) : string :=
  match s with
  | EmptyString => EmptyString
  | String c s' => Js.toUpperCase1 c +:+ s'
  end.

(** [formatFieldName]: [None] when the result is not a string. *)
Definition formatFieldName (fieldId : string) : option string :=
  match FieldExtractionService.lookup_key fieldId standardNames with
  | Some name => Some name
  | None =>
      if existsb (String.eqb fieldId) inheritedProperties then None
      else Some (capitalize fieldId)
  end.

Definition discovered (now : Clock) (fieldId fieldName text : string)
  : JiraField :=
  {| jf_id := fieldId;
     jf_name := fieldName;
     jf_type := guessFieldTypeFromId fieldId;
     jf_required := true;
     jf_allowedValues :=
       List.map AVStr <$> getCommonAllowedValues now fieldId fieldName;
     jf_description :=
       Some ("Required field discovered from error: " +:+ text) |}.

(** One entry of [errorData.errors]. [getCommonAllowedValues] throws on a
    name that is not a string, which has no [toLowerCase]. *)
Definition fromErrorEntry (now : Clock) (fields : list JiraField)
    (entry : string * json) : Result (list JiraField) :=
  let '(fieldId, errorMessage) := entry in
  match errorMessage with
  | JStr errorMessage =>
      if Js.includes (Js.toLowerCase errorMessage) "required" then
        let fieldName :=
          match match_name errorMessage with
          | Some nameMatch => Some (default EmptyString (group 1 nameMatch))
          | None => formatFieldName fieldId
          end in
        match fieldName with
        | Some fieldName =>
            Ok (fields ++ [discovered now fieldId fieldName errorMessage])
        | None => Throw "fieldName.toLowerCase is not a function"
        end
      else Ok fields
  | _ => Ok fields
  end.

Fixpoint fromErrorEntries (now : Clock) (entries : list (string * json))
    (fields : list JiraField) : Result (list JiraField) :=
  match entries with
  | [] => Ok fields
  | entry :: entries' =>
      fields' ←! fromErrorEntry now fields entry;
      fromErrorEntries now entries' fields'
  end.

(** The loops on [pattern.exec(text)] over the three patterns: every match
    whose field id is new adds a field. *)
Definition addMatch (now : Clock) (text : string) (fields : list JiraField)
    (m : rmatch_result) : list JiraField :=
  let fieldId := default EmptyString (group 1 m) in
  if Js.truthy_str fieldId
     && negb (existsb (fun f => String.eqb (jf_id f) fieldId) fields)
  then fields ++ [discovered now fieldId fieldId text]
  else fields.

Definition scanText (now : Clock) (text : string) (fields : list JiraField)
  : list JiraField :=
  fold_left (fun fields pattern =>
               fold_left (addMatch now text) (search_all pattern text) fields)
    requiredPatterns fields.

Definition scanMessage (now : Clock) (fields : list JiraField) (message : json)
  : list JiraField :=
  match message with
  | JStr message => scanText now message fields
  | _ => fields
  end.

(** [Object.entries] of an object or of an array. *)
Definition entries_of (j : json) : option (list (string * json)) :=
  match j with
  | JObj entries => Some entries
  | JArr items => Some (imap (fun i item => (pretty i, item)) items)
  | _ => None
  end.

(** The fields read from the payload, before the fallback. *)
Definition parsedFields (now : Clock) (errorData : json)
  : Result (list JiraField) :=
  match errorData with
  | JObj _ | JArr _ =>
      fields ←!
        match FieldExtractionService.get "errors" errorData with
        | Some errors =>
            match entries_of errors with
            | Some entries => fromErrorEntries now entries []
            | None => Ok []
            end
        | None => Ok []
        end;
      match FieldExtractionService.get "errorMessages" errorData with
      | Some (JArr errorMessages) =>
          Ok (fold_left (scanMessage now) errorMessages fields)
      | _ => Ok fields
      end
  | JStr text => Ok (scanText now text [])
  | _ => Ok []
  end.

Definition plainField (id name type : string) (required : bool)
    (allowedValues : option (list string)) : JiraField :=
  {| jf_id := id; jf_name := name; jf_type := type; jf_required := required;
     jf_allowedValues := List.map AVStr <$> allowedValues;
     jf_description := None |}.

(** The common required fields added when none was found. *)
Definition minimalFields : list JiraField :=
  [ plainField "summary" "Summary" "text" true None;
    plainField "description" "Description" "textarea" false None;
    plainField "issuetype" "Issue Type" "select" true
      (Some ["Epic"; "Story"; "Task"; "Bug"; "Initiative"]);
    plainField "project" "Project" "select" true None ].

Definition parseErrorForRequiredFields (now : Clock) (errorData : json)
  : Result (list JiraField) :=
  fields ←! parsedFields now errorData;
  if (length fields =? 0)%nat then Ok (fields ++ minimalFields) else Ok fields.

(** *** [mapJiraFieldType] *)

Definition typeMap : list (string * string) :=
  [ ("string", "text"); ("number", "number"); ("date", "date");
    ("datetime", "date"); ("option", "select"); ("array", "multiselect");
    ("user", "text"); ("project", "text"); ("issuetype", "select");
    ("priority", "select"); ("resolution", "select"); ("status", "select") ].

(** [typeMap[jiraType] || 'text']: [None] when the look-up gives an
    inherited property, which is not a string. *)
Definition mapJiraFieldType (jiraType : string) : option string :=
  match FieldExtractionService.lookup_key jiraType typeMap with
  | Some type => Some type
  | None =>
      if existsb (String.eqb jiraType) inheritedProperties then None
      else Some "text"
  end.

(** *** [searchFields] *)

Definition matchesTerm (term : string) (field : JiraField) : bool :=
  Js.includes (Js.toLowerCase (jf_name field)) term
  || Js.includes (Js.toLowerCase (jf_id field)) term
  || match jf_description field with
     | Some description => Js.includes (Js.toLowerCase description) term
     | None => false
     end.

Definition searchFields (fields : list JiraField) (searchTerm : string)
  : list JiraField :=
  if Js.is_blank searchTerm then fields
  else List.filter (matchesTerm (Js.toLowerCase searchTerm)) fields.

(** *** [categorizeFields] and [getFieldUsageStats] *)

Definition commonFieldIds : list string :=
  [ "assignee"; "priority"; "fixVersions"; "components"; "labels"; "duedate";
    "customfield_10000"; "customfield_10001"; "customfield_10002" ].

Definition commonFieldNames : list string :=
  [ "story points"; "assignee"; "priority"; "labels"; "component";
    "fix version"; "due date"; "epic"; "sprint" ].

Definition isCommonlyUsedField (field : JiraField) : bool :=
  existsb (String.eqb (jf_id field)) commonFieldIds
  || existsb (Js.includes (Js.toLowerCase (jf_name field))) commonFieldNames.

Definition isProjectSpecificField (field : JiraField) : bool :=
  Js.startsWith (jf_id field) "customfield_" && negb (isCommonlyUsedField field).

Definition systemFields : list string :=
  [ "created"; "updated"; "creator"; "reporter"; "status"; "resolution";
    "resolutiondate"; "worklog"; "attachment"; "comment"; "issuelinks";
    "subtasks"; "parent"; "project"; "issuetype" ].

Definition isSystemField (field : JiraField) : bool :=
  existsb (String.eqb (jf_id field)) systemFields
  || Js.includes (jf_id field) "time" || Js.includes (jf_id field) "log".

Record FieldCategories : Type := {
  commonly_used : list JiraField;
  project_specific : list JiraField;
  optional_standard : list JiraField;
  system_fields : list JiraField
}.

(** [categorizeFields]. A field of [fields] is in one of the three filtered
    arrays exactly when it passes the filter, which is how the test
    [includes(field)] of the fourth filter is written here. *)
Definition categorizeFields (fields : list JiraField) : FieldCategories :=
  {| commonly_used := List.filter isCommonlyUsedField fields;
     project_specific := List.filter isProjectSpecificField fields;
     system_fields := List.filter isSystemField fields;
     optional_standard :=
       List.filter (fun field => negb (isCommonlyUsedField field)
                                 && negb (isProjectSpecificField field)
                                 && negb (isSystemField field))
         fields |}.

Record FieldUsageStats : Type := {
  usage_percentage : nat;
  is_popular : bool
}.

Definition getFieldUsageStats (field : JiraField) : FieldUsageStats :=
  let usage_percentage :=
    if isCommonlyUsedField field then 85
    else if jf_required field then 95
    else if isSystemField field then 30
    else if isProjectSpecificField field then 40
    else 50 in
  {| usage_percentage := usage_percentage;
     is_popular := (70 <? usage_percentage)%nat |}.

(** *** [mapWorkItemTypeToJiraIssueType] *)

(** [type WorkItemType], the keys of [mappings]. *)
Inductive WorkItemType : Type :=
| WAll | WStory | WEpic | WInitiative | WTask | WBug.

(** An issue type of the Jira instance, as the REST API gives it: an
    object with an id and a name, both strings. *)
Record IssueType : Type := {
  it_id : string;
  it_name : string
}.

Definition issueTypeCandidates (workItemType : WorkItemType) : list string :=
  match workItemType with
  | WAll => ["Story"; "Epic"; "Task"; "Bug"; "Initiative"]
  | WStory => ["Story"; "User Story"; "Task"]
  | WEpic => ["Epic"]
  | WInitiative => ["Initiative"; "Epic"; "Story"]
  | WTask => ["Task"; "Story"; "Sub-task"]
  | WBug => ["Bug"; "Defect"; "Issue"]
  end.

(** The loop over the candidates, left at the first candidate that the
    name of an issue type contains. *)
Fixpoint firstCandidate (candidates : list string) (issueTypes : list IssueType)
  : option IssueType :=
  match candidates with
  | [] => None
  | candidate :: candidates' =>
      match List.find (fun type =>
                Js.includes (Js.toLowerCase (it_name type))
                  (Js.toLowerCase candidate)) issueTypes with
      | Some found => Some found
      | None => firstCandidate candidates' issueTypes
      end
  end.

Definition mapWorkItemTypeToJiraIssueType (workItemType : WorkItemType)
    (issueTypes : list IssueType) : option IssueType :=
  match firstCandidate (issueTypeCandidates workItemType) issueTypes with
  | Some found => Some found
  | None => head issueTypes
  end.

(** *** The saved field mappings *)

(** [interface JiraFieldMapping] *)
Record JiraFieldMapping : Type := {
  workItemType : WorkItemType;
  issueType : string;
  fields : list JiraField;
  discoveredAt : string
}.

Definition sameType (a b : WorkItemType) : bool :=
  match a, b with
  | WAll, WAll | WStory, WStory | WEpic, WEpic | WInitiative, WInitiative
  | WTask, WTask | WBug, WBug => true
  | _, _ => false
  end.

(** Where the service runs. *)
Record Browser : Type := {
  (** [typeof window !== 'undefined']: false on the server side *)
  window : bool;
  (** reading [localStorage] and its items does not throw (a browser that
      blocks the storage throws a SecurityError) *)
  accessible : bool;
  (** [localStorage.setItem] does not throw (it does once the quota is
      exceeded) *)
  roomLeft : bool
}.

(** The item of [localStorage] under [STORAGE_KEY], the key of the service:
    - [NoItem]: there is none, or it is the empty text ([stored] is falsy);
    - [Unreadable]: a text on which the code throws, because [JSON.parse]
      rejects it or reads it as a value that is not an array;
    - [Saved mappings]: the JSON of an array of mappings, which is what
      [saveFieldMapping] writes; [JSON.parse] gives the mappings back.
    A text that is the JSON of an array of other values than mappings is
    not among them. *)
Inductive Storage : Type :=
| NoItem
| Unreadable
| Saved (mappings : list JiraFieldMapping).

(** [saveFieldMapping]: it returns at once without a window, and whatever
    is thrown after that is caught, the item being left as it is. *)
Definition saveFieldMapping (browser : Browser) (mapping : JiraFieldMapping)
    (stored : Storage) : Storage :=
  if negb (window browser) then stored
  else if negb (accessible browser) then stored
  else
    let parsed :=
      match stored with
      | NoItem => Ok []
      | Unreadable => Throw "Unexpected token in JSON"
      | Saved mappings => Ok mappings
      end in
    match parsed with
    | Throw _ => stored
    | Ok mappings =>
        let filtered :=
          List.filter (fun m => negb (sameType (workItemType m)
                                        (workItemType mapping))) mappings in
        if roomLeft browser then Saved (filtered ++ [mapping]) else stored
    end.

(** [getFieldMapping]: [null] without a window, without an item, and when
    something is thrown. *)
Definition getFieldMapping (browser : Browser) (type : WorkItemType)
    (stored : Storage) : option JiraFieldMapping :=
  if negb (window browser) then None
  else if negb (accessible browser) then None
  else
    match stored with
    | NoItem => None
    | Unreadable => None
    | Saved mappings =>
        List.find (fun m => sameType (workItemType m) type) mappings
    end.

(** [clearFieldMappings]: nothing is caught here. *)
Definition clearFieldMappings (browser : Browser) (stored : Storage)
  : Result Storage :=
  if negb (window browser) then Ok stored
  else if negb (accessible browser) then Throw "SecurityError"
  else Ok NoItem.

(** *** [mapWorkItemTypeToJiraIssueType] on what the server sent

    [getIssueTypes] is typed [any[]]: it gives [data.issueTypes || []] as
    the response had it (and the empty array when the request fails). The
    function is written once more for such a value, on which it can
    throw. *)

(** [type.name.toLowerCase()] for an element of the array: a TypeError
    unless the element has a name that is a string. *)
Definition nameOfAny (type : json) : Result string :=
  match type with
  | JNull => Throw "Cannot read properties of null (reading 'name')"
  | _ =>
      match FieldExtractionService.get "name" type with
      | Some (JStr name) => Ok name
      | Some JNull =>
          Throw "Cannot read properties of null (reading 'toLowerCase')"
      | Some _ => Throw "type.name.toLowerCase is not a function"
      | None =>
          Throw "Cannot read properties of undefined (reading 'toLowerCase')"
      end
  end.

(** [issueTypes.find(type => type.name.toLowerCase().includes(...))] *)
Fixpoint find_any (candidate : string) (items : list json)
  : Result (option json) :=
  match items with
  | [] => Ok None
  | type :: items' =>
      name ←! nameOfAny type;
      if Js.includes (Js.toLowerCase name) (Js.toLowerCase candidate)
      then Ok (Some type)
      else find_any candidate items'
  end.

Fixpoint firstCandidate_any (candidates : list string) (items : list json)
  : Result (option json) :=
  match candidates with
  | [] => Ok None
  | candidate :: candidates' =>
      found ←! find_any candidate items;
      match found with
      | Some found => Ok (Some found)
      | None => firstCandidate_any candidates' items
      end
  end.

Definition mapWorkItemTypeToJiraIssueType_any (workItemType : WorkItemType)
    (issueTypes : json) : Result (option json) :=
  match issueTypes with
  | JArr items =>
      found ←! firstCandidate_any (issueTypeCandidates workItemType) items;
      match found with
      | Some found => Ok (Some found)
      | None =>
          Ok (match head items with
              | Some first =>
                  if FieldExtractionService.js_truthy first then Some first
                  else None
              | None => None
              end)
      end
  | _ => Throw "issueTypes.find is not a function"
  end.

(** [issueType?.name || 'Unknown']. An issue type that
    [mapWorkItemTypeToJiraIssueType] returns has a name that is a string,
    so the last two cases do not arise. *)
Definition issueTypeName (issueType : option json) : string :=
  match issueType with
  | Some type =>
      match FieldExtractionService.get "name" type with
      | Some (JStr name) => if Js.truthy_str name then name else "Unknown"
      | Some _ => "Unknown"
      | None => "Unknown"
      end
  | None => "Unknown"
  end.

(** An issue type as the REST API gives it. *)
Definition issueTypeJson (type : IssueType) : json :=
  JObj [("id", JStr (it_id type)); ("name", JStr (it_name type))].

(** *** [discoverFieldsByTestCreation] and [discoverFieldsFromError] *)

(** [discoverFieldsByTestCreation], from the response of the test request:
    its [ok] flag and its body, or the failure of the request. Whatever is
    thrown is caught and gives no field. *)
Definition discoverFieldsByTestCreation (now : Clock)
    (response : Result (bool * json)) : list JiraField :=
  match response with
  | Ok (true, _) =>
      [ plainField "summary" "Summary" "text" true None;
        plainField "description" "Description" "textarea" false None ]
  | Ok (false, data) =>
      match parseErrorForRequiredFields now data with
      | Ok fields => fields
      | Throw _ => []
      end
  | Throw _ => []
  end.

(** The loop that replaces the allowed values of a custom field by the
    options fetched for it, when there are some. *)
Definition withActualOptions (getFieldOptions : string → list string)
    (field : JiraField) : JiraField :=
  if Js.startsWith (jf_id field) "customfield_"
  then
    let actualOptions := getFieldOptions (jf_id field) in
    if (0 <? length actualOptions)%nat
    then {| jf_id := jf_id field; jf_name := jf_name field;
            jf_type := jf_type field; jf_required := jf_required field;
            jf_allowedValues := Some (List.map AVStr actualOptions);
            jf_description := jf_description field |}
    else field
  else field.

(** [discoverFieldsFromError]: the mapping returned ([None] is [null]) and
    the item of the storage it leaves. [getFieldOptions] and [issueTypes]
    are what the two requests to the Jira instance give ([getFieldOptions]
    and [getIssueTypes] catch their own failures); [isoNow] is
    [new Date().toISOString()]. Whatever is thrown is caught and gives
    [null]; [saveFieldMapping] catches its own failures, so the mapping is
    returned also when it could not be saved. *)
Definition discoverFieldsFromError (now : Clock) (isoNow : string)
    (browser : Browser) (getFieldOptions : string → list string)
    (issueTypes : json) (type : WorkItemType) (errorData : json)
    (stored : Storage) : option JiraFieldMapping * Storage :=
  match parseErrorForRequiredFields now errorData with
  | Throw _ => (None, stored)
  | Ok discoveredFields =>
      if (length discoveredFields =? 0)%nat then (None, stored)
      else
        let discoveredFields :=
          List.map (withActualOptions getFieldOptions) discoveredFields in
        match mapWorkItemTypeToJiraIssueType_any type issueTypes with
        | Throw _ => (None, stored)
        | Ok issueType =>
            let mapping :=
              {| workItemType := type;
                 issueType := issueTypeName issueType;
                 fields := discoveredFields;
                 discoveredAt := isoNow |} in
            (Some mapping, saveFieldMapping browser mapping stored)
        end
  end.

End JiraFieldService.

(** ** Notions used in the statements *)

Import FieldExtractionService.

(** A field that [extractWithPatterns] takes to its priority branch. *)
Definition is_priority_field (field : JiraField) : bool :=
  Js.includes (Js.toLowerCase (jf_name field)) "priority".

(** A field that [extractWithPatterns] takes to its quarter branch. *)
Definition is_quarter_field (field : JiraField) : bool :=
  negb (is_priority_field field)
  && (Js.includes (Js.toLowerCase (jf_name field)) "quarter"
      || String.eqb (jf_id field) "customfield_26362").

(** A field that [extractWithPatterns] takes to its roadmap branch. *)
Definition is_roadmap_field (field : JiraField) : bool :=
  negb (is_priority_field field) && negb (is_quarter_field field)
  && (Js.includes (Js.toLowerCase (jf_name field)) "roadmap"
      || Js.includes (Js.toLowerCase (jf_name field)) "include"
      || String.eqb (jf_id field) "customfield_26360").

(** A field that [extractWithPatterns] takes to its epic branch. *)
Definition is_epic_field (field : JiraField) : bool :=
  let fieldName := Js.toLowerCase (jf_name field) in
  negb (is_priority_field field) && negb (is_quarter_field field)
  && negb (is_roadmap_field field)
  && negb (Js.includes fieldName "story" && Js.includes fieldName "point")
  && negb (Js.includes fieldName "component")
  && Js.includes fieldName "epic".

(** An explicit quarter in the text: one of [quarterPatterns] matches. *)
Definition explicit_quarter (description : string) : bool :=
  existsb (fun pattern => Regex.test pattern description) quarterPatterns.

(** The first 4-digit year of the text. *)
Definition year_in (description : string) : option string :=
  match Regex.search yearRe description with
  | Some yearMatch => Some (default EmptyString (Regex.group 1 yearMatch))
  | None => None
  end.

Definition quarterLabel (quarter : N) (year : string) : string :=
  "Q" +:+ pretty quarter +:+ " " +:+ year.

Definition standardPriorities : list AllowedValue :=
  AVStr <$> ["Highest"; "High"; "Medium"; "Low"; "Lowest"].

Definition field_of (id name type : string) (required : bool)
    (allowedValues : option (list AllowedValue)) : JiraField :=
  {| jf_id := id; jf_name := name; jf_type := type; jf_required := required;
     jf_allowedValues := allowedValues; jf_description := None |}.

(** Sample inputs. *)
Definition november2026 : Clock := {| getFullYear := 2026; getMonth := 10 |}.
Definition priorityField : JiraField :=
  field_of "priority" "Priority" "select" false (Some standardPriorities).
Definition roadmapThemeField : JiraField :=
  field_of "customfield_10500" "Roadmap Theme" "text" false None.
Definition epicLinkField : JiraField :=
  field_of "customfield_10002" "Epic Link" "text" false None.
Definition deliveryQuarterField : JiraField :=
  field_of "customfield_26362" "Delivery Quarter" "select" true
    (Some (AVStr <$> ["Q3 2025"; "Q4 2025"; "Q4 2026"])).
Definition summaryField : JiraField :=
  field_of "summary" "Summary" "text" true None.

(** A clock in the second quarter, and quarter fields for it. *)
Definition may2027 : Clock := {| getFullYear := 2027; getMonth := 4 |}.
Definition january2029 : Clock := {| getFullYear := 2029; getMonth := 0 |}.
Definition planningQuarterField : JiraField :=
  field_of "customfield_26362" "Delivery Quarter" "select" true
    (Some (AVStr <$> ["Q3 2025"; "Q2 2025"; "Q2 2027"; "Q4 2027"])).
Definition nextQuartersField : JiraField :=
  field_of "customfield_26362" "Delivery Quarter" "select" true
    (Some (AVStr <$> ["Q3 2026"; "Q4 2026"; "Q4 2027"])).

(** [config] with another [confidenceThreshold]. *)
Definition with_threshold (t : Q) (config : FieldExtractionConfig)
  : FieldExtractionConfig :=
  {| jiraFieldId := jiraFieldId config;
     extractionEnabled := extractionEnabled config;
     extractionMethod := extractionMethod config;
     extractionMode := extractionMode config;
     confidenceThreshold := t;
     displayName := displayName config;
     requiredForSubmission := requiredForSubmission config |}.

(** The configurations with the threshold of the field [fieldId] set to
    [t], all else unchanged. *)
Definition set_threshold (fieldId : string) (t : Q)
    (fieldConfigs : list FieldExtractionConfig) : list FieldExtractionConfig :=
  (fun config => if String.eqb (jiraFieldId config) fieldId
                 then with_threshold t config else config) <$> fieldConfigs.

Definition config_of (fieldId : string)
    (fieldConfigs : list FieldExtractionConfig) : option FieldExtractionConfig :=
  List.find (fun c => String.eqb (jiraFieldId c) fieldId) fieldConfigs.

(** The fields that go through [processFieldWithDefaults]: required, and
    without a configuration. *)
Definition on_defaults_path (fieldConfigs : list FieldExtractionConfig)
    (field : JiraField) : bool :=
  jf_required field
  && match config_of (jf_id field) fieldConfigs with
     | Some _ => false
     | None => true
     end.

(** The sum of the four bucket counters. *)
Definition bucketCounts (s : ExtractionSummary) : nat :=
  autoAppliedCount s + confirmationCount s + manualCount s + skippedCount s.

(** In how many buckets a field id is; the lists count with multiplicity. *)
Definition bucketsHolding (r : EnhancedExtractionResult) (k : string) : nat :=
  (if decide (k ∈ dom (autoApplied r)) then 1 else 0)
  + (if decide (k ∈ dom (requiresConfirmation r)) then 1 else 0)
  + length (List.filter (String.eqb k) (manualFields r))
  + length (List.filter (String.eqb k) (skippedFields r)).

Definition preferences_of (method : string) (threshold : Q) (confirmAll : bool)
  : ExtractionPreferences :=
  {| defaultMethod := method; globalConfidenceThreshold := threshold;
     requireConfirmationForAll := confirmAll; enableSmartDefaults := true |}.

Definition config_for (fieldId method mode : string) (threshold : Q)
  : FieldExtractionConfig :=
  {| jiraFieldId := fieldId; extractionEnabled := true;
     extractionMethod := method; extractionMode := mode;
     confidenceThreshold := threshold; displayName := fieldId;
     requiredForSubmission := false |}.

(** A provider that is never reached, and a [JSON.parse] that accepts
    nothing. *)
Definition noProvider : Prompt → string → string → Result Js.codeUnits :=
  fun _ _ _ => Throw "AI provider request failed".
Definition noJson : Js.codeUnits → option json := fun _ => None.
Definition noNumber : json → option Q := fun _ => None.

(** The relation between the result [lo] of a run and the result [hi] of
    the same run with a higher threshold: no field has gone to the
    auto-applied bucket, none has left the manual bucket, and the skipped
    fields are the same. *)
Definition no_promotion (lo hi : EnhancedExtractionResult) : Prop :=
  dom (autoApplied hi) ⊆ dom (autoApplied lo)
  ∧ (∀ k, k ∈ manualFields lo → k ∈ manualFields hi)
  ∧ skippedFields lo = skippedFields hi.

(** Sample configurations: the priority field in auto-apply mode with the
    threshold [t], and preferences with or without the global override. *)
Definition priorityConfigs (t : Q) : list FieldExtractionConfig :=
  [config_for "priority" "pattern" "auto-apply" t].
Definition sampleConfig (fieldConfigs : list FieldExtractionConfig)
    (confirmAll : bool)
  : string → list FieldExtractionConfig * ExtractionPreferences :=
  fun _ => (fieldConfigs, preferences_of "pattern" 0.7%Q confirmAll).

(** A run of the engine without an AI provider. *)
Definition runWithoutAi
    (getFieldExtractionConfig :
       string → list FieldExtractionConfig * ExtractionPreferences)
    (description : string) (jiraFields : list JiraField)
  : EnhancedExtractionResult :=
  extractFieldValuesWithConfig november2026 noProvider noJson noNumber
    getFieldExtractionConfig description jiraFields "story" None None.

(** A text in which none of the three patterns of an error text matches. *)
Definition no_required_match (text : string) : bool :=
  forallb (fun pattern =>
             match Regex.search_all pattern text with
             | [] => true
             | _ => false
             end)
    JiraFieldService.requiredPatterns.

(** A payload that names no required field: it is neither an object nor a
    text, or it is a text without a match, or it is an object whose
    [errors] have no message with the word "required" and whose
    [errorMessages] have no match. *)
Definition names_no_field (errorData : json) : bool :=
  match errorData with
  | JObj _ | JArr _ =>
      match get "errors" errorData with
      | Some errors =>
          match JiraFieldService.entries_of errors with
          | Some entries =>
              forallb (fun entry =>
                         match snd entry with
                         | JStr errorMessage =>
                             negb (Js.includes (Js.toLowerCase errorMessage)
                                     "required")
                         | _ => true
                         end) entries
          | None => true
          end
      | None => true
      end
      && match get "errorMessages" errorData with
         | Some (JArr errorMessages) =>
             forallb (fun message =>
                        match message with
                        | JStr message => no_required_match message
                        | _ => true
                        end) errorMessages
         | _ => true
         end
  | JStr text => no_required_match text
  | _ => true
  end.

(** The confidences that [extractWithPatterns] gives. *)
Definition patternConfidences : list Q :=
  [0.4%Q; 0.6%Q; 0.7%Q; 0.8%Q; 0.9%Q].

(** An entry as [extractWithPatterns] makes them. *)
Definition pattern_made (e : ExtractedFieldValue) : Prop :=
  efv_extractionMethod e = ByPattern ∧ efv_confidence e ∈ patternConfidences.

(** A field that [extractWithPatterns] takes to its labels branch. *)
Definition is_label_field (field : JiraField) : bool :=
  let fieldName := Js.toLowerCase (jf_name field) in
  negb (Js.includes fieldName "priority")
  && negb (Js.includes fieldName "quarter"
           || String.eqb (jf_id field) "customfield_26362")
  && negb (Js.includes fieldName "roadmap" || Js.includes fieldName "include"
           || String.eqb (jf_id field) "customfield_26360")
  && negb (Js.includes fieldName "story" && Js.includes fieldName "point")
  && negb (Js.includes fieldName "component")
  && negb (Js.includes fieldName "epic")
  && Js.includes fieldName "label".

(** A label as the labels branch keeps them: in lower case, of three
    characters at least, and not a common word. *)
Definition label_like (label : string) : Prop :=
  isCommonWord label = false
  ∧ (3 ≤ String.length label)%nat
  ∧ Js.toLowerCase label = label.

(** What the set of labels keeps while it is built: no duplicate, and
    labels only. *)
Definition labels_kept (labels : list string) : Prop :=
  NoDup labels ∧ Forall label_like labels.

(** An entry as [extractWithAI] accepts them. *)
Definition ai_made (e : ExtractedFieldValue) : Prop :=
  efv_extractionMethod e = ByAi ∧ (0.5 < efv_confidence e)%Q.

(** A response of white space only: a byte order mark U+FEFF, a no-break
    space U+00A0, a line separator U+2028 and a line feed. *)
Definition whiteResponse : Js.codeUnits := [65279; 160; 8232; 10]%N.

(** A provider that fails, and one that answers with a fixed text. *)
Definition failingProvider : Prompt → string → string → Result Js.codeUnits :=
  fun _ _ _ => Throw "DevS.ai API error: Unauthorized".
Definition answeringProvider : Prompt → string → string → Result Js.codeUnits :=
  fun _ _ _ => Ok (Js.units_of "the response of the provider").

(** A [JSON.parse] that reads, in every text, two extractions for the
    priority field: one of confidence 0.9 and one of confidence 0.3. *)
Definition twoExtractions : Js.codeUnits → option json :=
  fun _ =>
    Some (JObj [("extractions",
                 JArr [JObj [("fieldId", JStr "priority");
                             ("value", JStr "High");
                             ("confidence", JNum 0.9%Q)];
                       JObj [("fieldId", JStr "priority");
                             ("value", JStr "Low");
                             ("confidence", JNum 0.3%Q)]])]).

(** A field that the loop of [extractFieldValuesWithConfig] processes: it
    is required or it has a configuration. *)
Definition is_processed (fieldConfigs : list FieldExtractionConfig)
    (field : JiraField) : bool :=
  jf_required field
  || match config_of (jf_id field) fieldConfigs with
     | Some _ => true
     | None => false
     end.

(** A field whose configuration disables extraction. *)
Definition is_disabled (fieldConfigs : list FieldExtractionConfig)
    (field : JiraField) : bool :=
  match config_of (jf_id field) fieldConfigs with
  | Some config => negb (extractionEnabled config)
  | None => false
  end.

(** The threshold that a candidate of the field [fieldId] has passed: the
    one of its configuration, or the global one. *)
Definition threshold_for (fieldConfigs : list FieldExtractionConfig)
    (preferences : ExtractionPreferences) (fieldId : string) : Q :=
  match config_of fieldId fieldConfigs with
  | Some config => confidenceThreshold config
  | None => globalConfidenceThreshold preferences
  end.

(** The four pairwise disjoint buckets of a result. *)
Definition buckets_apart (r : EnhancedExtractionResult) : Prop :=
  (∀ k, k ∈ dom (autoApplied r) →
        (k ∉ dom (requiresConfirmation r)) ∧ (k ∉ manualFields r)
        ∧ (k ∉ skippedFields r))
  ∧ (∀ k, k ∈ dom (requiresConfirmation r) →
          (k ∉ manualFields r) ∧ (k ∉ skippedFields r))
  ∧ (∀ k, k ∈ manualFields r → k ∉ skippedFields r)
  ∧ NoDup (manualFields r) ∧ NoDup (skippedFields r).

(** A summary that counts the buckets it comes with. *)
Definition counters_exact (r : EnhancedExtractionResult) : Prop :=
  autoAppliedCount (extractionSummary r) = size (autoApplied r)
  ∧ confirmationCount (extractionSummary r) = size (requiresConfirmation r)
  ∧ manualCount (extractionSummary r) = length (manualFields r)
  ∧ skippedCount (extractionSummary r) = length (skippedFields r)
  ∧ totalFields (extractionSummary r)
    = bucketCounts (extractionSummary r).

(** A field id that is in none of the four buckets. *)
Definition in_no_bucket (r : EnhancedExtractionResult) (k : string) : Prop :=
  (k ∉ dom (autoApplied r)) ∧ (k ∉ dom (requiresConfirmation r))
  ∧ (k ∉ manualFields r) ∧ (k ∉ skippedFields r).

(** What holds of every candidate of the confirmation bucket: it is
    filed under the id it bears, and its confidence is at least the
    threshold of its field. *)
Definition candidates_sound (fieldConfigs : list FieldExtractionConfig)
    (preferences : ExtractionPreferences) (r : EnhancedExtractionResult)
  : Prop :=
  ∀ k candidate,
    requiresConfirmation r !! k = Some candidate →
    cand_fieldId candidate = k
    ∧ q_ge (cand_confidence candidate)
        (threshold_for fieldConfigs preferences k) = true.

(** A configuration under which a field gets no value: extraction is
    disabled, or the method is ['manual'], or the mode ['manual-only']. *)
Definition is_manual_config (config : FieldExtractionConfig) : bool :=
  negb (extractionEnabled config)
  || String.eqb (extractionMethod config) "manual"
  || String.eqb (extractionMode config) "manual-only".

(** Counters that count the buckets, with the ids of the two maps among
    the ids [seen]. *)
Definition counted (seen : list string) (r : EnhancedExtractionResult) : Prop :=
  counters_exact r
  ∧ (∀ k, k ∈ dom (autoApplied r) → k ∈ seen)
  ∧ (∀ k, k ∈ dom (requiresConfirmation r) → k ∈ seen).

(** The scores of a list of suggestions do not go up. *)
Definition by_score (a b : AllowedValue * nat) : Prop := (snd b ≤ snd a)%nat.

(** What holds of a result of [extractFieldValues] over [jiraFields]: the
    entries are those of the AI followed by those of the patterns, the
    patterns giving an entry only for a field of the call that the AI gave
    none for; a required field has an entry or is reported missing, and no
    missing field has an entry. *)
Definition legacy_sound (jiraFields : list JiraField)
    (result : FieldExtractionResult) : Prop :=
  (∃ aiExtracted patternExtracted,
     extractedFields result = aiExtracted ++ patternExtracted
     ∧ Forall ai_made aiExtracted
     ∧ Forall pattern_made patternExtracted
     ∧ ∀ e, e ∈ patternExtracted →
            has_entry aiExtracted (efv_fieldId e) = false
            ∧ efv_fieldId e ∈ jf_id <$> jiraFields)
  ∧ (∀ field, field ∈ jiraFields → jf_required field = true →
       has_entry (extractedFields result) (jf_id field) = true
       ∨ jf_id field ∈ missingFields result)
  ∧ (∀ id, id ∈ missingFields result →
       has_entry (extractedFields result) id = false).

(** A field as the parsing of an error payload makes them: required, of
    the type guessed from its id, with the allowed values synthesized for
    its id and its name, and described by the error text it comes from. Its
    name is its id (a field read from a message), or the name that the
    error text starts with ("<name> is required"), or else the display name
    of its id. *)
Definition discovered_like (now : Clock) (field : JiraField) : Prop :=
  jf_required field = true
  ∧ jf_type field = JiraFieldService.guessFieldTypeFromId (jf_id field)
  ∧ jf_allowedValues field
    = (List.map AVStr
         <$> JiraFieldService.getCommonAllowedValues now (jf_id field)
               (jf_name field))
  ∧ ∃ text,
      jf_description field
      = Some ("Required field discovered from error: " +:+ text)
      ∧ (jf_name field = jf_id field
         ∨ (∃ nameMatch,
              JiraFieldService.match_name text = Some nameMatch
              ∧ jf_name field
                = default EmptyString (Regex.group 1 nameMatch))
         ∨ (JiraFieldService.match_name text = None
            ∧ JiraFieldService.formatFieldName (jf_id field)
              = Some (jf_name field))).

(** The keys of the [errors] of a payload are distinct, as the keys of a
    parsed object are. *)
Definition distinct_error_keys (errorData : json) : Prop :=
  ∀ errors entries,
    get "errors" errorData = Some errors →
    JiraFieldService.entries_of errors = Some entries →
    NoDup (fst <$> entries).

(** A payload of a failed creation: two required fields under [errors],
    one of them named again in [errorMessages]. *)
Definition sampleErrorPayload : json :=
  JObj [ ("errorMessages", JArr [JStr "summary is required"]);
         ("errors",
          JObj [ ("summary", JStr "Summary is required.");
                 ("customfield_26362", JStr "Delivery Quarter is required.") ]) ].

(** The mappings that the storage holds for a work item type. *)
Definition mappings_for (type : JiraFieldService.WorkItemType)
    (stored : JiraFieldService.Storage) : list JiraFieldService.JiraFieldMapping :=
  match stored with
  | JiraFieldService.Saved mappings =>
      List.filter (fun m => JiraFieldService.sameType
                              (JiraFieldService.workItemType m) type)
        mappings
  | _ => []
  end.

(** A browser and an item with which a mapping can be saved: there is a
    window, the storage can be read and written, and the item can be
    parsed. *)
Definition usable (browser : JiraFieldService.Browser)
    (stored : JiraFieldService.Storage) : bool :=
  JiraFieldService.window browser && JiraFieldService.accessible browser
  && JiraFieldService.roomLeft browser
  && match stored with
     | JiraFieldService.Unreadable => false
     | _ => true
     end.

(** An element of the answer of [getIssueTypes] that has a name. *)
Definition named (type : json) : Prop :=
  ∃ name, get "name" type = Some (JStr name).

(** Two answers of [getIssueTypes]: a Jira instance with three issue
    types, and one whose second issue type has no name. *)
Definition sampleIssueTypes : json :=
  JArr [ JObj [("id", JStr "10001"); ("name", JStr "Sub-task")];
         JObj [("id", JStr "10002"); ("name", JStr "Epic")];
         JObj [("id", JStr "10003"); ("name", JStr "Task")] ].
Definition namelessIssueTypes : json :=
  JArr [ JObj [("id", JStr "10001"); ("name", JStr "Sub-task")];
         JObj [("id", JStr "10002")] ].

Definition chrome : JiraFieldService.Browser :=
  {| JiraFieldService.window := true; JiraFieldService.accessible := true;
     JiraFieldService.roomLeft := true |}.

Definition labelsField : JiraField :=
  field_of "labels" "Labels" "multiselect" false None.
Definition storyPointsField : JiraField :=
  field_of "customfield_10000" "Story Points" "number" true None.

(** ** Properties of the pattern extractor *)

Section PatternProperties.
Variable now : Clock.

Lemma extractWithPatterns_single description field :
  extractWithPatterns now description [field]
  = (outcome ←! extractField now description field;
     match outcome with
     | Returned result => Ok result
     | Extracted (Some extractedValue) confidence =>
         Ok [pattern_entry (jf_id field) extractedValue confidence]
     | Extracted None _ => Ok []
     end).
Proof.
  unfold extractWithPatterns; simpl.
  destruct (extractField now description field) as [[[v|] c|result]|e];
    reflexivity.
Qed.

Lemma extractField_priority description field :
  is_priority_field field = true →
  extractField now description field
  = extractPriority (Js.toLowerCase description) field.
Proof.
  unfold is_priority_field, extractField. intros ->. reflexivity.
Qed.

Lemma extractField_quarter description field :
  is_quarter_field field = true →
  extractField now description field = Ok (extractQuarter now description field).
Proof.
  unfold is_quarter_field, is_priority_field, extractField.
  intros [Hp Hq]%andb_prop.
  apply negb_true_iff in Hp. rewrite Hp, Hq. reflexivity.
Qed.

Lemma extractField_epic description field :
  is_epic_field field = true →
  extractField now description field
  = Ok (extractEpic (Js.toLowerCase description)).
Proof.
  unfold is_epic_field, is_roadmap_field, is_quarter_field, is_priority_field,
    extractField.
  destruct (Js.includes (Js.toLowerCase (jf_name field)) "priority");
    [discriminate|].
  destruct (Js.includes (Js.toLowerCase (jf_name field)) "quarter"
            || String.eqb (jf_id field) "customfield_26362"); [discriminate|].
  destruct (Js.includes (Js.toLowerCase (jf_name field)) "roadmap"
            || Js.includes (Js.toLowerCase (jf_name field)) "include"
            || String.eqb (jf_id field) "customfield_26360"); [discriminate|].
  destruct (Js.includes (Js.toLowerCase (jf_name field)) "story"
            && Js.includes (Js.toLowerCase (jf_name field)) "point");
    [discriminate|].
  destruct (Js.includes (Js.toLowerCase (jf_name field)) "component");
    [discriminate|].
  simpl. intros ->. reflexivity.
Qed.

End PatternProperties.

(** *** The early return of the roadmap branch (C2) *)

(** A field outside the roadmap branch leaves the loop going. *)
Lemma extractField_continues (now : Clock) description field outcome :
  is_roadmap_field field = false →
  extractField now description field = Ok outcome →
  ∃ extractedValue confidence, outcome = Extracted extractedValue confidence.
Proof.
  unfold is_roadmap_field, is_quarter_field, is_priority_field, extractField.
  destruct (Js.includes (Js.toLowerCase (jf_name field)) "priority"); simpl.
  { intros _. unfold extractPriority, nothing.
    destruct (Regex.search priorityRe _); [|intros [= <-]; eauto].
    destruct (mapPriorityValue _ _); simpl; intros [= <-]; eauto. }
  destruct (Js.includes (Js.toLowerCase (jf_name field)) "quarter"
            || String.eqb (jf_id field) "customfield_26362"); simpl.
  { intros _. unfold extractQuarter, nothing.
    repeat case_match; intros [= <-]; eauto. }
  intros ->.
  unfold extractStoryPoints, extractComponent, extractEpic, extractLabels,
    nothing.
  repeat case_match; intros [= <-]; eauto.
Qed.

(** Without a field of the roadmap branch, the ids of the entries returned
    are ids of the fields, in the order of the fields and at most one for
    each field. *)
Lemma extractWithPatterns_from_ids (now : Clock) description :
  ∀ jiraFields extractedFields result,
  Forall (fun field => is_roadmap_field field = false) jiraFields →
  extractWithPatterns_from now description jiraFields extractedFields
  = Ok result →
  ∃ found, result = extractedFields ++ found
           ∧ sublist (efv_fieldId <$> found) (jf_id <$> jiraFields).
Proof.
  induction jiraFields as [|field fields IH]; intros acc result Hfields; simpl.
  - intros [= <-]. exists []. rewrite app_nil_r. split; [done|constructor].
  - inversion Hfields as [|? ? Hfield Hrest]; subst.
    destruct (extractField now description field) as [outcome|?] eqn:Hout;
      [|discriminate].
    destruct (extractField_continues _ _ _ _ Hfield Hout) as (v & c & ->).
    simpl. destruct v as [v|]; intros Hloop.
    + destruct (IH _ _ Hrest Hloop) as (found & -> & Hsub).
      exists (pattern_entry (jf_id field) v c :: found).
      rewrite <- app_assoc. split; [done|].
      rewrite ?fmap_cons. simpl. by apply sublist_skip.
    + destruct (IH _ _ Hrest Hloop) as (found & -> & Hsub).
      exists found. split; [done|]. rewrite ?fmap_cons. by apply sublist_cons.
Qed.

Lemma extractWithPatterns_ids (now : Clock) description jiraFields result :
  Forall (fun field => is_roadmap_field field = false) jiraFields →
  extractWithPatterns now description jiraFields = Ok result →
  sublist (efv_fieldId <$> result) (jf_id <$> jiraFields).
Proof.
  intros Hfields Hresult.
  destruct (extractWithPatterns_from_ids _ _ _ _ _ Hfields Hresult)
    as (found & -> & Hsub).
  done.
Qed.

(** C2, at a failing input. With a priority field followed by a roadmap
    field, the [return] of the roadmap branch replaces the whole result of
    [extractWithPatterns]: the entry found for the priority field is lost,
    whether the roadmap field matches or not, and the entry returned for the
    roadmap field bears the fixed id [customfield_26360], which is the id of
    no input field. *)
Theorem extractWithPatterns_roadmap_return :
  extractWithPatterns november2026 "low priority public launch"
    [priorityField; roadmapThemeField]
  = Ok [pattern_entry "customfield_26360" (VStr "public") 0.8%Q]
  ∧ extractWithPatterns november2026 "low priority launch"
      [priorityField; roadmapThemeField]
    = Ok []
  ∧ extractWithPatterns november2026 "low priority launch" [priorityField]
    = Ok [pattern_entry "priority" (VStr "Low") 0.8%Q].
Proof. repeat split; vm_compute; reflexivity. Qed.

(** *** Priority words (C3) *)

(** C3, as stated, fails: the value extracted from "this is urgent and
    critical" is not "Highest". *)
Lemma priority_critical_not_highest :
  extractWithPatterns november2026 "this is urgent and critical" [priorityField]
  ≠ Ok [pattern_entry (jf_id priorityField) (VStr "Highest") 0.8%Q].
Proof. vm_compute. discriminate. Qed.

(** C3, amended. For the text "this is urgent and critical" and a priority
    field with the allowed values Highest, High, Medium, Low, Lowest, the
    value extracted is the matched word "critical" itself, with confidence
    0.8: [priorityMap] has no entry under "critical", and no allowed value
    contains that word. *)
Theorem priority_critical_kept (now : Clock) (field : JiraField) :
  is_priority_field field = true →
  jf_allowedValues field = Some standardPriorities →
  extractWithPatterns now "this is urgent and critical" [field]
  = Ok [pattern_entry (jf_id field) (VStr "critical") 0.8%Q].
Proof.
  intros Hfield Hallowed.
  rewrite extractWithPatterns_single, extractField_priority by done.
  unfold extractPriority. rewrite Hallowed. vm_compute. reflexivity.
Qed.

Lemma priority_critical_kept_witness :
  extractWithPatterns november2026 "this is urgent and critical" [priorityField]
  = Ok [pattern_entry "priority" (VStr "critical") 0.8%Q].
Proof.
  apply (priority_critical_kept november2026 priorityField); reflexivity.
Defined.

(** *** Epic keys (C4) *)

Lemma lower_char_not_upper (c : ascii) : Js.is_upper (Js.lower_char c) = false.
Proof. destruct c as [[] [] [] [] [] [] [] []]; vm_compute; reflexivity. Qed.

Lemma toLowerCase_not_upper (s : string) :
  Forall (fun c => Js.is_upper c = false)
    (list_ascii_of_string (Js.toLowerCase s)).
Proof.
  induction s as [|c s IH]; simpl; constructor; auto using lower_char_not_upper.
Qed.

(** [epicRe] starts with a capital letter: it matches at no position whose
    next character is not one. *)
Lemma epicRe_match_here before (l : list ascii) idx :
  match l with
  | c :: _ => Js.is_upper c = false
  | [] => True
  end →
  Regex.match_here epicRe before l idx = None.
Proof.
  intros Hhead. unfold Regex.match_here, epicRe. simpl.
  destruct (xorb _ _); [|reflexivity].
  destruct l as [|c l]; [reflexivity|].
  unfold Regex.cls. simpl. rewrite Hhead. reflexivity.
Qed.

Lemma epicRe_search_from (l : list ascii) : ∀ before idx,
  Forall (fun c => Js.is_upper c = false) l →
  Regex.search_from epicRe before l idx = None.
Proof.
  induction l as [|c l IH]; intros before idx Hl; simpl.
  - rewrite epicRe_match_here; done.
  - inversion Hl; subst. rewrite epicRe_match_here by done. apply IH; done.
Qed.

(** No text has an epic key once it is lower-cased. *)
Lemma epicRe_never_found (description : string) :
  Regex.search epicRe (Js.toLowerCase description) = None.
Proof. apply epicRe_search_from, toLowerCase_not_upper. Qed.

(** The epic branch extracts nothing, whatever the text. *)
Lemma epic_field_never_extracted (now : Clock) description field :
  is_epic_field field = true →
  extractWithPatterns now description [field] = Ok [].
Proof.
  intros Hfield.
  rewrite extractWithPatterns_single, extractField_epic by done.
  unfold extractEpic. rewrite epicRe_never_found. reflexivity.
Qed.

(** C4, at a failing input. The text "Part of PROJ-123" has the epic key
    PROJ-123, and nothing is extracted for the field "Epic Link": the
    pattern asks for capital letters and is applied to the lower-cased
    text. *)
Theorem epic_key_not_extracted :
  is_epic_field epicLinkField = true
  ∧ Regex.test epicRe "Part of PROJ-123" = true
  ∧ extractWithPatterns november2026 "Part of PROJ-123" [epicLinkField] = Ok [].
Proof. repeat split; vm_compute; reflexivity. Qed.

(** *** The quarter fallback chain (C6) *)

Lemma quarter_loop_none (now : Clock) description allowedValues :
  ∀ patterns,
  existsb (fun pattern => Regex.test pattern description) patterns = false →
  quarter_loop now patterns description allowedValues = None.
Proof.
  induction patterns as [|pattern patterns IH]; simpl; [done|].
  intros [Hp Hps]%orb_false_elim. unfold Regex.test in Hp.
  destruct (Regex.search pattern description); [discriminate|]. auto.
Qed.

Lemma quarter_from_year_found (now : Clock) description allowedValues year :
  year_in description = Some year →
  quarter_from_year now description allowedValues
  = if allowed_includes allowedValues (quarterLabel (currentQuarter now) year)
    then Some (quarterLabel (currentQuarter now) year) else None.
Proof.
  unfold year_in, quarter_from_year, quarterLabel.
  destruct (Regex.search yearRe description); [|discriminate].
  intros [= <-]. reflexivity.
Qed.

Lemma quarter_from_year_none (now : Clock) description allowedValues :
  year_in description = None →
  quarter_from_year now description allowedValues = None.
Proof.
  unfold year_in, quarter_from_year.
  destruct (Regex.search yearRe description); [discriminate|reflexivity].
Qed.

Lemma currentQuarter_calendar (now : Clock) :
  currentQuarter now = (getMonth now / 3 + 1)%N.
Proof.
  unfold currentQuarter.
  replace (getMonth now + 1 + 2)%N with (getMonth now + 1 * 3)%N by lia.
  by rewrite N.div_add.
Qed.

(** C6. For a field of the quarter branch: the text "Planning for Q3 2025"
    gives "Q3 2025" with confidence 0.8 when that is an allowed value; a text
    with no explicit quarter and a 4-digit year gives the current quarter
    with that year, with confidence 0.6, when that is an allowed value; a
    text with neither gives the current quarter with the current year, with
    confidence 0.4, when that is an allowed value, and nothing otherwise.
    The current quarter is the calendar quarter of the month of the clock:
    1 for the months 0 to 2 (January to March), and so on to 4 for the
    months 9 to 11. *)
Theorem quarter_fallback_chain (now : Clock) (field : JiraField) :
  is_quarter_field field = true →
  (allowed_includes (jf_allowedValues field) "Q3 2025" = true →
   extractWithPatterns now "Planning for Q3 2025" [field]
   = Ok [pattern_entry (jf_id field) (VStr "Q3 2025") 0.8%Q])
  ∧ (∀ description year,
       explicit_quarter description = false →
       year_in description = Some year →
       allowed_includes (jf_allowedValues field)
         (quarterLabel (getMonth now / 3 + 1) year) = true →
       extractWithPatterns now description [field]
       = Ok [pattern_entry (jf_id field)
               (VStr (quarterLabel (getMonth now / 3 + 1) year)) 0.6%Q])
  ∧ (∀ description,
       explicit_quarter description = false →
       year_in description = None →
       extractWithPatterns now description [field]
       = if allowed_includes (jf_allowedValues field)
              (quarterLabel (getMonth now / 3 + 1)
                 (pretty (getFullYear now)))
         then Ok [pattern_entry (jf_id field)
                    (VStr (quarterLabel (getMonth now / 3 + 1)
                             (pretty (getFullYear now)))) 0.4%Q]
         else Ok []).
Proof.
  intros Hfield. rewrite <- (currentQuarter_calendar now). repeat split.
  - intros Hallowed.
    rewrite extractWithPatterns_single, extractField_quarter by done.
    unfold extractQuarter, quarterPatterns.
    cbn [quarter_loop].
    pose (found := Regex.MatchResult 13 "Q3 2025" [(2, "2025"); (1, "Q3")] []
                     (Some "5"%char)).
    replace (Regex.search _ "Planning for Q3 2025") with (Some found)
      by (vm_compute; reflexivity).
    assert (quarterValueOf now found = "Q3 2025") as -> by reflexivity.
    rewrite Hallowed. reflexivity.
  - intros description year Hquarter Hyear Hallowed.
    rewrite extractWithPatterns_single, extractField_quarter by done.
    unfold extractQuarter.
    rewrite quarter_loop_none by done.
    rewrite (quarter_from_year_found _ _ _ _ Hyear), Hallowed. reflexivity.
  - intros description Hquarter Hyear.
    rewrite extractWithPatterns_single, extractField_quarter by done.
    unfold extractQuarter.
    rewrite quarter_loop_none by done.
    rewrite quarter_from_year_none by done.
    unfold quarter_from_clock, quarterLabel.
    destruct (allowed_includes _ _); reflexivity.
Qed.

Lemma quarter_fallback_chain_witness :
  is_quarter_field planningQuarterField = true
  ∧ extractWithPatterns may2027 "Planning for Q3 2025" [planningQuarterField]
    = Ok [pattern_entry "customfield_26362" (VStr "Q3 2025") 0.8%Q]
  ∧ extractWithPatterns may2027 "the 2025 roadmap" [planningQuarterField]
    = Ok [pattern_entry "customfield_26362" (VStr "Q2 2025") 0.6%Q]
  ∧ extractWithPatterns may2027 "ship it soon" [planningQuarterField]
    = Ok [pattern_entry "customfield_26362" (VStr "Q2 2027") 0.4%Q].
Proof.
  destruct (quarter_fallback_chain may2027 planningQuarterField eq_refl)
    as (Hexplicit & Hyear & Hclock).
  split; [reflexivity|]. split; [|split].
  - apply Hexplicit. reflexivity.
  - apply (Hyear "the 2025 roadmap" "2025"); reflexivity.
  - apply (Hclock "ship it soon"); reflexivity.
Defined.

(** White space between the word and the number of a quarter may be a
    no-break space: the text "quarter 3 in 2027", written with one, has an
    explicit quarter, which the last of the six patterns reads with the
    year of the clock. *)
Example quarter_after_no_break_space :
  let description := "quarter" +:+ String Js.nbsp "3 in 2027" in
  explicit_quarter description = true
  ∧ extractWithPatterns november2026 description [nextQuartersField]
    = Ok [pattern_entry "customfield_26362" (VStr "Q3 2026") 0.8%Q].
Proof. split; vm_compute; reflexivity. Qed.

(** ** Properties of the AI extractor (C5) *)

Section AiProperties.
Variable callAIProvider : Prompt → string → string → Result Js.codeUnits.
Variable JSON_parse : Js.codeUnits → option json.
Variable ToNumber : json → option Q.

Lemma not_blank_truthy (response : Js.codeUnits) :
  Js.trims_to_empty response = false → (0 <? length response)%nat = true.
Proof. destruct response; [discriminate|reflexivity]. Qed.

(** An empty or white-space response makes [extractWithAI] throw. *)
Lemma extractWithAI_blank description jiraFields aiProvider apiKey response :
  callAIProvider (buildPrompt description jiraFields) aiProvider apiKey
  = Ok response →
  Js.trims_to_empty response = true →
  extractWithAI callAIProvider JSON_parse ToNumber description jiraFields
    aiProvider apiKey
  = Throw "Empty response from AI provider".
Proof.
  intros Hcall Hblank. unfold extractWithAI. rewrite Hcall, Hblank.
  rewrite orb_true_r. reflexivity.
Qed.

Lemma extractWithAI_not_json description jiraFields aiProvider apiKey response :
  callAIProvider (buildPrompt description jiraFields) aiProvider apiKey
  = Ok response →
  Js.trims_to_empty response = false →
  JSON_parse response = None →
  extractWithAI callAIProvider JSON_parse ToNumber description jiraFields
    aiProvider apiKey
  = Ok [].
Proof.
  intros Hcall Hblank Hparse. unfold extractWithAI.
  rewrite Hcall, Hblank, (not_blank_truthy _ Hblank), Hparse. reflexivity.
Qed.

End AiProperties.

(** C5, as stated, fails: an empty response cannot be parsed as JSON, and
    [extractWithAI] does not return an empty result for it. *)
Lemma extractWithAI_empty_response_throws :
  ¬ (∀ (callAIProvider : Prompt → string → string → Result Js.codeUnits)
       (JSON_parse : Js.codeUnits → option json) (ToNumber : json → option Q)
       description jiraFields aiProvider apiKey response,
       callAIProvider (buildPrompt description jiraFields) aiProvider apiKey
       = Ok response →
       JSON_parse response = None →
       extractWithAI callAIProvider JSON_parse ToNumber description jiraFields
         aiProvider apiKey
       = Ok []).
Proof.
  intros Hclaim.
  specialize (Hclaim (fun _ _ _ => Ok []) (fun _ => None)
                (fun _ => None) "low priority" [] "devs-ai" "key" []
                eq_refl eq_refl).
  discriminate Hclaim.
Qed.

(** C5, amended. For every response of the provider that cannot be parsed
    as JSON: when the response is empty, or white space only (nothing is
    left of it by [trim]), [extractWithAI] throws 'Empty response from AI
    provider'; otherwise it returns an empty result and does not throw. *)
Theorem extractWithAI_unparsable_response
    (callAIProvider : Prompt → string → string → Result Js.codeUnits)
    (JSON_parse : Js.codeUnits → option json) (ToNumber : json → option Q)
    description jiraFields aiProvider apiKey response :
  callAIProvider (buildPrompt description jiraFields) aiProvider apiKey
  = Ok response →
  JSON_parse response = None →
  extractWithAI callAIProvider JSON_parse ToNumber description jiraFields
    aiProvider apiKey
  = if Js.trims_to_empty response
    then Throw "Empty response from AI provider"
    else Ok [].
Proof.
  intros Hcall Hparse.
  destruct (Js.trims_to_empty response) eqn:Hblank.
  - by eapply extractWithAI_blank.
  - by eapply extractWithAI_not_json.
Qed.

Lemma extractWithAI_unparsable_response_witness :
  extractWithAI
    (fun _ _ _ => Ok (Js.units_of "Sorry, I cannot help with that."))
    (fun _ => None) (fun _ => None) "low priority" [priorityField] "devs-ai"
    "key"
  = Ok []
  ∧ extractWithAI (fun _ _ _ => Ok whiteResponse)
      (fun _ => None) (fun _ => None) "low priority" [priorityField] "devs-ai"
      "key"
    = Throw "Empty response from AI provider".
Proof.
  split.
  - apply (extractWithAI_unparsable_response _ _ _ _ _ _ _
             (Js.units_of "Sorry, I cannot help with that.")); reflexivity.
  - apply (extractWithAI_unparsable_response _ _ _ _ _ _ _ whiteResponse);
      reflexivity.
Defined.

(** ** Properties of the extraction policy engine *)

Section EngineProperties.
Variable now : Clock.
Variable callAIProvider : Prompt → string → string → Result Js.codeUnits.
Variable JSON_parse : Js.codeUnits → option json.
Variable ToNumber : json → option Q.
Variable description : string.
Variable preferences : ExtractionPreferences.
Variables aiProvider apiKey : option string.

Local Abbreviation step fieldConfigs :=
  (processField now callAIProvider JSON_parse ToNumber description fieldConfigs
     preferences aiProvider apiKey).

Lemma first_above_accepts extracted threshold e :
  first_above extracted threshold = Some e →
  q_ge (efv_confidence e) threshold = true.
Proof.
  unfold first_above. destruct extracted as [|first ?]; [discriminate|].
  destruct (q_ge (efv_confidence first) threshold) eqn:Hge; [|discriminate].
  intros [= <-]. exact Hge.
Qed.

(** A value that [extractSingleFieldValue] returns has a confidence that
    is at least the threshold of the field. *)
Lemma extractSingleFieldValue_accepts jiraField fieldConfig e :
  extractSingleFieldValue now callAIProvider JSON_parse ToNumber description
    jiraField fieldConfig aiProvider apiKey = Some e →
  q_ge (efv_confidence e) (confidenceThreshold fieldConfig) = true.
Proof.
  unfold extractSingleFieldValue.
  repeat case_match; try discriminate;
    intros; simplify_eq; eauto using first_above_accepts.
Qed.

(** *** The global override (C8) *)

Lemma processField_confirm_all fieldConfigs r jiraField :
  requireConfirmationForAll preferences = true →
  autoApplied (step fieldConfigs r jiraField) = autoApplied r.
Proof.
  intros Hall.
  unfold processField, processFieldWithDefaults, shouldAutoApplyField.
  rewrite Hall. repeat case_match; simpl in *; done.
Qed.

Lemma run_confirm_all fieldConfigs jiraFields : ∀ r,
  requireConfirmationForAll preferences = true →
  autoApplied (fold_left (step fieldConfigs) jiraFields r) = autoApplied r.
Proof.
  induction jiraFields as [|f fs IH]; intros r Hall; simpl; [done|].
  rewrite IH, processField_confirm_all; done.
Qed.

(** *** Fields in auto-apply mode are never sent to confirmation (C10) *)

Lemma processField_auto_apply_mode fieldConfigs r jiraField k config :
  requireConfirmationForAll preferences = false →
  config_of k fieldConfigs = Some config →
  extractionMode config = "auto-apply" →
  k ∉ dom (requiresConfirmation r) →
  k ∉ dom (requiresConfirmation (step fieldConfigs r jiraField)).
Proof.
  intros Hall Hconfig Hmode Hk.
  destruct (String.eqb_spec (jf_id jiraField) k) as [<-|Hne].
  - unfold processField. fold (config_of (jf_id jiraField) fieldConfigs).
    rewrite Hconfig.
    repeat case_match; simpl; try done.
    exfalso.
    match goal with
    | H : shouldAutoApplyField _ _ _ = false |- _ => revert H
    end.
    unfold shouldAutoApplyField. rewrite Hall, Hmode. simpl.
    erewrite extractSingleFieldValue_accepts by eassumption. discriminate.
  - unfold processField, processFieldWithDefaults.
    repeat case_match; simpl; try done;
      rewrite dom_insert_L; apply not_elem_of_union; split; try done;
      apply not_elem_of_singleton; congruence.
Qed.

Lemma run_auto_apply_mode fieldConfigs jiraFields k config : ∀ r,
  requireConfirmationForAll preferences = false →
  config_of k fieldConfigs = Some config →
  extractionMode config = "auto-apply" →
  k ∉ dom (requiresConfirmation r) →
  k ∉ dom (requiresConfirmation (fold_left (step fieldConfigs) jiraFields r)).
Proof.
  induction jiraFields as [|f fs IH]; intros r Hall Hconfig Hmode Hk; simpl;
    [done|].
  apply IH; eauto using processField_auto_apply_mode.
Qed.

(** *** Monotonicity in the threshold (C7) *)

Lemma q_ge_mono (c t1 t2 : Q) :
  (t1 <= t2)%Q → q_ge c t2 = true → q_ge c t1 = true.
Proof.
  unfold q_ge. rewrite !Qle_bool_iff. intros H12 H2.
  eapply Qle_trans; eassumption.
Qed.

Lemma first_above_mono extracted (t1 t2 : Q) e :
  (t1 <= t2)%Q →
  first_above extracted t2 = Some e → first_above extracted t1 = Some e.
Proof.
  unfold first_above. destruct extracted as [|first ?]; [discriminate|].
  intros Hle. destruct (q_ge (efv_confidence first) t2) eqn:Hge; [|discriminate].
  rewrite (q_ge_mono _ _ _ Hle Hge). done.
Qed.

(** A field that gets a value under a threshold gets one under any lower
    threshold. *)
Lemma extractSingleFieldValue_mono jiraField config (t1 t2 : Q) :
  (t1 <= t2)%Q →
  is_Some (extractSingleFieldValue now callAIProvider JSON_parse ToNumber
             description jiraField (with_threshold t2 config) aiProvider apiKey) →
  is_Some (extractSingleFieldValue now callAIProvider JSON_parse ToNumber
             description jiraField (with_threshold t1 config) aiProvider apiKey).
Proof.
  intros Hle. unfold extractSingleFieldValue. simpl.
  assert (Hpat : ∀ (P : Result (list ExtractedFieldValue)),
            is_Some (match P with
                     | Ok patternExtracted => first_above patternExtracted t2
                     | Throw _ => None
                     end) →
            is_Some (match P with
                     | Ok patternExtracted => first_above patternExtracted t1
                     | Throw _ => None
                     end)).
  { intros [l|?] [e He]; [|discriminate].
    rewrite (first_above_mono _ _ _ _ Hle He). eauto. }
  destruct (String.eqb (extractionMethod config) "ai" && Js.truthy_opt aiProvider
            && Js.truthy_opt apiKey).
  - destruct (extractWithAI _ _ _ _ _ _ _) as [l|?]; [|done].
    destruct (first_above l t2) as [e|] eqn:H2.
    + rewrite (first_above_mono _ _ _ _ Hle H2). eauto.
    + destruct (first_above l t1); [eauto|].
      destruct (_ || _); [apply Hpat|done].
  - destruct (_ || _); [apply Hpat|done].
Qed.

Lemma config_of_set_threshold k fieldId (t : Q) fieldConfigs :
  config_of k (set_threshold fieldId t fieldConfigs)
  = (fun config => if String.eqb (jiraFieldId config) fieldId
                   then with_threshold t config else config)
      <$> config_of k fieldConfigs.
Proof.
  unfold config_of, set_threshold.
  induction fieldConfigs as [|c cs IH]; simpl; [done|].
  destruct (String.eqb (jiraFieldId c) fieldId) eqn:Hid; simpl;
    destruct (String.eqb (jiraFieldId c) k); simpl; rewrite ?Hid; done.
Qed.

Lemma no_promotion_summary f g lo hi :
  no_promotion lo hi → no_promotion (with_summary f lo) (with_summary g hi).
Proof. done. Qed.

Lemma no_promotion_auto k v w lo hi :
  no_promotion lo hi →
  no_promotion (set_autoApplied k v lo) (set_autoApplied k w hi).
Proof.
  unfold no_promotion. simpl. rewrite !dom_insert_L.
  intros (Ha & Hm & Hs). split; [by apply union_mono_l|done].
Qed.

Lemma no_promotion_auto_lo k v lo hi :
  no_promotion lo hi → no_promotion (set_autoApplied k v lo) hi.
Proof.
  unfold no_promotion. simpl. rewrite !dom_insert_L.
  intros (Ha & Hm & Hs). split; [by apply union_subseteq_r'|done].
Qed.

Lemma no_promotion_confirm_lo k c lo hi :
  no_promotion lo hi → no_promotion (set_requiresConfirmation k c lo) hi.
Proof. done. Qed.

Lemma no_promotion_confirm_hi k c lo hi :
  no_promotion lo hi → no_promotion lo (set_requiresConfirmation k c hi).
Proof. done. Qed.

Lemma no_promotion_manual_hi k lo hi :
  no_promotion lo hi → no_promotion lo (push_manualFields k hi).
Proof.
  unfold no_promotion. simpl. intros (Ha & Hm & Hs).
  repeat split; try done. intros k' Hk'. apply elem_of_app. auto.
Qed.

Lemma no_promotion_manual k lo hi :
  no_promotion lo hi →
  no_promotion (push_manualFields k lo) (push_manualFields k hi).
Proof.
  unfold no_promotion. simpl. intros (Ha & Hm & Hs).
  repeat split; try done. intros k' [Hk'|Hk']%elem_of_app; apply elem_of_app; auto.
Qed.

Lemma no_promotion_skipped k lo hi :
  no_promotion lo hi →
  no_promotion (push_skippedFields k lo) (push_skippedFields k hi).
Proof.
  unfold no_promotion. simpl. intros (Ha & Hm & Hs).
  repeat split; try done. congruence.
Qed.

Create HintDb promotion.
#[local] Hint Resolve no_promotion_summary no_promotion_auto no_promotion_auto_lo
  no_promotion_confirm_lo no_promotion_confirm_hi no_promotion_manual_hi
  no_promotion_manual no_promotion_skipped : promotion.

(** With the same configuration on both sides, the same branch is taken. *)
Lemma processField_same fieldConfigs lo hi jiraField :
  no_promotion lo hi →
  no_promotion (step fieldConfigs lo jiraField) (step fieldConfigs hi jiraField).
Proof.
  intros Hrel. unfold processField, processFieldWithDefaults.
  repeat case_match; auto 6 with promotion.
Qed.

Lemma processField_threshold fieldConfigs fieldId (t1 t2 : Q) lo hi jiraField :
  (t1 <= t2)%Q →
  no_promotion lo hi →
  no_promotion (step (set_threshold fieldId t1 fieldConfigs) lo jiraField)
    (step (set_threshold fieldId t2 fieldConfigs) hi jiraField).
Proof.
  intros Hle Hrel.
  pose proof (processField_same (set_threshold fieldId t1 fieldConfigs)
                lo hi jiraField Hrel) as Hsame.
  revert Hsame. unfold processField.
  fold (config_of (jf_id jiraField) (set_threshold fieldId t1 fieldConfigs)).
  fold (config_of (jf_id jiraField) (set_threshold fieldId t2 fieldConfigs)).
  rewrite !config_of_set_threshold.
  destruct (config_of (jf_id jiraField) fieldConfigs) as [config|]; simpl;
    [|done].
  destruct (String.eqb (jiraFieldId config) fieldId); [|done].
  intros _. simpl.
  destruct (negb (extractionEnabled config)); [auto with promotion|].
  destruct (_ || _); [auto with promotion|].
  pose proof (extractSingleFieldValue_mono jiraField config t1 t2 Hle) as Hmono.
  destruct (extractSingleFieldValue _ _ _ _ _ _ (with_threshold t2 config) _ _)
    as [e2|] eqn:H2.
  - destruct Hmono as [e1 H1]; [eauto|]. rewrite H1.
    pose proof (extractSingleFieldValue_accepts _ _ _ H1) as Hacc.
    unfold shouldAutoApplyField. simpl in *.
    destruct (requireConfirmationForAll preferences); [auto with promotion|].
    destruct (String.eqb (extractionMode config) "auto-apply").
    + rewrite Hacc. case_match; auto with promotion.
    + repeat case_match; auto with promotion.
  - clear Hmono.
    destruct (extractSingleFieldValue _ _ _ _ _ _ (with_threshold t1 config) _ _);
      [|auto with promotion].
    case_match; auto with promotion.
Qed.

Lemma run_threshold fieldConfigs fieldId (t1 t2 : Q) jiraFields : ∀ lo hi,
  (t1 <= t2)%Q →
  no_promotion lo hi →
  no_promotion
    (fold_left (step (set_threshold fieldId t1 fieldConfigs)) jiraFields lo)
    (fold_left (step (set_threshold fieldId t2 fieldConfigs)) jiraFields hi).
Proof.
  induction jiraFields as [|f fs IH]; intros lo hi Hle Hrel; simpl; [done|].
  apply IH; auto using processField_threshold.
Qed.

(** *** Buckets and counters (C1) *)

(** A field with a configuration is counted in [totalFields] and in one
    bucket counter; a field on the defaults path is counted in
    [totalFields] only; the other fields are not counted. *)
Lemma processField_counts fieldConfigs r jiraField :
  totalFields (extractionSummary (step fieldConfigs r jiraField))
  + bucketCounts (extractionSummary r)
  = totalFields (extractionSummary r)
    + bucketCounts (extractionSummary (step fieldConfigs r jiraField))
    + (if on_defaults_path fieldConfigs jiraField then 1 else 0).
Proof.
  unfold on_defaults_path, config_of, processField, processFieldWithDefaults,
    bucketCounts.
  destruct (jf_required jiraField);
    destruct (List.find _ fieldConfigs); simpl;
    repeat case_match; simpl; lia.
Qed.

Lemma run_counts fieldConfigs jiraFields : ∀ r,
  totalFields (extractionSummary (fold_left (step fieldConfigs) jiraFields r))
  + bucketCounts (extractionSummary r)
  = totalFields (extractionSummary r)
    + bucketCounts
        (extractionSummary (fold_left (step fieldConfigs) jiraFields r))
    + length (List.filter (on_defaults_path fieldConfigs) jiraFields).
Proof.
  induction jiraFields as [|f fs IH]; intros r; simpl; [lia|].
  specialize (IH (step fieldConfigs r f)).
  pose proof (processField_counts fieldConfigs r f).
  destruct (on_defaults_path fieldConfigs f); simpl; lia.
Qed.

Lemma holding_insert {A} (m : gmap string A) (k id : string) (v : A) :
  ((if decide (k ∈ dom (<[id := v]> m)) then 1 else 0)
   ≤ (if decide (k ∈ dom m) then 1 else 0)
     + (if String.eqb k id then 1 else 0))%nat.
Proof.
  rewrite dom_insert_L.
  destruct (String.eqb_spec k id) as [->|Hne].
  - repeat case_decide; lia.
  - repeat case_decide; try lia.
    exfalso.
    match goal with
    | H : k ∈ _ ∪ _ |- _ => apply elem_of_union in H as [H|H]
    end; [|done].
    apply elem_of_singleton in H. done.
Qed.

Lemma holding_push (l : list string) (k id : string) :
  length (List.filter (String.eqb k) (l ++ [id]))
  = length (List.filter (String.eqb k) l) + (if String.eqb k id then 1 else 0).
Proof.
  rewrite List.filter_app, length_app. simpl.
  destruct (String.eqb k id); reflexivity.
Qed.

Lemma holding_summary f r k :
  bucketsHolding (with_summary f r) k = bucketsHolding r k.
Proof. reflexivity. Qed.

Lemma holding_auto id v r k :
  (bucketsHolding (set_autoApplied id v r) k
   ≤ bucketsHolding r k + (if String.eqb k id then 1 else 0))%nat.
Proof.
  unfold bucketsHolding. simpl.
  pose proof (holding_insert (autoApplied r) k id v). lia.
Qed.

Lemma holding_confirm id c r k :
  (bucketsHolding (set_requiresConfirmation id c r) k
   ≤ bucketsHolding r k + (if String.eqb k id then 1 else 0))%nat.
Proof.
  unfold bucketsHolding. simpl.
  pose proof (holding_insert (requiresConfirmation r) k id c). lia.
Qed.

Lemma holding_manual id r k :
  (bucketsHolding (push_manualFields id r) k
   ≤ bucketsHolding r k + (if String.eqb k id then 1 else 0))%nat.
Proof. unfold bucketsHolding. simpl. rewrite holding_push. lia. Qed.

Lemma holding_skipped id r k :
  (bucketsHolding (push_skippedFields id r) k
   ≤ bucketsHolding r k + (if String.eqb k id then 1 else 0))%nat.
Proof. unfold bucketsHolding. simpl. rewrite holding_push. lia. Qed.

(** Processing a field adds its id to at most one bucket. *)
Lemma processField_holding fieldConfigs r jiraField k :
  (bucketsHolding (step fieldConfigs r jiraField) k
   ≤ bucketsHolding r k + (if String.eqb k (jf_id jiraField) then 1 else 0))%nat.
Proof.
  set (d := if String.eqb k (jf_id jiraField) then 1 else 0).
  pose proof (holding_auto (jf_id jiraField)) as Ha.
  pose proof (holding_confirm (jf_id jiraField)) as Hc.
  pose proof (holding_manual (jf_id jiraField)
                (with_summary incr_totalFields r) k) as Hm.
  pose proof (holding_skipped (jf_id jiraField)
                (with_summary incr_totalFields r) k) as Hs.
  fold d in Hm, Hs. rewrite holding_summary in Hm, Hs.
  unfold processField, processFieldWithDefaults.
  repeat case_match; rewrite ?holding_summary; try done; try lia;
    (etrans; [apply Ha || apply Hc|]); rewrite holding_summary; done.
Qed.

Lemma run_holding fieldConfigs jiraFields k : ∀ r,
  (bucketsHolding (fold_left (step fieldConfigs) jiraFields r) k
   ≤ bucketsHolding r k
     + length (List.filter (String.eqb k) (jf_id <$> jiraFields)))%nat.
Proof.
  induction jiraFields as [|f fs IH]; intros r; [simpl; lia|].
  rewrite fmap_cons. cbn [fold_left List.filter].
  specialize (IH (step fieldConfigs r f)).
  pose proof (processField_holding fieldConfigs r f k).
  destruct (String.eqb k (jf_id f)); simpl; lia.
Qed.

End EngineProperties.

Lemma NoDup_filter_eqb (l : list string) (k : string) :
  NoDup l → (length (List.filter (String.eqb k) l) ≤ 1)%nat.
Proof.
  induction 1 as [|x l Hx Hl IH]; simpl; [lia|].
  destruct (String.eqb_spec k x) as [->|Hne]; [|done].
  simpl. enough (List.filter (String.eqb x) l = []) as -> by (simpl; lia).
  clear IH Hl. induction l as [|y l IH]; simpl; [done|].
  destruct (String.eqb_spec x y) as [->|Hne].
  - exfalso. apply Hx. left.
  - apply IH. intros Hin. apply Hx. right. done.
Qed.

(** *** The properties of a whole run *)

Section RunProperties.
Variable now : Clock.
Variable callAIProvider : Prompt → string → string → Result Js.codeUnits.
Variable JSON_parse : Js.codeUnits → option json.
Variable ToNumber : json → option Q.
Variable description : string.
Variable jiraFields : list JiraField.
Variable workItemType : string.
Variables aiProvider apiKey : option string.

Local Abbreviation run getFieldExtractionConfig :=
  (extractFieldValuesWithConfig now callAIProvider JSON_parse ToNumber
     getFieldExtractionConfig description jiraFields workItemType aiProvider
     apiKey).

Lemma run_unfold getFieldExtractionConfig :
  run getFieldExtractionConfig
  = fold_left
      (processField now callAIProvider JSON_parse ToNumber description
         (fst (getFieldExtractionConfig workItemType))
         (snd (getFieldExtractionConfig workItemType)) aiProvider apiKey)
      jiraFields emptyResult.
Proof.
  unfold extractFieldValuesWithConfig.
  destruct (getFieldExtractionConfig workItemType). reflexivity.
Qed.

(** The counters of a run: [totalFields] exceeds the sum of the four bucket
    counters by the number of fields that went through
    [processFieldWithDefaults]. *)
Lemma summary_counts getFieldExtractionConfig :
  totalFields (extractionSummary (run getFieldExtractionConfig))
  = bucketCounts (extractionSummary (run getFieldExtractionConfig))
    + length (List.filter
                (on_defaults_path (fst (getFieldExtractionConfig workItemType)))
                jiraFields).
Proof.
  rewrite run_unfold.
  pose proof (run_counts now callAIProvider JSON_parse ToNumber description
                (snd (getFieldExtractionConfig workItemType)) aiProvider apiKey
                (fst (getFieldExtractionConfig workItemType)) jiraFields
                emptyResult) as H.
  change (bucketCounts (extractionSummary emptyResult)) with 0 in H.
  change (totalFields (extractionSummary emptyResult)) with 0 in H.
  lia.
Qed.

(** When the fields of a run have distinct ids, every id is in at most one
    of the four buckets. *)
Lemma buckets_disjoint getFieldExtractionConfig k :
  NoDup (jf_id <$> jiraFields) →
  (bucketsHolding (run getFieldExtractionConfig) k ≤ 1)%nat.
Proof.
  intros Hids. rewrite run_unfold.
  pose proof (run_holding now callAIProvider JSON_parse ToNumber description
                (snd (getFieldExtractionConfig workItemType)) aiProvider apiKey
                (fst (getFieldExtractionConfig workItemType)) jiraFields k
                emptyResult) as H.
  pose proof (NoDup_filter_eqb _ k Hids).
  assert (bucketsHolding emptyResult k = 0) as Hempty.
  { unfold bucketsHolding, emptyResult. simpl. rewrite dom_empty_L.
    repeat case_decide; try done; exfalso; by eapply not_elem_of_empty. }
  lia.
Qed.

End RunProperties.

(** C1, at a failing input. A run over one required field that has no
    configuration goes through [processFieldWithDefaults]: the field is
    counted in [totalFields] and is put in the manual bucket, and no bucket
    counter is incremented, so that the four counters add up to 0 and not
    to 1. *)
Theorem defaults_path_not_counted :
  let r := runWithoutAi (sampleConfig [] false) "Add a login page"
             [summaryField] in
  manualFields r = ["summary"]
  ∧ extractionSummary r
    = {| totalFields := 1; autoAppliedCount := 0; confirmationCount := 0;
         manualCount := 0; skippedCount := 0 |}
  ∧ totalFields (extractionSummary r) ≠ bucketCounts (extractionSummary r).
Proof. vm_compute. repeat split. discriminate. Qed.

(** C7. Raising the threshold of a field, all else equal, sends no field
    to the auto-applied bucket: a field that is auto-applied under the
    higher threshold is auto-applied under the lower one. It takes no field
    out of the manual bucket either, and the skipped fields are the same. *)
Theorem threshold_monotone (now : Clock)
    (callAIProvider : Prompt → string → string → Result Js.codeUnits)
    (JSON_parse : Js.codeUnits → option json) (ToNumber : json → option Q)
    (fieldConfigs : list FieldExtractionConfig)
    (preferences : ExtractionPreferences)
    (description : string) (jiraFields : list JiraField)
    (workItemType : string) (aiProvider apiKey : option string)
    (fieldId : string) (t1 t2 : Q) :
  (t1 <= t2)%Q →
  let run t :=
    extractFieldValuesWithConfig now callAIProvider JSON_parse ToNumber
      (fun _ => (set_threshold fieldId t fieldConfigs, preferences))
      description jiraFields workItemType aiProvider apiKey in
  dom (autoApplied (run t2)) ⊆ dom (autoApplied (run t1))
  ∧ (∀ k, k ∈ manualFields (run t1) → k ∈ manualFields (run t2))
  ∧ skippedFields (run t1) = skippedFields (run t2).
Proof.
  intros Hle run. subst run. cbv beta.
  rewrite !run_unfold. simpl.
  apply (run_threshold now callAIProvider JSON_parse ToNumber description
           preferences aiProvider apiKey fieldConfigs fieldId t1 t2 jiraFields
           emptyResult emptyResult Hle).
  done.
Qed.

Lemma threshold_monotone_witness :
  let run t :=
    runWithoutAi (fun _ => (set_threshold "priority" t (priorityConfigs 0.7%Q),
                            preferences_of "pattern" 0.7%Q false))
      "low priority" [priorityField] in
  dom (autoApplied (run 0.9%Q)) ⊆ dom (autoApplied (run 0.5%Q))
  ∧ (∀ k, k ∈ manualFields (run 0.5%Q) → k ∈ manualFields (run 0.9%Q))
  ∧ skippedFields (run 0.5%Q) = skippedFields (run 0.9%Q).
Proof.
  apply (threshold_monotone november2026 noProvider noJson noNumber
           (priorityConfigs 0.7%Q) (preferences_of "pattern" 0.7%Q false)
           "low priority" [priorityField] "story" None None "priority"
           0.5%Q 0.9%Q).
  unfold Qle. simpl. lia.
Defined.

(** C8. When [requireConfirmationForAll] is set, the auto-applied bucket of
    a run is empty, for the fields with a configuration and for those on
    the defaults path. *)
Theorem confirm_all_empties_autoApplied (now : Clock)
    (callAIProvider : Prompt → string → string → Result Js.codeUnits)
    (JSON_parse : Js.codeUnits → option json) (ToNumber : json → option Q)
    (getFieldExtractionConfig :
       string → list FieldExtractionConfig * ExtractionPreferences)
    (description : string) (jiraFields : list JiraField)
    (workItemType : string) (aiProvider apiKey : option string) :
  requireConfirmationForAll (snd (getFieldExtractionConfig workItemType))
  = true →
  autoApplied
    (extractFieldValuesWithConfig now callAIProvider JSON_parse ToNumber
       getFieldExtractionConfig description jiraFields workItemType aiProvider
       apiKey)
  = ∅.
Proof.
  intros Hall. rewrite run_unfold, run_confirm_all; done.
Qed.

Lemma confirm_all_empties_autoApplied_witness :
  autoApplied
    (runWithoutAi (sampleConfig (priorityConfigs 0.5%Q) true)
       "low priority, about 8 story points"
       [priorityField;
        field_of "customfield_10000" "Story Points" "number" true None])
  = ∅.
Proof.
  apply (confirm_all_empties_autoApplied november2026 noProvider noJson
           noNumber (sampleConfig (priorityConfigs 0.5%Q) true)).
  reflexivity.
Defined.

(** C10. When [requireConfirmationForAll] is not set, a field whose
    configuration has the mode [auto-apply] is never in the confirmation
    bucket: a value is accepted and auto-applied under the same test on
    the threshold. This holds whether extraction is enabled for the field
    or not. *)
Theorem auto_apply_never_confirmed (now : Clock)
    (callAIProvider : Prompt → string → string → Result Js.codeUnits)
    (JSON_parse : Js.codeUnits → option json) (ToNumber : json → option Q)
    (getFieldExtractionConfig :
       string → list FieldExtractionConfig * ExtractionPreferences)
    (description : string) (jiraFields : list JiraField)
    (workItemType : string) (aiProvider apiKey : option string)
    (fieldId : string) (config : FieldExtractionConfig) :
  requireConfirmationForAll (snd (getFieldExtractionConfig workItemType))
  = false →
  config_of fieldId (fst (getFieldExtractionConfig workItemType))
  = Some config →
  extractionMode config = "auto-apply" →
  fieldId
  ∉ dom (requiresConfirmation
           (extractFieldValuesWithConfig now callAIProvider JSON_parse ToNumber
              getFieldExtractionConfig description jiraFields workItemType
              aiProvider apiKey)).
Proof.
  intros Hall Hconfig Hmode. rewrite run_unfold.
  eapply run_auto_apply_mode; eauto.
  simpl. rewrite dom_empty_L. apply not_elem_of_empty.
Qed.

Lemma auto_apply_never_confirmed_witness :
  "priority"
  ∉ dom (requiresConfirmation
           (runWithoutAi (sampleConfig (priorityConfigs 0.5%Q) false)
              "low priority" [priorityField; summaryField])).
Proof.
  apply (auto_apply_never_confirmed november2026 noProvider noJson noNumber
           (sampleConfig (priorityConfigs 0.5%Q) false) "low priority"
           [priorityField; summaryField] "story" None None "priority"
           (config_for "priority" "pattern" "auto-apply" 0.5%Q));
    reflexivity.
Defined.

(** ** Properties of the inference from an error response (C9) *)

Section InferenceProperties.
Import JiraFieldService.
Variable now : Clock.

Lemma scanText_no_match text fields :
  no_required_match text = true → scanText now text fields = fields.
Proof.
  unfold no_required_match, scanText.
  generalize requiredPatterns. intros patterns. revert fields.
  induction patterns as [|pattern patterns IH]; intros fields; simpl; [done|].
  intros [Hp Hps]%andb_prop.
  destruct (Regex.search_all pattern text); [|discriminate]. simpl. auto.
Qed.

Lemma scanMessages_no_match errorMessages : ∀ fields,
  forallb (fun message =>
             match message with
             | JStr message => no_required_match message
             | _ => true
             end) errorMessages = true →
  fold_left (scanMessage now) errorMessages fields = fields.
Proof.
  induction errorMessages as [|message messages IH]; intros fields; simpl;
    [done|].
  intros [Hm Hms]%andb_prop. rewrite IH by done.
  destruct message; simpl; try done. by apply scanText_no_match.
Qed.

Lemma fromErrorEntries_no_required entries : ∀ fields,
  forallb (fun entry =>
             match snd entry with
             | JStr errorMessage =>
                 negb (Js.includes (Js.toLowerCase errorMessage) "required")
             | _ => true
             end) entries = true →
  fromErrorEntries now entries fields = Ok fields.
Proof.
  induction entries as [|[fieldId errorMessage] entries IH]; intros fields;
    simpl; [done|].
  intros [He Hes]%andb_prop.
  destruct errorMessage; simpl in *; try (by apply IH).
  apply negb_true_iff in He. rewrite He. simpl. by apply IH.
Qed.

(** A payload that names no required field gives no parsed field. *)
Lemma parsedFields_names_no_field errorData :
  names_no_field errorData = true → parsedFields now errorData = Ok [].
Proof.
  assert (Hobj : ∀ errorData,
            match get "errors" errorData with
            | Some errors =>
                match entries_of errors with
                | Some entries =>
                    forallb (fun entry =>
                               match snd entry with
                               | JStr errorMessage =>
                                   negb (Js.includes
                                           (Js.toLowerCase errorMessage)
                                           "required")
                               | _ => true
                               end) entries
                | None => true
                end
            | None => true
            end
            && match get "errorMessages" errorData with
               | Some (JArr errorMessages) =>
                   forallb (fun message =>
                              match message with
                              | JStr message => no_required_match message
                              | _ => true
                              end) errorMessages
               | _ => true
               end = true →
            (fields ←!
               match get "errors" errorData with
               | Some errors =>
                   match entries_of errors with
                   | Some entries => fromErrorEntries now entries []
                   | None => Ok []
                   end
               | None => Ok []
               end;
             match get "errorMessages" errorData with
             | Some (JArr errorMessages) =>
                 Ok (fold_left (scanMessage now) errorMessages fields)
             | _ => Ok fields
             end) = Ok []).
  { intros e [Herrors Hmessages]%andb_prop.
    assert (match get "errors" e with
            | Some errors =>
                match entries_of errors with
                | Some entries => fromErrorEntries now entries []
                | None => Ok []
                end
            | None => Ok []
            end = Ok []) as ->.
    { destruct (get "errors" e) as [errors|]; [|done].
      destruct (entries_of errors); [|done].
      by apply fromErrorEntries_no_required. }
    simpl.
    destruct (get "errorMessages" e) as [[| | | |errorMessages|]|]; try done.
    by rewrite scanMessages_no_match. }
  destruct errorData as [| | |text|items|entries]; simpl; try done.
  - intros Htext. by rewrite scanText_no_match.
  - apply (Hobj (JObj entries)).
Qed.

(** What [parseErrorForRequiredFields] returns is never empty. *)
Lemma parseErrorForRequiredFields_nonempty errorData fields :
  parseErrorForRequiredFields now errorData = Ok fields → fields ≠ [].
Proof.
  unfold parseErrorForRequiredFields.
  destruct (parsedFields now errorData) as [[|f parsed]|?]; simpl;
    intros [= <-]; discriminate.
Qed.

End InferenceProperties.

(** When the parsing of the payload gives no field, the result is the list
    of the four minimal fields. *)
Lemma fallback_when_nothing_parsed (now : Clock) (errorData : json) :
  JiraFieldService.parsedFields now errorData = Ok [] →
  JiraFieldService.parseErrorForRequiredFields now errorData
  = Ok JiraFieldService.minimalFields.
Proof.
  intros Hparsed. unfold JiraFieldService.parseErrorForRequiredFields.
  rewrite Hparsed. reflexivity.
Qed.

Lemma names_no_field_examples :
  Forall (fun errorData => names_no_field errorData = true)
    [ JObj []; JStr EmptyString; JNull; JArr []; JNum 404%Q; JBool false;
      JStr "Internal server error";
      JObj [("message", JStr "Unauthorized"); ("status", JNum 401%Q)];
      JObj [("errors", JObj []); ("errorMessages", JArr [])];
      JObj [("errors", JObj [("summary", JStr "Summary is too long")])] ].
Proof. repeat constructor. Qed.



(** * Further properties of the code *)

(** ** The pattern extractor *)

Section MorePatternProperties.
Variable now : Clock.

(** The confidence in the goal is one of [patternConfidences]. *)
Ltac known_confidence :=
  unfold patternConfidences;
  repeat first [apply list_elem_of_here | apply list_elem_of_further].

Lemma pattern_entry_made fieldId v (c : Q) :
  c ∈ patternConfidences → pattern_made (pattern_entry fieldId v c).
Proof. by split. Qed.

(** What the body of the loop leaves for one field. *)
Lemma extractField_outcome description field outcome :
  extractField now description field = Ok outcome →
  match outcome with
  | Extracted (Some _) confidence => confidence ∈ patternConfidences
  | Extracted None _ => True
  | Returned result => (length result ≤ 1)%nat ∧ Forall pattern_made result
  end.
Proof.
  unfold extractField.
  destruct (Js.includes (Js.toLowerCase (jf_name field)) "priority").
  { unfold extractPriority, nothing.
    destruct (Regex.search priorityRe _); [|by intros [= <-]].
    destruct (mapPriorityValue _ _); simpl; intros [= <-].
    known_confidence. }
  destruct (_ || _).
  { unfold extractQuarter, nothing. intros [= <-].
    repeat case_match; simplify_eq; try done; known_confidence. }
  destruct (_ || _).
  { unfold extractInternalExternalValue, extractRoadmapValue.
    destruct (String.eqb (jf_id field) "customfield_26360"); intros [= <-].
    - destruct (_ <? _)%nat; simpl; split; try lia; repeat constructor.
    - destruct (Regex.search roadmapRe _); simpl; split; try lia;
        repeat constructor. }
  unfold extractStoryPoints, extractComponent, extractEpic, extractLabels,
    nothing.
  repeat case_match; intros; simplify_eq; try done; known_confidence.
Qed.

Lemma extractWithPatterns_from_made description :
  ∀ jiraFields extractedFields result,
  Forall pattern_made extractedFields →
  extractWithPatterns_from now description jiraFields extractedFields
  = Ok result →
  Forall pattern_made result.
Proof.
  induction jiraFields as [|field fields IH]; intros acc result Hacc; simpl.
  - by intros [= <-].
  - destruct (extractField now description field) as [outcome|?] eqn:Hout;
      [|discriminate].
    apply extractField_outcome in Hout. simpl.
    destruct outcome as [[v|] c|returned].
    + apply IH. apply Forall_app. split; [done|].
      constructor; [by apply pattern_entry_made|constructor].
    + by apply IH.
    + intros [= <-]. tauto.
Qed.

Lemma extractWithPatterns_from_length description :
  ∀ jiraFields extractedFields result,
  extractWithPatterns_from now description jiraFields extractedFields
  = Ok result →
  (length result ≤ length extractedFields + length jiraFields)%nat.
Proof.
  induction jiraFields as [|field fields IH]; intros acc result; simpl.
  - intros [= <-]. lia.
  - destruct (extractField now description field) as [outcome|?] eqn:Hout;
      [|discriminate].
    apply extractField_outcome in Hout. simpl.
    destruct outcome as [[v|] c|returned].
    + intros Hloop. apply IH in Hloop. rewrite length_app in Hloop.
      simpl in Hloop. lia.
    + intros Hloop. apply IH in Hloop. lia.
    + intros [= <-]. lia.
Qed.

End MorePatternProperties.

(** X1. Every entry that [extractWithPatterns] returns is marked as found
    by pattern and has one of the confidences 0.4, 0.6, 0.7, 0.8 and 0.9:
    no entry of confidence 0 is ever returned. *)
Theorem pattern_entries_confidence (now : Clock) description jiraFields result :
  extractWithPatterns now description jiraFields = Ok result →
  Forall pattern_made result.
Proof.
  intros Hresult.
  eapply extractWithPatterns_from_made; [|exact Hresult]. constructor.
Qed.

Lemma pattern_entries_confidence_witness :
  Forall pattern_made
    [pattern_entry "priority" (VStr "Low") 0.8%Q;
     pattern_entry "customfield_10000" (VNum 8) 0.9%Q].
Proof.
  apply (pattern_entries_confidence november2026
           "low priority, about 8 story points"
           [priorityField; summaryField; storyPointsField]).
  reflexivity.
Defined.

(** X2. [extractWithPatterns] returns at most as many entries as it is
    given fields, also when the roadmap branch ends the loop early. *)
Theorem pattern_entries_count (now : Clock) description jiraFields result :
  extractWithPatterns now description jiraFields = Ok result →
  (length result ≤ length jiraFields)%nat.
Proof.
  intros Hresult. apply extractWithPatterns_from_length in Hresult.
  simpl in Hresult. lia.
Qed.

Lemma pattern_entries_count_witness :
  (length [pattern_entry "customfield_26360" (VStr "public") 0.8%Q]
   ≤ length [priorityField; roadmapThemeField])%nat.
Proof.
  apply (pattern_entries_count november2026 "low priority public launch").
  reflexivity.
Defined.

(** X3. When no field goes to the roadmap branch, the entries returned
    follow the fields: their ids are ids of the fields, in the order of the
    fields, at most one entry for each field. *)
Theorem pattern_entries_follow_fields (now : Clock) description jiraFields
    result :
  Forall (fun field => is_roadmap_field field = false) jiraFields →
  extractWithPatterns now description jiraFields = Ok result →
  sublist (efv_fieldId <$> result) (jf_id <$> jiraFields).
Proof. apply extractWithPatterns_ids. Qed.

Lemma pattern_entries_follow_fields_witness :
  sublist ["priority"; "customfield_10000"]
    (jf_id <$> [priorityField; summaryField; storyPointsField]).
Proof.
  apply (pattern_entries_follow_fields november2026
           "low priority, about 8 story points"
           [priorityField; summaryField; storyPointsField]
           [pattern_entry "priority" (VStr "Low") 0.8%Q;
            pattern_entry "customfield_10000" (VNum 8) 0.9%Q]).
  - repeat constructor.
  - reflexivity.
Defined.

(** *** Labels *)

Lemma lower_char_idem (c : ascii) :
  Js.lower_char (Js.lower_char c) = Js.lower_char c.
Proof. destruct c as [[] [] [] [] [] [] [] []]; vm_compute; reflexivity. Qed.

Lemma toLowerCase_idem (s : string) :
  Js.toLowerCase (Js.toLowerCase s) = Js.toLowerCase s.
Proof.
  induction s as [|c s IH]; simpl; [done|]. by rewrite lower_char_idem, IH.
Qed.

Lemma toLowerCase_length (s : string) :
  String.length (Js.toLowerCase s) = String.length s.
Proof. induction s as [|c s IH]; simpl; [done|]. by rewrite IH. Qed.

Lemma isCommonWord_toLowerCase (word : string) :
  isCommonWord (Js.toLowerCase word) = isCommonWord word.
Proof. unfold isCommonWord. by rewrite toLowerCase_idem. Qed.

Lemma existsb_eqb_elem_of (x : string) (l : list string) :
  existsb (String.eqb x) l = true ↔ x ∈ l.
Proof.
  rewrite existsb_exists, list_elem_of_In. split.
  - intros (y & Hy & ->%String.eqb_eq). done.
  - intros Hx. exists x. split; [done|]. apply String.eqb_refl.
Qed.

Lemma set_add_kept labels label :
  labels_kept labels → label_like label → labels_kept (set_add labels label).
Proof.
  intros [Hdup Hall] Hlabel. unfold set_add.
  destruct (existsb (String.eqb label) labels) eqn:Hin; [done|].
  split.
  - apply NoDup_app. repeat split; [done| |apply NoDup_singleton].
    intros x Hx ->%list_elem_of_singleton.
    apply existsb_eqb_elem_of in Hx. congruence.
  - apply Forall_app. split; [done|]. by constructor.
Qed.

Lemma add_label_kept labels m :
  labels_kept labels → labels_kept (add_label labels m).
Proof.
  intros Hkept. unfold add_label.
  destruct (Regex.group 1 m) as [label|]; [|done].
  destruct (Js.truthy_str label && negb (isCommonWord label)
            && (3 <=? String.length label)%nat) eqn:Htest; [|done].
  apply andb_prop in Htest as [[_ Hcommon]%andb_prop Hlen].
  apply set_add_kept; [done|]. repeat split.
  - rewrite isCommonWord_toLowerCase. by apply negb_true_iff.
  - rewrite toLowerCase_length. by apply Nat.leb_le.
  - apply toLowerCase_idem.
Qed.

Lemma collectLabels_kept description : labels_kept (collectLabels description).
Proof.
  unfold collectLabels.
  assert (Hmatches : ∀ matches labels,
            labels_kept labels → labels_kept (fold_left add_label matches labels)).
  { induction matches as [|m matches IH]; intros labels Hkept; simpl; [done|].
    apply IH. by apply add_label_kept. }
  assert (Hpatterns : ∀ patterns labels,
            labels_kept labels →
            labels_kept
              (fold_left (fun extractedLabels pattern =>
                            fold_left add_label
                              (Regex.search_all pattern description)
                              extractedLabels) patterns labels)).
  { induction patterns as [|pattern patterns IH]; intros labels Hkept; simpl;
      [done|].
    apply IH. by apply Hmatches. }
  apply Hpatterns. split; constructor.
Qed.

Lemma extractField_labels (now : Clock) description field :
  is_label_field field = true →
  extractField now description field = Ok (extractLabels description).
Proof.
  unfold is_label_field, extractField.
  destruct (Js.includes (Js.toLowerCase (jf_name field)) "priority");
    [discriminate|].
  destruct (Js.includes (Js.toLowerCase (jf_name field)) "quarter"
            || String.eqb (jf_id field) "customfield_26362"); [discriminate|].
  destruct (Js.includes (Js.toLowerCase (jf_name field)) "roadmap"
            || Js.includes (Js.toLowerCase (jf_name field)) "include"
            || String.eqb (jf_id field) "customfield_26360"); [discriminate|].
  destruct (Js.includes (Js.toLowerCase (jf_name field)) "story"
            && Js.includes (Js.toLowerCase (jf_name field)) "point");
    [discriminate|].
  destruct (Js.includes (Js.toLowerCase (jf_name field)) "component");
    [discriminate|].
  destruct (Js.includes (Js.toLowerCase (jf_name field)) "epic");
    [discriminate|].
  simpl. intros ->. reflexivity.
Qed.

(** X4. For a field of the labels branch, [extractWithPatterns] returns
    nothing, or one entry of confidence 0.7 whose value is a list of labels
    that is not empty and has no duplicate, each label in lower case, of
    three characters at least, and not one of the common words. *)
Theorem labels_entry (now : Clock) description field result :
  is_label_field field = true →
  extractWithPatterns now description [field] = Ok result →
  result = []
  ∨ ∃ labels,
      result = [pattern_entry (jf_id field) (VArr labels) 0.7%Q]
      ∧ labels ≠ [] ∧ NoDup labels ∧ Forall label_like labels.
Proof.
  intros Hfield.
  rewrite extractWithPatterns_single, extractField_labels by done.
  unfold extractLabels. simpl.
  pose proof (collectLabels_kept description) as [Hdup Hall].
  destruct (collectLabels description) as [|label labels] eqn:Hlabels; simpl.
  - intros [= <-]. by left.
  - intros [= <-]. right. exists (label :: labels). done.
Qed.

Lemma labels_entry_witness :
  extractWithPatterns november2026 "the migration of backend v2" [labelsField]
  = Ok []
  ∨ ∃ labels,
      Ok [pattern_entry "labels" (VArr ["migration"; "backend"]) 0.7%Q]
      = Ok [pattern_entry (jf_id labelsField) (VArr labels) 0.7%Q]
      ∧ labels ≠ [] ∧ NoDup labels ∧ Forall label_like labels.
Proof.
  destruct (labels_entry november2026 "the migration of backend v2" labelsField
              [pattern_entry "labels" (VArr ["migration"; "backend"]) 0.7%Q]
              eq_refl eq_refl) as [Hnone|(labels & Hlabels & Hrest)].
  - discriminate Hnone.
  - right. exists labels. split; [by rewrite Hlabels|done].
Defined.

(** *** [mapPriorityValue] *)

Lemma find_allowed_elem mapping vs v :
  find_allowed mapping vs = Ok (Some v) → AVStr v ∈ vs.
Proof.
  induction vs as [|[s|o] vs IH]; simpl; [discriminate| |discriminate].
  destruct (Js.includes _ _).
  - intros [= ->]. constructor.
  - intros Hfound. constructor. auto.
Qed.

Lemma mapPriority_loop_elem priority vs : ∀ mappings v,
  mapPriority_loop priority mappings vs = Ok v →
  v = priority ∨ AVStr v ∈ vs.
Proof.
  induction mappings as [|mapping mappings IH]; intros v; simpl.
  - intros [= ->]. by left.
  - destruct (find_allowed mapping vs) as [[found|]|?] eqn:Hfound; simpl;
      [|auto|discriminate].
    destruct (Js.truthy_str found); [|auto].
    intros [= <-]. right. eauto using find_allowed_elem.
Qed.

(** X5. [mapPriorityValue] invents no value: what it returns is the word
    it was given or one of the allowed values. *)
Theorem mapPriorityValue_range priority allowedValues v :
  mapPriorityValue priority allowedValues = Ok v →
  v = priority ∨ ∃ vs, allowedValues = Some vs ∧ AVStr v ∈ vs.
Proof.
  unfold mapPriorityValue. destruct allowedValues as [vs|].
  - intros [->|Hin]%mapPriority_loop_elem; [by left|].
    right. by exists vs.
  - intros [= ->]. by left.
Qed.

Lemma mapPriorityValue_range_witness :
  "Minor" = "low"
  ∨ ∃ vs, Some (AVStr <$> ["Critical"; "Major"; "Minor"]) = Some vs
          ∧ AVStr "Minor" ∈ vs.
Proof.
  apply (mapPriorityValue_range "low"
           (Some (AVStr <$> ["Critical"; "Major"; "Minor"])) "Minor").
  vm_compute. reflexivity.
Defined.

(** ** The AI extractor and its failures *)

Section MoreAiProperties.
Variable now : Clock.
Variable callAIProvider : Prompt → string → string → Result Js.codeUnits.
Variable JSON_parse : Js.codeUnits → option json.
Variable ToNumber : json → option Q.

Lemma acceptExtraction_made extraction e :
  acceptExtraction ToNumber extraction = Ok (Some e) → ai_made e.
Proof.
  unfold acceptExtraction.
  assert (Hgt : ∀ c : Q, q_gt c 0.5%Q = true → (0.5 < c)%Q).
  { intros c Hc. unfold q_gt in Hc. apply negb_true_iff in Hc.
    apply Qnot_le_lt. intros Hle. apply Qle_bool_iff in Hle. congruence. }
  repeat case_match; intros; simplify_eq.
  all: match goal with
       | H : _ && q_gt _ _ = true |- _ => apply andb_prop in H as [_ H]
       end.
  all: split; [done|]; simpl; auto.
Qed.

Lemma acceptExtractions_made extractions : ∀ extractedFields result,
  Forall ai_made extractedFields →
  acceptExtractions ToNumber extractions extractedFields = Ok result →
  Forall ai_made result.
Proof.
  induction extractions as [|extraction extractions IH];
    intros acc result Hacc; simpl.
  - by intros [= <-].
  - destruct (acceptExtraction ToNumber extraction) as [[e|]|?] eqn:He; simpl;
      [| |discriminate].
    + apply IH. apply Forall_app. split; [done|].
      constructor; [|constructor]. by eapply acceptExtraction_made.
    + by apply IH.
Qed.

Lemma extractWithAI_made description jiraFields aiProvider apiKey result :
  extractWithAI callAIProvider JSON_parse ToNumber description jiraFields
    aiProvider apiKey = Ok result →
  Forall ai_made result.
Proof.
  unfold extractWithAI.
  destruct (callAIProvider _ _ _) as [response|?]; [|discriminate].
  destruct (_ || _); [discriminate|].
  destruct (JSON_parse response) as [parsed|]; [|by intros [= <-]].
  destruct parsed; try discriminate;
    destruct (get "extractions" _) as [[| | | |extractions|]|];
    try (by intros [= <-]);
    apply acceptExtractions_made; constructor.
Qed.

(** X6. Every entry that [extractWithAI] returns is marked as found by AI
    and has a confidence above 0.5. *)
Theorem ai_entries_confidence description jiraFields aiProvider apiKey result :
  extractWithAI callAIProvider JSON_parse ToNumber description jiraFields
    aiProvider apiKey = Ok result →
  Forall ai_made result.
Proof. apply extractWithAI_made. Qed.

(** When the request to the provider fails for a field whose method is
    ['ai'], [extractSingleFieldValue] gives no value: the patterns are not
    tried. *)
Lemma extractSingleFieldValue_provider_failure description jiraField
    fieldConfig aiProvider apiKey error :
  extractionMethod fieldConfig = "ai" →
  Js.truthy_opt aiProvider = true →
  Js.truthy_opt apiKey = true →
  callAIProvider (buildPrompt description [jiraField])
    (default EmptyString aiProvider) (default EmptyString apiKey)
  = Throw error →
  extractSingleFieldValue now callAIProvider JSON_parse ToNumber description
    jiraField fieldConfig aiProvider apiKey = None.
Proof.
  intros Hmethod Hprovider Hkey Hcall.
  unfold extractSingleFieldValue, extractWithAI.
  rewrite Hmethod, Hprovider, Hkey, Hcall. reflexivity.
Qed.

Variable description : string.
Variable preferences : ExtractionPreferences.
Variables aiProvider apiKey : option string.

Local Abbreviation step fieldConfigs :=
  (processField now callAIProvider JSON_parse ToNumber description fieldConfigs
     preferences aiProvider apiKey).

(** A field id that is in the manual bucket stays there. *)
Lemma processField_manual_grows fieldConfigs r jiraField k :
  k ∈ manualFields r → k ∈ manualFields (step fieldConfigs r jiraField).
Proof.
  intros Hk. unfold processField, processFieldWithDefaults.
  repeat case_match; simpl; try done; apply elem_of_app; by left.
Qed.

Lemma run_manual_grows fieldConfigs jiraFields k : ∀ r,
  k ∈ manualFields r →
  k ∈ manualFields (fold_left (step fieldConfigs) jiraFields r).
Proof.
  induction jiraFields as [|f fs IH]; intros r Hk; simpl; [done|].
  apply IH. by apply processField_manual_grows.
Qed.

Lemma run_provider_failure fieldConfigs jiraFields jiraField config : ∀ r,
  jiraField ∈ jiraFields →
  config_of (jf_id jiraField) fieldConfigs = Some config →
  extractionEnabled config = true →
  extractionMethod config = "ai" →
  Js.truthy_opt aiProvider = true →
  Js.truthy_opt apiKey = true →
  (∃ error,
     callAIProvider (buildPrompt description [jiraField])
       (default EmptyString aiProvider) (default EmptyString apiKey)
     = Throw error) →
  jf_id jiraField
  ∈ manualFields (fold_left (step fieldConfigs) jiraFields r).
Proof.
  induction jiraFields as [|f fs IH];
    intros r Hin Hconfig Henabled Hmethod Hprovider Hkey [error Hcall].
  - by apply elem_of_nil in Hin.
  - simpl. apply elem_of_cons in Hin as [<-|Hin]; [|eauto].
    apply run_manual_grows.
    unfold processField. fold (config_of (jf_id jiraField) fieldConfigs).
    rewrite Hconfig, Henabled, Hmethod. simpl.
    destruct (String.eqb (extractionMode config) "manual-only"); simpl.
    + apply elem_of_app. right. constructor.
    + rewrite (extractSingleFieldValue_provider_failure _ _ _ _ _ error)
        by done.
      simpl. apply elem_of_app. right. constructor.
Qed.

End MoreAiProperties.

Lemma ai_entries_confidence_witness :
  Forall ai_made
    [ {| efv_fieldId := "priority"; efv_value := VJson (JStr "High");
         efv_confidence := 0.9%Q; efv_extractionMethod := ByAi |} ].
Proof.
  apply (ai_entries_confidence answeringProvider twoExtractions noNumber
           "it matters" [priorityField] "devs-ai" "key").
  reflexivity.
Defined.

(** X7. A failure of the provider does not abort a run, and it costs the
    field its value: a field of the run whose configuration is enabled with
    the method ['ai'] ends in the manual bucket when the request made for it
    fails, whatever the patterns would have found in the text. *)
Theorem provider_failure_goes_manual (now : Clock)
    (callAIProvider : Prompt → string → string → Result Js.codeUnits)
    (JSON_parse : Js.codeUnits → option json) (ToNumber : json → option Q)
    (getFieldExtractionConfig :
       string → list FieldExtractionConfig * ExtractionPreferences)
    (description : string) (jiraFields : list JiraField)
    (workItemType : string) (aiProvider apiKey : option string)
    (jiraField : JiraField) (config : FieldExtractionConfig) :
  jiraField ∈ jiraFields →
  config_of (jf_id jiraField) (fst (getFieldExtractionConfig workItemType))
  = Some config →
  extractionEnabled config = true →
  extractionMethod config = "ai" →
  Js.truthy_opt aiProvider = true →
  Js.truthy_opt apiKey = true →
  (∃ error,
     callAIProvider (buildPrompt description [jiraField])
       (default EmptyString aiProvider) (default EmptyString apiKey)
     = Throw error) →
  jf_id jiraField
  ∈ manualFields
      (extractFieldValuesWithConfig now callAIProvider JSON_parse ToNumber
         getFieldExtractionConfig description jiraFields workItemType
         aiProvider apiKey).
Proof.
  intros. rewrite run_unfold. eapply run_provider_failure; eauto.
Qed.

Lemma provider_failure_goes_manual_witness :
  "priority"
  ∈ manualFields
      (extractFieldValuesWithConfig november2026 failingProvider noJson
         noNumber
         (fun _ => ([config_for "priority" "ai" "auto-apply" 0.5%Q],
                    preferences_of "ai" 0.7%Q false))
         "low priority" [priorityField] "story" (Some "devs-ai") (Some "key")).
Proof.
  apply (provider_failure_goes_manual november2026 failingProvider noJson
           noNumber
           (fun _ => ([config_for "priority" "ai" "auto-apply" 0.5%Q],
                      preferences_of "ai" 0.7%Q false))
           "low priority" [priorityField] "story" (Some "devs-ai") (Some "key")
           priorityField (config_for "priority" "ai" "auto-apply" 0.5%Q));
    try reflexivity.
  - constructor.
  - eexists. reflexivity.
Defined.

(** ** The buckets and the counters of a run *)

Lemma filter_eqb_elem_of (l : list string) (k : string) :
  k ∈ l → (1 ≤ length (List.filter (String.eqb k) l))%nat.
Proof.
  induction 1 as [k l|k y l Hk IH]; simpl.
  - rewrite String.eqb_refl. simpl. lia.
  - destruct (String.eqb k y); simpl; lia.
Qed.

Lemma filter_eqb_NoDup (l : list string) :
  (∀ k, (length (List.filter (String.eqb k) l) ≤ 1)%nat) → NoDup l.
Proof.
  induction l as [|x l IH]; intros Hcount; [constructor|].
  apply NoDup_cons. split.
  - intros Hx%filter_eqb_elem_of. specialize (Hcount x). simpl in Hcount.
    rewrite String.eqb_refl in Hcount. simpl in Hcount. lia.
  - apply IH. intros k. specialize (Hcount k). simpl in Hcount.
    destruct (String.eqb k x); simpl in Hcount; lia.
Qed.

Lemma holding_one_apart (r : EnhancedExtractionResult) :
  (∀ k, (bucketsHolding r k ≤ 1)%nat) → buckets_apart r.
Proof.
  intros Hone. unfold buckets_apart.
  assert (Hlist : ∀ k l, k ∈ l ↔ (1 ≤ length (List.filter (String.eqb k) l))%nat).
  { intros k l. split; [apply filter_eqb_elem_of|].
    induction l as [|y l IH]; simpl; [lia|].
    destruct (String.eqb_spec k y) as [->|Hne]; [constructor|].
    intros Hl. constructor. auto. }
  assert (Hk : ∀ k,
            ((if decide (k ∈ dom (autoApplied r)) then 1 else 0)
             + (if decide (k ∈ dom (requiresConfirmation r)) then 1 else 0)
             + length (List.filter (String.eqb k) (manualFields r))
             + length (List.filter (String.eqb k) (skippedFields r)) ≤ 1)%nat)
    by exact Hone.
  split; [|split; [|split; [|split]]].
  - intros k Ha. specialize (Hk k). rewrite decide_True in Hk by done.
    split; [|split].
    + intros Hc. rewrite decide_True in Hk by done. lia.
    + intros Hm%Hlist. lia.
    + intros Hs%Hlist. lia.
  - intros k Hc. specialize (Hk k).
    rewrite (decide_True (P := k ∈ dom (requiresConfirmation r))) in Hk by done.
    split.
    + intros Hm%Hlist. lia.
    + intros Hs%Hlist. lia.
  - intros k Hm%Hlist Hs%Hlist. specialize (Hk k). lia.
  - apply filter_eqb_NoDup. intros k. specialize (Hk k). lia.
  - apply filter_eqb_NoDup. intros k. specialize (Hk k). lia.
Qed.

(** X8. In a run over fields with distinct ids, the four buckets are
    pairwise disjoint: no field id is in two of them, nor twice in one of
    the two lists. *)
Theorem run_buckets_apart (now : Clock)
    (callAIProvider : Prompt → string → string → Result Js.codeUnits)
    (JSON_parse : Js.codeUnits → option json) (ToNumber : json → option Q)
    (getFieldExtractionConfig :
       string → list FieldExtractionConfig * ExtractionPreferences)
    (description : string) (jiraFields : list JiraField)
    (workItemType : string) (aiProvider apiKey : option string) :
  NoDup (jf_id <$> jiraFields) →
  buckets_apart
    (extractFieldValuesWithConfig now callAIProvider JSON_parse ToNumber
       getFieldExtractionConfig description jiraFields workItemType aiProvider
       apiKey).
Proof.
  intros Hids. apply holding_one_apart. intros k. by apply buckets_disjoint.
Qed.

Lemma run_buckets_apart_witness :
  buckets_apart
    (runWithoutAi (sampleConfig (priorityConfigs 0.5%Q) false)
       "low priority, about 8 story points"
       [priorityField; summaryField; storyPointsField]).
Proof.
  apply (run_buckets_apart november2026 noProvider noJson noNumber
           (sampleConfig (priorityConfigs 0.5%Q) false)).
  repeat constructor; vm_compute; intros H;
    repeat (apply elem_of_cons in H as [H|H]; [discriminate|]);
    by apply elem_of_nil in H.
Defined.

Section MoreEngineProperties.
Variable now : Clock.
Variable callAIProvider : Prompt → string → string → Result Js.codeUnits.
Variable JSON_parse : Js.codeUnits → option json.
Variable ToNumber : json → option Q.
Variable description : string.
Variable fieldConfigs : list FieldExtractionConfig.
Variable preferences : ExtractionPreferences.
Variables aiProvider apiKey : option string.

Local Abbreviation step :=
  (processField now callAIProvider JSON_parse ToNumber description fieldConfigs
     preferences aiProvider apiKey).

(** *** The fields counted and the fields skipped *)

Lemma processField_total r jiraField :
  totalFields (extractionSummary (step r jiraField))
  = totalFields (extractionSummary r)
    + (if is_processed fieldConfigs jiraField then 1 else 0).
Proof.
  unfold is_processed, config_of, processField, processFieldWithDefaults.
  destruct (jf_required jiraField);
    destruct (List.find _ fieldConfigs); simpl;
    repeat case_match; simpl; lia.
Qed.

Lemma run_total jiraFields : ∀ r,
  totalFields (extractionSummary (fold_left step jiraFields r))
  = totalFields (extractionSummary r)
    + length (List.filter (is_processed fieldConfigs) jiraFields).
Proof.
  induction jiraFields as [|f fs IH]; intros r; simpl; [lia|].
  rewrite IH, processField_total.
  destruct (is_processed fieldConfigs f); simpl; lia.
Qed.

Lemma processField_skipped r jiraField :
  skippedFields (step r jiraField)
  = skippedFields r
    ++ (if is_disabled fieldConfigs jiraField then [jf_id jiraField] else [])
  ∧ skippedCount (extractionSummary (step r jiraField))
    = skippedCount (extractionSummary r)
      + (if is_disabled fieldConfigs jiraField then 1 else 0).
Proof.
  unfold is_disabled, config_of, processField, processFieldWithDefaults.
  destruct (List.find _ fieldConfigs) as [config|]; simpl.
  - destruct (negb (extractionEnabled config)); simpl; [split; [done|lia]|].
    repeat case_match; simpl; rewrite ?app_nil_r; split; try done; lia.
  - repeat case_match; simpl; rewrite ?app_nil_r; split; try done; lia.
Qed.

Lemma run_skipped jiraFields : ∀ r,
  skippedFields (fold_left step jiraFields r)
  = skippedFields r
    ++ (jf_id <$> List.filter (is_disabled fieldConfigs) jiraFields)
  ∧ skippedCount (extractionSummary (fold_left step jiraFields r))
    = skippedCount (extractionSummary r)
      + length (List.filter (is_disabled fieldConfigs) jiraFields).
Proof.
  induction jiraFields as [|f fs IH]; intros r; simpl.
  - rewrite app_nil_r. split; [done|lia].
  - destruct (IH (step r f)) as [-> ->].
    destruct (processField_skipped r f) as [-> ->].
    destruct (is_disabled fieldConfigs f); simpl.
    + rewrite <- app_assoc. split; [done|lia].
    + rewrite app_nil_r. split; [done|lia].
Qed.

(** *** Fields that are not in auto-apply mode *)

Lemma processField_other_mode r jiraField k config :
  config_of k fieldConfigs = Some config →
  extractionMode config ≠ "auto-apply" →
  k ∉ dom (autoApplied r) →
  k ∉ dom (autoApplied (step r jiraField)).
Proof.
  intros Hconfig Hmode Hk.
  destruct (String.eqb_spec (jf_id jiraField) k) as [<-|Hne].
  - unfold processField. fold (config_of (jf_id jiraField) fieldConfigs).
    rewrite Hconfig.
    repeat case_match; simpl; try done.
    exfalso.
    match goal with
    | H : shouldAutoApplyField _ _ _ = true |- _ => revert H
    end.
    unfold shouldAutoApplyField.
    destruct (String.eqb_spec (extractionMode config) "auto-apply"); [done|].
    repeat case_match; discriminate.
  - unfold processField, processFieldWithDefaults.
    repeat case_match; simpl; try done;
      rewrite dom_insert_L; apply not_elem_of_union; split; try done;
      apply not_elem_of_singleton; congruence.
Qed.

Lemma run_other_mode jiraFields k config : ∀ r,
  config_of k fieldConfigs = Some config →
  extractionMode config ≠ "auto-apply" →
  k ∉ dom (autoApplied r) →
  k ∉ dom (autoApplied (fold_left step jiraFields r)).
Proof.
  induction jiraFields as [|f fs IH]; intros r Hconfig Hmode Hk; simpl;
    [done|].
  apply IH; eauto using processField_other_mode.
Qed.

(** *** The candidates kept for confirmation *)

Lemma processField_candidates r jiraField :
  candidates_sound fieldConfigs preferences r →
  candidates_sound fieldConfigs preferences (step r jiraField).
Proof.
  intros Hsound. unfold processField.
  fold (config_of (jf_id jiraField) fieldConfigs).
  destruct (config_of (jf_id jiraField) fieldConfigs) as [config|] eqn:Hconfig.
  - repeat case_match; simpl; try done.
    intros k candidate. simpl.
    intros [[<- <-]|[Hne Hold]]%lookup_insert_Some; [|by apply Hsound].
    split; [done|]. unfold threshold_for. rewrite Hconfig. simpl.
    by eapply extractSingleFieldValue_accepts.
  - unfold processFieldWithDefaults.
    repeat case_match; simpl; try done.
    intros k candidate. simpl.
    intros [[<- <-]|[Hne Hold]]%lookup_insert_Some; [|by apply Hsound].
    split; [done|]. unfold threshold_for. rewrite Hconfig. done.
Qed.

Lemma run_candidates jiraFields : ∀ r,
  candidates_sound fieldConfigs preferences r →
  candidates_sound fieldConfigs preferences (fold_left step jiraFields r).
Proof.
  induction jiraFields as [|f fs IH]; intros r Hsound; simpl; [done|].
  apply IH. by apply processField_candidates.
Qed.

(** *** Fields that are left alone *)

Lemma processField_unprocessed r jiraField k :
  (jf_id jiraField = k → is_processed fieldConfigs jiraField = false) →
  in_no_bucket r k → in_no_bucket (step r jiraField) k.
Proof.
  intros Hfield (Ha & Hc & Hm & Hs).
  destruct (String.eqb_spec (jf_id jiraField) k) as [Heq|Hne].
  - specialize (Hfield Heq). unfold is_processed, config_of in Hfield.
    apply orb_false_elim in Hfield as [Hrequired Hconfig].
    unfold processField. rewrite Hrequired.
    destruct (List.find _ fieldConfigs); [discriminate|]. done.
  - assert (k ∉ ({[jf_id jiraField]} : gset string))
      by (apply not_elem_of_singleton; congruence).
    assert (k ∉ [jf_id jiraField])
      by (apply not_elem_of_cons; split; [congruence|apply not_elem_of_nil]).
    unfold processField, processFieldWithDefaults, in_no_bucket.
    repeat case_match; simpl; rewrite ?dom_insert_L;
      repeat split; try done;
      first [by apply not_elem_of_union | by apply not_elem_of_app].
Qed.

Lemma run_unprocessed jiraFields k : ∀ r,
  (∀ field, field ∈ jiraFields → jf_id field = k →
            is_processed fieldConfigs field = false) →
  in_no_bucket r k → in_no_bucket (fold_left step jiraFields r) k.
Proof.
  induction jiraFields as [|f fs IH]; intros r Hfields Hr; simpl; [done|].
  apply IH.
  - intros field Hin. apply Hfields. by constructor.
  - apply processField_unprocessed; [|done]. apply Hfields. constructor.
Qed.

End MoreEngineProperties.

Section MoreEngineProperties2.
Variable now : Clock.
Variable callAIProvider : Prompt → string → string → Result Js.codeUnits.
Variable JSON_parse : Js.codeUnits → option json.
Variable ToNumber : json → option Q.
Variable description : string.
Variable fieldConfigs : list FieldExtractionConfig.
Variable preferences : ExtractionPreferences.
Variables aiProvider apiKey : option string.

Local Abbreviation step :=
  (processField now callAIProvider JSON_parse ToNumber description fieldConfigs
     preferences aiProvider apiKey).

(** *** Fields configured as disabled or manual *)

Lemma processField_no_value r jiraField k config :
  config_of k fieldConfigs = Some config →
  is_manual_config config = true →
  (k ∉ dom (autoApplied r)) ∧ (k ∉ dom (requiresConfirmation r)) →
  (k ∉ dom (autoApplied (step r jiraField)))
  ∧ (k ∉ dom (requiresConfirmation (step r jiraField))).
Proof.
  intros Hconfig Hmanual [Ha Hc].
  destruct (String.eqb_spec (jf_id jiraField) k) as [<-|Hne].
  - unfold processField. fold (config_of (jf_id jiraField) fieldConfigs).
    rewrite Hconfig. unfold is_manual_config in Hmanual.
    destruct (negb (extractionEnabled config)); [done|].
    simpl in Hmanual. rewrite Hmanual. done.
  - assert (k ∉ ({[jf_id jiraField]} : gset string))
      by (apply not_elem_of_singleton; congruence).
    unfold processField, processFieldWithDefaults.
    repeat case_match; simpl; rewrite ?dom_insert_L; split; try done;
      by apply not_elem_of_union.
Qed.

Lemma run_no_value jiraFields k config : ∀ r,
  config_of k fieldConfigs = Some config →
  is_manual_config config = true →
  (k ∉ dom (autoApplied r)) ∧ (k ∉ dom (requiresConfirmation r)) →
  (k ∉ dom (autoApplied (fold_left step jiraFields r)))
  ∧ (k ∉ dom (requiresConfirmation (fold_left step jiraFields r))).
Proof.
  induction jiraFields as [|f fs IH]; intros r Hconfig Hmanual Hr; simpl;
    [done|].
  apply IH; eauto using processField_no_value.
Qed.

Lemma run_manual_config jiraFields jiraField config : ∀ r,
  jiraField ∈ jiraFields →
  config_of (jf_id jiraField) fieldConfigs = Some config →
  extractionEnabled config = true →
  is_manual_config config = true →
  jf_id jiraField ∈ manualFields (fold_left step jiraFields r).
Proof.
  induction jiraFields as [|f fs IH]; intros r Hin Hconfig Henabled Hmanual.
  - by apply elem_of_nil in Hin.
  - simpl. apply elem_of_cons in Hin as [<-|Hin]; [|eauto].
    apply run_manual_grows.
    unfold processField. fold (config_of (jf_id jiraField) fieldConfigs).
    rewrite Hconfig, Henabled. unfold is_manual_config in Hmanual.
    rewrite Henabled in Hmanual. simpl in *. rewrite Hmanual. simpl.
    apply elem_of_app. right. constructor.
Qed.

(** *** Exact counters *)

Lemma counted_more seen seen' r :
  (∀ k, k ∈ seen → k ∈ seen') → counted seen r → counted seen' r.
Proof. intros Hsub (Hexact & Ha & Hc). repeat split; auto; apply Hexact. Qed.

Lemma processField_counted seen r jiraField :
  on_defaults_path fieldConfigs jiraField = false →
  jf_id jiraField ∉ seen →
  counted seen r →
  counted (seen ++ [jf_id jiraField]) (step r jiraField).
Proof.
  intros Hpath Hnew Hcounted.
  assert (Hsub : ∀ k, k ∈ seen → k ∈ seen ++ [jf_id jiraField])
    by (intros k Hk; apply elem_of_app; by left).
  assert (Hid : jf_id jiraField ∈ seen ++ [jf_id jiraField])
    by (apply elem_of_app; right; constructor).
  destruct Hcounted as ((Hauto & Hconf & Hman & Hskip & Htotal) & Ha & Hc).
  assert (Hfresh_a : autoApplied r !! jf_id jiraField = None)
    by (apply not_elem_of_dom; intros Hin; apply Hnew; auto).
  assert (Hfresh_c : requiresConfirmation r !! jf_id jiraField = None)
    by (apply not_elem_of_dom; intros Hin; apply Hnew; auto).
  revert Hpath. unfold on_defaults_path, config_of, processField.
  unfold bucketCounts in *.
  destruct (List.find _ fieldConfigs) as [config|].
  - intros _.
    repeat case_match; unfold counted, counters_exact, bucketCounts; simpl;
      rewrite ?map_size_insert_None, ?length_app, ?dom_insert_L by done;
      simpl; repeat split; try lia; auto;
      intros k [->%elem_of_singleton|Hk]%elem_of_union; auto.
  - rewrite andb_true_r. intros ->. simpl.
    unfold counted, counters_exact, bucketCounts. repeat split; auto.
Qed.

Lemma run_counted jiraFields : ∀ seen r,
  Forall (fun field => on_defaults_path fieldConfigs field = false) jiraFields →
  NoDup (seen ++ (jf_id <$> jiraFields)) →
  counted seen r →
  counted (seen ++ (jf_id <$> jiraFields)) (fold_left step jiraFields r).
Proof.
  induction jiraFields as [|f fs IH]; intros seen r Hpath Hdup Hcounted.
  - simpl. by rewrite app_nil_r.
  - inversion Hpath as [|? ? Hf Hfs]; subst.
    rewrite fmap_cons in Hdup |- *. cbn [fold_left].
    assert (seen ++ jf_id f :: (jf_id <$> fs)
            = (seen ++ [jf_id f]) ++ (jf_id <$> fs)) as Hsplit
      by (by rewrite <- app_assoc).
    rewrite Hsplit in Hdup |- *.
    apply IH; [done|done|].
    apply processField_counted; [done| |done].
    apply NoDup_app in Hdup as [Hdup _].
    apply NoDup_app in Hdup as (_ & Hdup & _).
    intros Hin. apply (Hdup _ Hin). constructor.
Qed.

End MoreEngineProperties2.

Section MoreRunProperties.
Variable now : Clock.
Variable callAIProvider : Prompt → string → string → Result Js.codeUnits.
Variable JSON_parse : Js.codeUnits → option json.
Variable ToNumber : json → option Q.
Variable getFieldExtractionConfig :
  string → list FieldExtractionConfig * ExtractionPreferences.
Variable description : string.
Variable jiraFields : list JiraField.
Variable workItemType : string.
Variables aiProvider apiKey : option string.

Local Abbreviation run :=
  (extractFieldValuesWithConfig now callAIProvider JSON_parse ToNumber
     getFieldExtractionConfig description jiraFields workItemType aiProvider
     apiKey).
Local Abbreviation fieldConfigs := (fst (getFieldExtractionConfig workItemType)).
Local Abbreviation preferences := (snd (getFieldExtractionConfig workItemType)).

(** X9. [totalFields] is the number of fields that the run has processed:
    those that are required or have a configuration. The other fields are
    not counted. *)
Theorem run_total_fields :
  totalFields (extractionSummary run)
  = length (List.filter (is_processed fieldConfigs) jiraFields).
Proof. rewrite run_unfold, run_total. reflexivity. Qed.

(** X10. The skipped fields of a run are the fields whose configuration
    disables extraction, in the order of the fields, and [skippedCount] is
    their number. *)
Theorem run_skipped_fields :
  skippedFields run
  = jf_id <$> List.filter (is_disabled fieldConfigs) jiraFields
  ∧ skippedCount (extractionSummary run) = length (skippedFields run).
Proof.
  rewrite run_unfold.
  destruct (run_skipped now callAIProvider JSON_parse ToNumber description
              fieldConfigs preferences aiProvider apiKey jiraFields
              emptyResult) as [-> ->].
  simpl. split; [done|]. by rewrite length_fmap.
Qed.

(** X11. A field whose configuration has a mode other than ['auto-apply']
    is never in the auto-applied bucket. *)
Theorem other_mode_never_auto_applied fieldId config :
  config_of fieldId fieldConfigs = Some config →
  extractionMode config ≠ "auto-apply" →
  fieldId ∉ dom (autoApplied run).
Proof.
  intros Hconfig Hmode. rewrite run_unfold.
  eapply run_other_mode; eauto.
  simpl. rewrite dom_empty_L. apply not_elem_of_empty.
Qed.

(** X12. Every candidate of the confirmation bucket is filed under the id
    it bears, and its confidence is at least the threshold of its field:
    the one of the configuration of the field, or the global one when the
    field has none. *)
Theorem confirmation_candidates_sound :
  candidates_sound fieldConfigs preferences run.
Proof.
  rewrite run_unfold. apply run_candidates.
  intros k candidate. simpl. by rewrite lookup_empty.
Qed.

(** X13. A field of the run whose configuration is enabled, with the
    method ['manual'] or the mode ['manual-only'], is in the manual bucket,
    and in neither the auto-applied nor the confirmation bucket. *)
Theorem manual_config_goes_manual jiraField config :
  jiraField ∈ jiraFields →
  config_of (jf_id jiraField) fieldConfigs = Some config →
  extractionEnabled config = true →
  is_manual_config config = true →
  jf_id jiraField ∈ manualFields run
  ∧ (jf_id jiraField ∉ dom (autoApplied run))
  ∧ (jf_id jiraField ∉ dom (requiresConfirmation run)).
Proof.
  intros Hin Hconfig Henabled Hmanual. rewrite run_unfold. split.
  - eapply run_manual_config; eauto.
  - eapply run_no_value; eauto.
    simpl. rewrite !dom_empty_L. split; apply not_elem_of_empty.
Qed.

(** X14. A field that is neither required nor configured is left alone:
    its id is in none of the four buckets, unless another field of the run
    bears the same id. *)
Theorem unprocessed_in_no_bucket k :
  (∀ field, field ∈ jiraFields → jf_id field = k →
            is_processed fieldConfigs field = false) →
  in_no_bucket run k.
Proof.
  intros Hfields. rewrite run_unfold. apply run_unprocessed; [done|].
  unfold in_no_bucket. simpl. rewrite !dom_empty_L.
  repeat split; first [apply not_elem_of_empty | apply not_elem_of_nil].
Qed.

(** X15. When no field of the run goes through the defaults path and the
    ids of the fields are distinct, the summary counts the buckets: each
    counter is the size of its bucket, and [totalFields] is the sum of the
    four counters. *)
Theorem configured_run_counters_exact :
  Forall (fun field => on_defaults_path fieldConfigs field = false) jiraFields →
  NoDup (jf_id <$> jiraFields) →
  counters_exact run.
Proof.
  intros Hpath Hids. rewrite run_unfold.
  apply (run_counted now callAIProvider JSON_parse ToNumber description
           fieldConfigs preferences aiProvider apiKey jiraFields [] emptyResult
           Hpath Hids).
  unfold counted, counters_exact, bucketCounts. simpl.
  rewrite !dom_empty_L, !map_size_empty.
  repeat split; try done; intros k Hk; by apply not_elem_of_empty in Hk.
Qed.

End MoreRunProperties.

Lemma other_mode_never_auto_applied_witness :
  "priority"
  ∉ dom (autoApplied
           (runWithoutAi
              (sampleConfig
                 [config_for "priority" "pattern" "always-confirm" 0.5%Q] false)
              "low priority" [priorityField; summaryField])).
Proof.
  apply (other_mode_never_auto_applied november2026 noProvider noJson noNumber
           (sampleConfig
              [config_for "priority" "pattern" "always-confirm" 0.5%Q] false)
           "low priority" [priorityField; summaryField] "story" None None
           "priority" (config_for "priority" "pattern" "always-confirm" 0.5%Q)).
  - reflexivity.
  - discriminate.
Defined.

Lemma manual_config_goes_manual_witness :
  let r := runWithoutAi
             (sampleConfig
                [config_for "priority" "manual" "auto-apply" 0.5%Q] false)
             "low priority" [priorityField; summaryField] in
  "priority" ∈ manualFields r
  ∧ ("priority" ∉ dom (autoApplied r))
  ∧ ("priority" ∉ dom (requiresConfirmation r)).
Proof.
  apply (manual_config_goes_manual november2026 noProvider noJson noNumber
           (sampleConfig
              [config_for "priority" "manual" "auto-apply" 0.5%Q] false)
           "low priority" [priorityField; summaryField] "story" None None
           priorityField (config_for "priority" "manual" "auto-apply" 0.5%Q));
    try reflexivity.
  constructor.
Defined.

Lemma unprocessed_in_no_bucket_witness :
  in_no_bucket
    (runWithoutAi (sampleConfig [] false) "low priority"
       [priorityField; summaryField])
    "priority".
Proof.
  apply (unprocessed_in_no_bucket november2026 noProvider noJson noNumber
           (sampleConfig [] false) "low priority"
           [priorityField; summaryField] "story" None None "priority").
  intros field Hin Hid.
  apply elem_of_cons in Hin as [->|Hin]; [reflexivity|].
  apply elem_of_cons in Hin as [->|Hin]; [discriminate Hid|].
  by apply elem_of_nil in Hin.
Defined.

Lemma configured_run_counters_exact_witness :
  counters_exact
    (runWithoutAi (sampleConfig (priorityConfigs 0.5%Q) false)
       "low priority for PROJ-123" [priorityField; epicLinkField]).
Proof.
  apply (configured_run_counters_exact november2026 noProvider noJson noNumber
           (sampleConfig (priorityConfigs 0.5%Q) false)).
  - repeat constructor.
  - repeat constructor; vm_compute; intros H;
      repeat (apply elem_of_cons in H as [H|H]; [discriminate|]);
      by apply elem_of_nil in H.
Defined.

(** ** The suggestions *)

Lemma insert_by_score_elem x sorted p :
  p ∈ insert_by_score x sorted ↔ p = x ∨ p ∈ sorted.
Proof.
  induction sorted as [|y sorted IH]; simpl.
  - rewrite elem_of_cons. done.
  - destruct (snd y <=? snd x)%nat.
    + rewrite elem_of_cons. done.
    + rewrite !elem_of_cons, IH. tauto.
Qed.

Lemma insert_by_score_sorted x sorted :
  StronglySorted by_score sorted →
  StronglySorted by_score (insert_by_score x sorted).
Proof.
  induction 1 as [|y sorted Hsorted IH Hy]; simpl.
  - repeat constructor.
  - destruct (snd y <=? snd x)%nat eqn:Hle.
    + apply Nat.leb_le in Hle. constructor; [by constructor|].
      constructor; [done|].
      eapply Forall_impl; [exact Hy|]. unfold by_score. intros; lia.
    + apply Nat.leb_gt in Hle. constructor; [done|].
      apply Forall_forall. intros p [->|Hp]%insert_by_score_elem.
      * unfold by_score. lia.
      * by eapply Forall_forall in Hy.
Qed.

Lemma sort_by_score_elem l p : p ∈ sort_by_score l ↔ p ∈ l.
Proof.
  induction l as [|x l IH]; simpl; [done|].
  rewrite insert_by_score_elem, elem_of_cons, IH. done.
Qed.

Lemma sort_by_score_sorted l : StronglySorted by_score (sort_by_score l).
Proof.
  induction l as [|x l IH]; simpl; [constructor|].
  by apply insert_by_score_sorted.
Qed.

Lemma StronglySorted_take {A} (R : A → A → Prop) (l : list A) : ∀ n,
  StronglySorted R l → StronglySorted R (take n l).
Proof.
  induction l as [|x l IH]; intros [|n] Hl; simpl; try constructor.
  - apply IH. by inversion Hl.
  - inversion Hl as [|? ? _ Hx]; subst.
    apply Forall_forall. intros y Hy.
    eapply Forall_forall in Hx; [exact Hx|].
    eapply elem_of_sublist; [exact Hy|apply sublist_take].
Qed.

Lemma elem_of_filter_bool {A} (f : A → bool) (l : list A) (x : A) :
  x ∈ List.filter f l ↔ x ∈ l ∧ f x = true.
Proof. rewrite !list_elem_of_In. apply filter_In. Qed.

(** X16. [generateSuggestions] returns five values at most, each of them
    one of the allowed values of the field with a score above zero, the
    scores going down along the list. *)
Theorem suggestions_ranked (field : JiraField) (description : string) :
  let score := suggestion_score field (Js.toLowerCase description) in
  (length (generateSuggestions field description) ≤ 5)%nat
  ∧ (∀ value, value ∈ generateSuggestions field description →
       (0 < score value)%nat
       ∧ ∃ allowedValues, jf_allowedValues field = Some allowedValues
                          ∧ value ∈ allowedValues)
  ∧ StronglySorted ge (score <$> generateSuggestions field description).
Proof.
  cbv zeta. unfold generateSuggestions.
  destruct (jf_allowedValues field) as [allowedValues|]; cycle 1.
  { simpl. split; [lia|]. split; [|constructor].
    intros value Hvalue. by apply elem_of_nil in Hvalue. }
  cbv zeta.
  set (score := suggestion_score field (Js.toLowerCase description)).
  set (scored := List.filter (fun s => (0 <? snd s)%nat)
                   ((fun allowedValue => (allowedValue, score allowedValue))
                      <$> allowedValues)).
  set (ranked := take 5 (sort_by_score scored)).
  assert (Hscored : ∀ p, p ∈ ranked →
            snd p = score (fst p) ∧ (0 < snd p)%nat ∧ fst p ∈ allowedValues).
  { intros p Hp.
    eapply elem_of_sublist in Hp; [|apply sublist_take].
    apply sort_by_score_elem, elem_of_filter_bool in Hp as [Hp Hpos].
    apply list_elem_of_fmap in Hp as (v & -> & Hv). simpl.
    apply Nat.ltb_lt in Hpos. done. }
  assert (Hsorted : StronglySorted by_score ranked)
    by apply StronglySorted_take, sort_by_score_sorted.
  assert (Hlength : (length ranked ≤ 5)%nat)
    by (unfold ranked; rewrite length_take; lia).
  clearbody ranked. clear scored.
  split; [|split].
  - by rewrite length_fmap.
  - intros value (p & -> & Hp)%list_elem_of_fmap.
    destruct (Hscored p Hp) as (<- & Hpos & Hin). split; [done|].
    by exists allowedValues.
  - clear Hlength. induction ranked as [|p l IH]; simpl; [constructor|].
    inversion Hsorted as [|? ? Hl Hp]; subst. constructor.
    + apply IH; [|done]. intros q Hq. apply Hscored. by constructor.
    + apply Forall_forall.
      intros n (v & -> & (q & -> & Hq)%list_elem_of_fmap)%list_elem_of_fmap.
      eapply Forall_forall in Hp; [|exact Hq]. unfold by_score in Hp.
      destruct (Hscored p) as (<- & _); [constructor|].
      destruct (Hscored q) as (<- & _); [by constructor|].
      unfold ge. lia.
Qed.

(** ** The earlier entry point *)

Section LegacyProperties.
Variable now : Clock.
Variable callAIProvider : Prompt → string → string → Result Js.codeUnits.
Variable JSON_parse : Js.codeUnits → option json.
Variable ToNumber : json → option Q.

Lemma filter_no_entry (jiraFields : list JiraField) :
  List.filter (fun field => negb (has_entry [] (jf_id field))) jiraFields
  = jiraFields.
Proof.
  assert (Hall : ∀ (keep : JiraField → bool) (l : list JiraField),
            (∀ field, keep field = true) → List.filter keep l = l).
  { intros keep l Hkeep. induction l as [|f fs IH]; [done|].
    cbn [List.filter]. by rewrite Hkeep, IH. }
  by apply Hall.
Qed.

(** X17. In [extractFieldValues], a failure of [extractWithAI] (a failed
    request, an empty response) is swallowed: the result is the one of the
    patterns over all the fields, with the required fields that the
    patterns left without an entry as missing fields. *)
Theorem legacy_ai_failure_falls_back description jiraFields aiProvider apiKey
    error patternExtracted :
  extractWithAI callAIProvider JSON_parse ToNumber description jiraFields
    (default EmptyString aiProvider) (default EmptyString apiKey)
  = Throw error →
  extractWithPatterns now description jiraFields = Ok patternExtracted →
  extractFieldValues now callAIProvider JSON_parse ToNumber description
    jiraFields aiProvider apiKey
  = Ok {| extractedFields := patternExtracted;
          missingFields :=
            jf_id <$> List.filter
                        (fun field => jf_required field
                                      && negb (has_entry patternExtracted
                                                 (jf_id field)))
                        jiraFields;
          suggestions := collectSuggestions description jiraFields |}.
Proof.
  intros Hai Hpatterns. unfold extractFieldValues. rewrite Hai.
  assert ((if Js.truthy_opt aiProvider && Js.truthy_opt apiKey
           then @nil ExtractedFieldValue else []) = []) as ->
    by (by destruct (_ && _)).
  rewrite filter_no_entry, Hpatterns. reflexivity.
Qed.

(** X18. In [extractFieldValues], when no field goes to the roadmap
    branch, the entries are those of the AI followed by those of the
    patterns, and the patterns give an entry only for a field of the call
    that the AI gave none for; a required field has an entry or is reported
    missing, and no missing field has an entry. *)
Theorem legacy_entries description jiraFields aiProvider apiKey result :
  Forall (fun field => is_roadmap_field field = false) jiraFields →
  extractFieldValues now callAIProvider JSON_parse ToNumber description
    jiraFields aiProvider apiKey = Ok result →
  legacy_sound jiraFields result.
Proof.
  intros Hfields. unfold legacy_sound, extractFieldValues.
  set (aiExtracted :=
         if Js.truthy_opt aiProvider && Js.truthy_opt apiKey
         then match extractWithAI callAIProvider JSON_parse ToNumber
                      description jiraFields (default EmptyString aiProvider)
                      (default EmptyString apiKey) with
              | Ok aiExtracted => aiExtracted
              | Throw _ => []
              end
         else []).
  assert (Hai : Forall ai_made aiExtracted).
  { unfold aiExtracted. destruct (_ && _); [|constructor].
    destruct (extractWithAI _ _ _ _ _ _ _) eqn:Hcall; [|constructor].
    by eapply extractWithAI_made. }
  set (remainingFields :=
         List.filter (fun field => negb (has_entry aiExtracted (jf_id field)))
           jiraFields).
  destruct (extractWithPatterns now description remainingFields)
    as [patternExtracted|?] eqn:Hpatterns; [|discriminate].
  simpl. intros [= <-]. simpl. split; [|split].
  - exists aiExtracted, patternExtracted. repeat split; try done.
    + eapply extractWithPatterns_from_made; [|exact Hpatterns]. constructor.
    + assert (Hremaining :
                Forall (fun field => is_roadmap_field field = false)
                  remainingFields).
      { apply Forall_forall. intros field [Hin _]%elem_of_filter_bool.
        by eapply Forall_forall in Hfields. }
      pose proof (extractWithPatterns_ids _ _ _ _ Hremaining Hpatterns) as Hsub.
      assert (efv_fieldId e ∈ jf_id <$> remainingFields) as Hid.
      { eapply elem_of_sublist; [|exact Hsub].
        apply list_elem_of_fmap. by exists e. }
      apply list_elem_of_fmap in Hid as (field & -> & Hfield).
      apply elem_of_filter_bool in Hfield as [_ Hfield].
      by apply negb_true_iff.
    + assert (Hremaining :
                Forall (fun field => is_roadmap_field field = false)
                  remainingFields).
      { apply Forall_forall. intros field [Hin _]%elem_of_filter_bool.
        by eapply Forall_forall in Hfields. }
      pose proof (extractWithPatterns_ids _ _ _ _ Hremaining Hpatterns) as Hsub.
      assert (efv_fieldId e ∈ jf_id <$> remainingFields) as Hid.
      { eapply elem_of_sublist; [|exact Hsub].
        apply list_elem_of_fmap. by exists e. }
      apply list_elem_of_fmap in Hid as (field & -> & Hfield).
      apply elem_of_filter_bool in Hfield as [Hfield _].
      apply list_elem_of_fmap. by exists field.
  - intros field Hin Hrequired.
    destruct (has_entry (aiExtracted ++ patternExtracted) (jf_id field))
      eqn:Hentry; [by left|].
    right. apply list_elem_of_fmap. exists field. split; [done|].
    apply elem_of_filter_bool. split; [done|]. by rewrite Hrequired, Hentry.
  - intros id (field & -> & Hfield)%list_elem_of_fmap.
    apply elem_of_filter_bool in Hfield as [_ Hfield].
    apply andb_prop in Hfield as [_ Hfield]. by apply negb_true_iff.
Qed.

End LegacyProperties.

Lemma legacy_ai_failure_falls_back_witness :
  extractFieldValues november2026 failingProvider noJson noNumber
    "low priority, about 8 story points" [priorityField; storyPointsField]
    (Some "devs-ai") (Some "key")
  = Ok {| extractedFields :=
            [pattern_entry "priority" (VStr "Low") 0.8%Q;
             pattern_entry "customfield_10000" (VNum 8) 0.9%Q];
          missingFields :=
            jf_id <$> List.filter
                        (fun field =>
                           jf_required field
                           && negb (has_entry
                                      [pattern_entry "priority" (VStr "Low")
                                         0.8%Q;
                                       pattern_entry "customfield_10000"
                                         (VNum 8) 0.9%Q]
                                      (jf_id field)))
                        [priorityField; storyPointsField];
          suggestions :=
            collectSuggestions "low priority, about 8 story points"
              [priorityField; storyPointsField] |}.
Proof.
  apply (legacy_ai_failure_falls_back november2026 failingProvider noJson
           noNumber "low priority, about 8 story points"
           [priorityField; storyPointsField] (Some "devs-ai") (Some "key")
           "DevS.ai API error: Unauthorized");
    reflexivity.
Defined.

Lemma legacy_entries_witness :
  ∃ result,
    extractFieldValues november2026 answeringProvider twoExtractions noNumber
      "it matters, about 8 story points" [priorityField; storyPointsField]
      (Some "devs-ai") (Some "key")
    = Ok result
    ∧ extractedFields result
      = [ {| efv_fieldId := "priority"; efv_value := VJson (JStr "High");
             efv_confidence := 0.9%Q; efv_extractionMethod := ByAi |};
          pattern_entry "customfield_10000" (VNum 8) 0.9%Q ]
    ∧ legacy_sound [priorityField; storyPointsField] result.
Proof.
  eexists. split; [vm_compute; reflexivity|]. split; [reflexivity|].
  eapply (legacy_entries november2026 answeringProvider twoExtractions noNumber
            "it matters, about 8 story points"
            [priorityField; storyPointsField] (Some "devs-ai") (Some "key")).
  - repeat constructor.
  - vm_compute. reflexivity.
Defined.

(** ** The fields inferred from an error response *)

Section MoreInferenceProperties.
Import JiraFieldService.
Variable now : Clock.

Lemma discovered_is_like fieldId fieldName text :
  fieldName = fieldId
  ∨ (∃ nameMatch, match_name text = Some nameMatch
                  ∧ fieldName = default EmptyString (Regex.group 1 nameMatch))
  ∨ (match_name text = None ∧ formatFieldName fieldId = Some fieldName) →
  discovered_like now (discovered now fieldId fieldName text).
Proof.
  intros Hname. split; [done|]. split; [done|]. split; [done|].
  by exists text.
Qed.

Lemma addMatch_like text fields m :
  Forall (discovered_like now) fields →
  Forall (discovered_like now) (addMatch now text fields m).
Proof.
  intros Hfields. unfold addMatch. destruct (_ && _); [|done].
  apply Forall_app. split; [done|].
  constructor; [|constructor]. apply discovered_is_like. by left.
Qed.

Lemma no_field_with_id (fields : list JiraField) (fieldId : string) :
  existsb (fun f => String.eqb (jf_id f) fieldId) fields = false →
  fieldId ∉ jf_id <$> fields.
Proof.
  intros Hnone (f & -> & Hf)%list_elem_of_fmap.
  assert (existsb (fun g => String.eqb (jf_id g) (jf_id f)) fields = true)
    as Hsome; [|congruence].
  apply existsb_exists. exists f. split; [by apply list_elem_of_In|].
  apply String.eqb_refl.
Qed.

Lemma addMatch_distinct text fields m :
  NoDup (jf_id <$> fields) → NoDup (jf_id <$> addMatch now text fields m).
Proof.
  intros Hfields. unfold addMatch.
  destruct (Js.truthy_str _ && negb (existsb _ fields)) eqn:Htest; [|done].
  apply andb_prop in Htest as [_ Hnew]. apply negb_true_iff in Hnew.
  rewrite fmap_app. apply NoDup_app. repeat split; [done| |].
  - intros id Hid ->%list_elem_of_singleton.
    by apply no_field_with_id in Hnew.
  - apply NoDup_singleton.
Qed.

(** What [scanText] and the loop over [errorMessages] keep. *)
Lemma scanText_keeps (P : list JiraField → Prop) text :
  (∀ fields m, P fields → P (addMatch now text fields m)) →
  ∀ fields, P fields → P (scanText now text fields).
Proof.
  intros Hadd. unfold scanText. generalize requiredPatterns.
  induction l as [|pattern patterns IH]; intros fields Hfields; simpl; [done|].
  apply IH. generalize (Regex.search_all pattern text). revert fields Hfields.
  intros fields Hfields matches. revert fields Hfields.
  induction matches as [|m matches IHm]; intros fields Hfields; simpl; auto.
Qed.

Lemma scanMessages_keeps (P : list JiraField → Prop) errorMessages :
  (∀ text fields m, P fields → P (addMatch now text fields m)) →
  ∀ fields, P fields → P (fold_left (scanMessage now) errorMessages fields).
Proof.
  intros Hadd.
  induction errorMessages as [|message messages IH]; intros fields Hfields;
    simpl; [done|].
  apply IH. destruct message; simpl; try done.
  apply scanText_keeps; auto.
Qed.

Lemma fromErrorEntries_like entries : ∀ fields result,
  Forall (discovered_like now) fields →
  fromErrorEntries now entries fields = Ok result →
  Forall (discovered_like now) result.
Proof.
  induction entries as [|[fieldId errorMessage] entries IH];
    intros fields result Hfields; simpl.
  - by intros [= <-].
  - destruct errorMessage as [| | |errorMessage| |]; simpl; try (by apply IH).
    destruct (Js.includes _ _); simpl; [|by apply IH].
    destruct (match_name errorMessage) as [nameMatch|] eqn:Hmatch.
    + simpl. apply IH. apply Forall_app. split; [done|].
      constructor; [|constructor]. apply discovered_is_like.
      right. left. by exists nameMatch.
    + destruct (formatFieldName fieldId) as [fieldName|] eqn:Hformat; simpl;
        [|discriminate].
      apply IH. apply Forall_app. split; [done|].
      constructor; [|constructor]. apply discovered_is_like.
      right. by right.
Qed.

Lemma fromErrorEntries_ids entries : ∀ fields result,
  fromErrorEntries now entries fields = Ok result →
  ∃ ids, jf_id <$> result = (jf_id <$> fields) ++ ids
         ∧ sublist ids (fst <$> entries).
Proof.
  induction entries as [|[fieldId errorMessage] entries IH];
    intros fields result; simpl.
  - intros [= <-]. exists []. rewrite app_nil_r. split; [done|constructor].
  - assert (Hskip : fromErrorEntries now entries fields = Ok result →
              ∃ ids, jf_id <$> result = (jf_id <$> fields) ++ ids
                     ∧ sublist ids (fieldId :: (fst <$> entries))).
    { intros (ids & Hids & Hsub)%IH. exists ids. split; [done|].
      by constructor. }
    destruct errorMessage; simpl; try done.
    destruct (Js.includes _ _); simpl; [|done].
    destruct (match match_name s with
              | Some nameMatch => _
              | None => _
              end) as [fieldName|]; simpl; [|discriminate].
    intros (ids & Hids & Hsub)%IH. exists (fieldId :: ids).
    rewrite Hids, fmap_app, <- app_assoc. split; [done|]. by constructor.
Qed.

Lemma parsedFields_like errorData fields :
  parsedFields now errorData = Ok fields → Forall (discovered_like now) fields.
Proof.
  assert (Hscan : ∀ text fields m,
            Forall (discovered_like now) fields →
            Forall (discovered_like now) (addMatch now text fields m))
    by (intros; by apply addMatch_like).
  assert (Hobj : ∀ e,
            (fields0 ←!
               match get "errors" e with
               | Some errors =>
                   match entries_of errors with
                   | Some entries => fromErrorEntries now entries []
                   | None => Ok []
                   end
               | None => Ok []
               end;
             match get "errorMessages" e with
             | Some (JArr errorMessages) =>
                 Ok (fold_left (scanMessage now) errorMessages fields0)
             | _ => Ok fields0
             end) = Ok fields →
            Forall (discovered_like now) fields).
  { intros e.
    destruct (match get "errors" e with
              | Some errors => _
              | None => _
              end) as [fields0|?] eqn:Herrors; simpl; [|discriminate].
    assert (Forall (discovered_like now) fields0) as Hfields0.
    { destruct (get "errors" e) as [errors|]; [|by simplify_eq].
      destruct (entries_of errors); [|by simplify_eq].
      eapply fromErrorEntries_like; [|exact Herrors]. constructor. }
    destruct (get "errorMessages" e) as [[| | | |errorMessages|]|];
      intros [= <-]; try done.
    by apply scanMessages_keeps. }
  destruct errorData as [| | |text|items|entries]; simpl.
  - by intros [= <-].
  - by intros [= <-].
  - by intros [= <-].
  - intros [= <-]. apply scanText_keeps; [by apply Hscan|constructor].
  - apply (Hobj (JArr items)).
  - apply (Hobj (JObj entries)).
Qed.

Lemma parsedFields_distinct errorData fields :
  distinct_error_keys errorData →
  parsedFields now errorData = Ok fields → NoDup (jf_id <$> fields).
Proof.
  intros Hkeys.
  assert (Hscan : ∀ text fields m,
            NoDup (jf_id <$> fields) →
            NoDup (jf_id <$> addMatch now text fields m))
    by (intros; by apply addMatch_distinct).
  assert (Hobj : ∀ e,
            distinct_error_keys e →
            (fields0 ←!
               match get "errors" e with
               | Some errors =>
                   match entries_of errors with
                   | Some entries => fromErrorEntries now entries []
                   | None => Ok []
                   end
               | None => Ok []
               end;
             match get "errorMessages" e with
             | Some (JArr errorMessages) =>
                 Ok (fold_left (scanMessage now) errorMessages fields0)
             | _ => Ok fields0
             end) = Ok fields →
            NoDup (jf_id <$> fields)).
  { intros e He.
    destruct (match get "errors" e with
              | Some errors => _
              | None => _
              end) as [fields0|?] eqn:Herrors; simpl; [|discriminate].
    assert (NoDup (jf_id <$> fields0)) as Hfields0.
    { unfold distinct_error_keys in He.
      destruct (get "errors" e) as [errors|]; [|simplify_eq; constructor].
      destruct (entries_of errors) as [entries|] eqn:Hentries;
        [|simplify_eq; constructor].
      apply fromErrorEntries_ids in Herrors as (ids & -> & Hsub).
      simpl. eapply sublist_NoDup; [|exact Hsub]. eauto. }
    destruct (get "errorMessages" e) as [[| | | |errorMessages|]|];
      intros [= <-]; try done.
    by apply (scanMessages_keeps (fun fields => NoDup (jf_id <$> fields))). }
  destruct errorData as [| | |text|items|entries]; simpl.
  - intros [= <-]. constructor.
  - intros [= <-]. constructor.
  - intros [= <-]. constructor.
  - intros [= <-].
    apply (scanText_keeps (fun fields => NoDup (jf_id <$> fields)));
      [by apply Hscan|constructor].
  - by apply (Hobj (JArr items)).
  - by apply (Hobj (JObj entries)).
Qed.

Lemma minimalFields_distinct : NoDup (jf_id <$> minimalFields).
Proof.
  repeat constructor; vm_compute; intros H;
    repeat (apply elem_of_cons in H as [H|H]; [discriminate|]);
    by apply elem_of_nil in H.
Qed.

(** X19. What [parseErrorForRequiredFields] returns is never empty: it is
    the list of the four minimal fields, or a list of fields read from the
    payload, each of them required, of the type guessed from its id, with
    the allowed values synthesized for its id and its name, and described
    by the error text it comes from; the name of such a field is its id,
    or the name that the error text starts with, or else the display name
    of its id. *)
Theorem inferred_fields_shape errorData fields :
  parseErrorForRequiredFields now errorData = Ok fields →
  fields ≠ []
  ∧ (fields = minimalFields ∨ Forall (discovered_like now) fields).
Proof.
  unfold parseErrorForRequiredFields.
  destruct (parsedFields now errorData) as [parsed|?] eqn:Hparsed;
    [|discriminate].
  apply parsedFields_like in Hparsed.
  destruct parsed as [|f parsed]; simpl; intros [= <-].
  - split; [discriminate|by left].
  - split; [discriminate|by right].
Qed.

(** X20. The fields that [parseErrorForRequiredFields] returns have
    distinct ids, the keys of [errors] being distinct: a field named under
    [errors] and again in [errorMessages] is returned once. *)
Theorem inferred_fields_distinct errorData fields :
  distinct_error_keys errorData →
  parseErrorForRequiredFields now errorData = Ok fields →
  NoDup (jf_id <$> fields).
Proof.
  intros Hkeys. unfold parseErrorForRequiredFields.
  destruct (parsedFields now errorData) as [parsed|?] eqn:Hparsed;
    [|discriminate].
  apply parsedFields_distinct in Hparsed; [|done].
  destruct parsed as [|f parsed]; simpl; intros [= <-]; [|done].
  apply minimalFields_distinct.
Qed.

(** X21. [parseErrorForRequiredFields] throws on a payload whose [errors]
    start with a key that is a property inherited by every object, such as
    "constructor", under a message with the word "required" that does not
    read "... is required": the name looked up for the key is not a
    string. *)
Theorem inherited_key_throws fieldId errorMessage entries others :
  fieldId ∈ inheritedProperties →
  Js.includes (Js.toLowerCase errorMessage) "required" = true →
  match_name errorMessage = None →
  parseErrorForRequiredFields now
    (JObj (("errors", JObj ((fieldId, JStr errorMessage) :: entries))
             :: others))
  = Throw "fieldName.toLowerCase is not a function".
Proof.
  intros Hkey Hrequired Hname.
  unfold parseErrorForRequiredFields, parsedFields. simpl.
  rewrite Hrequired, Hname.
  assert (formatFieldName fieldId = None) as ->; [|done].
  unfold formatFieldName, inheritedProperties in *.
  repeat (apply elem_of_cons in Hkey as [->|Hkey]; [reflexivity|]).
  by apply elem_of_nil in Hkey.
Qed.

End MoreInferenceProperties.

Lemma inferred_fields_shape_witness :
  let fields :=
    [ JiraFieldService.discovered november2026 "summary" "Summary"
        "Summary is required.";
      JiraFieldService.discovered november2026 "customfield_26362"
        "Delivery Quarter" "Delivery Quarter is required." ] in
  fields ≠ []
  ∧ (fields = JiraFieldService.minimalFields
     ∨ Forall (discovered_like november2026) fields).
Proof.
  apply (inferred_fields_shape november2026 sampleErrorPayload).
  vm_compute. reflexivity.
Defined.

Lemma inferred_fields_distinct_witness :
  NoDup (jf_id <$>
           [ JiraFieldService.discovered november2026 "summary" "Summary"
               "Summary is required.";
             JiraFieldService.discovered november2026 "customfield_26362"
               "Delivery Quarter" "Delivery Quarter is required." ]).
Proof.
  apply (inferred_fields_distinct november2026 sampleErrorPayload).
  - intros errors entries [= <-] [= <-].
    repeat constructor; vm_compute; intros H;
      repeat (apply elem_of_cons in H as [H|H]; [discriminate|]);
      by apply elem_of_nil in H.
  - vm_compute. reflexivity.
Defined.

Lemma inherited_key_throws_witness :
  JiraFieldService.parseErrorForRequiredFields november2026
    (JObj [("errors", JObj [("constructor", JStr "Required!")])])
  = Throw "fieldName.toLowerCase is not a function".
Proof.
  apply (inherited_key_throws november2026 "constructor" "Required!" [] []).
  - constructor.
  - reflexivity.
  - reflexivity.
Defined.

(** ** A quarter field inferred from an error, given to the patterns *)

Section QuarterComposition.
Import JiraFieldService.
(** The clock when the field is inferred, and the clock when it is given to
    the patterns: the field is kept in between. *)
Variable built now : Clock.

Lemma quarter_loop_allowed description allowedValues : ∀ patterns quarterValue,
  quarter_loop now patterns description allowedValues = Some quarterValue →
  allowed_includes allowedValues quarterValue = true.
Proof.
  induction patterns as [|pattern patterns IH]; intros quarterValue; simpl;
    [discriminate|].
  destruct (Regex.search pattern description) as [m|]; [|apply IH].
  destruct (allowed_includes allowedValues (quarterValueOf now m)) eqn:Hin;
    [|apply IH].
  by intros [= <-].
Qed.

Lemma quarter_from_year_allowed description allowedValues quarterValue :
  quarter_from_year now description allowedValues = Some quarterValue →
  allowed_includes allowedValues quarterValue = true.
Proof.
  unfold quarter_from_year.
  destruct (Regex.search yearRe description); [|discriminate].
  destruct (allowed_includes _ _) eqn:Hin; [|discriminate].
  by intros [= <-].
Qed.

Lemma currentQuarter_range :
  (getMonth now < 12)%N →
  currentQuarter now = 1%N ∨ currentQuarter now = 2%N
  ∨ currentQuarter now = 3%N ∨ currentQuarter now = 4%N.
Proof.
  intros Hmonth. unfold currentQuarter.
  assert (getMonth now = 0 ∨ getMonth now = 1 ∨ getMonth now = 2
          ∨ getMonth now = 3 ∨ getMonth now = 4 ∨ getMonth now = 5
          ∨ getMonth now = 6 ∨ getMonth now = 7 ∨ getMonth now = 8
          ∨ getMonth now = 9 ∨ getMonth now = 10 ∨ getMonth now = 11)%N
    as Hcases by lia.
  repeat destruct Hcases as [->|Hcases]; try rewrite Hcases; vm_compute; tauto.
Qed.

(** The quarters synthesized for the field [customfield_26362] at the time
    [built] hold the current quarter of the current year, when that year is
    the year of [built] or the next. *)
Lemma quarter_from_clock_found fieldName :
  (getMonth now < 12)%N →
  getFullYear now = getFullYear built
  ∨ getFullYear now = (getFullYear built + 1)%N →
  is_Some (quarter_from_clock now
             (List.map AVStr
                <$> getCommonAllowedValues built "customfield_26362"
                      fieldName)).
Proof.
  intros Hmonth Hyear. unfold quarter_from_clock, getCommonAllowedValues.
  cbn [String.eqb Ascii.eqb Bool.eqb orb fmap option_fmap option_map List.map
         allowed_includes existsb quarter_of].
  simpl String.eqb at 1. cbv iota.
  destruct Hyear as [-> | ->];
    destruct (currentQuarter_range Hmonth) as [->|[->|[->| ->]]];
    unfold quarter_of; simpl;
    rewrite ?String.eqb_refl, ?orb_true_r; simpl; eauto.
Qed.

(** X22. A Delivery Quarter field inferred from an error response
    ([customfield_26362], with the quarters that [getCommonAllowedValues]
    synthesizes for it at the time [built] of the inference), when it is
    given to the patterns in the year of the inference or in the next one,
    gets a value whatever the text: one of its allowed values, with
    confidence 0.8, 0.6 or 0.4. *)
Theorem inferred_quarter_field_gets_value description fieldName text :
  (getMonth now < 12)%N →
  getFullYear now = getFullYear built
  ∨ getFullYear now = (getFullYear built + 1)%N →
  is_priority_field (discovered built "customfield_26362" fieldName text)
  = false →
  ∃ value confidence,
    extractWithPatterns now description
      [discovered built "customfield_26362" fieldName text]
    = Ok [pattern_entry "customfield_26362" (VStr value) confidence]
    ∧ allowed_includes
        (jf_allowedValues
           (discovered built "customfield_26362" fieldName text))
        value = true
    ∧ confidence ∈ [0.8%Q; 0.6%Q; 0.4%Q].
Proof.
  intros Hmonth Hyears Hpriority.
  set (field := discovered built "customfield_26362" fieldName text) in *.
  assert (is_quarter_field field = true) as Hquarter.
  { unfold is_quarter_field. rewrite Hpriority. simpl. apply orb_true_r. }
  rewrite extractWithPatterns_single, extractField_quarter by done.
  unfold extractQuarter.
  destruct (quarter_loop now quarterPatterns description
              (jf_allowedValues field)) as [value|] eqn:Hloop.
  { exists value, 0.8%Q. split; [done|]. split.
    - by eapply quarter_loop_allowed.
    - repeat constructor. }
  destruct (quarter_from_year now description (jf_allowedValues field))
    as [value|] eqn:Hyear.
  { exists value, 0.6%Q. split; [done|]. split.
    - by eapply quarter_from_year_allowed.
    - repeat constructor. }
  destruct (quarter_from_clock_found fieldName Hmonth Hyears)
    as [value Hclock].
  change (jf_allowedValues field)
    with (List.map AVStr
            <$> getCommonAllowedValues built "customfield_26362" fieldName).
  rewrite Hclock. exists value, 0.4%Q. split; [done|]. split.
  - revert Hclock. unfold quarter_from_clock.
    destruct (allowed_includes _ _) eqn:Hin; [|discriminate].
    by intros [= <-].
  - repeat constructor.
Qed.

(** Later than that, the current quarter is none of the quarters
    synthesized: a field inferred in November 2026 gets no value from a
    text without a quarter or a year in January 2029. *)
Example inferred_quarter_field_outdated :
  extractWithPatterns january2029 "ship the new login page"
    [discovered november2026 "customfield_26362" "Delivery Quarter"
       "Delivery Quarter is required."]
  = Ok [].
Proof. vm_compute. reflexivity. Qed.

End QuarterComposition.

Lemma inferred_quarter_field_gets_value_witness :
  ∃ value confidence,
    extractWithPatterns may2027 "ship the new login page"
      [JiraFieldService.discovered november2026 "customfield_26362"
         "Delivery Quarter" "Delivery Quarter is required."]
    = Ok [pattern_entry "customfield_26362" (VStr value) confidence]
    ∧ allowed_includes
        (jf_allowedValues
           (JiraFieldService.discovered november2026 "customfield_26362"
              "Delivery Quarter" "Delivery Quarter is required."))
        value = true
    ∧ confidence ∈ [0.8%Q; 0.6%Q; 0.4%Q].
Proof.
  apply (inferred_quarter_field_gets_value november2026 may2027
           "ship the new login page" "Delivery Quarter"
           "Delivery Quarter is required.").
  - reflexivity.
  - right. reflexivity.
  - reflexivity.
Defined.

(** ** Searching and sorting the fields out *)

Section CatalogProperties.
Import JiraFieldService.

Lemma filter_sublist {A} (keep : A → bool) (l : list A) :
  sublist (List.filter keep l) l.
Proof.
  induction l as [|x l IH]; simpl; [constructor|].
  destruct (keep x); by constructor.
Qed.

Lemma filter_filter_same {A} (keep : A → bool) (l : list A) :
  List.filter keep (List.filter keep l) = List.filter keep l.
Proof.
  induction l as [|x l IH]; simpl; [done|].
  destruct (keep x) eqn:Hx; simpl; [|done]. by rewrite Hx, IH.
Qed.

Lemma filter_filter_comm {A} (keep keep' : A → bool) (l : list A) :
  List.filter keep (List.filter keep' l)
  = List.filter keep' (List.filter keep l).
Proof.
  induction l as [|x l IH]; simpl; [done|].
  destruct (keep' x) eqn:Hx', (keep x) eqn:Hx; simpl;
    rewrite ?Hx, ?Hx', ?IH; done.
Qed.

Lemma is_space_lower_char (c : ascii) :
  Js.is_space (Js.lower_char c) = Js.is_space c.
Proof. destruct c as [[] [] [] [] [] [] [] []]; vm_compute; reflexivity. Qed.

Lemma trimStart_toLowerCase (s : string) :
  Js.trimStart (Js.toLowerCase s) = Js.toLowerCase (Js.trimStart s).
Proof.
  induction s as [|c s IH]; simpl; [done|].
  rewrite is_space_lower_char. destruct (Js.is_space c); done.
Qed.

(** Lower-casing a text does not make it blank, nor the reverse. *)
Lemma is_blank_toLowerCase (s : string) :
  Js.is_blank (Js.toLowerCase s) = Js.is_blank s.
Proof.
  unfold Js.is_blank. rewrite trimStart_toLowerCase.
  by destruct (Js.trimStart s).
Qed.

(** X23. [searchFields] keeps the fields in their order and drops some: a
    term of white space only (spaces, tabs, no-break spaces) drops none;
    the case of the letters of the term does not matter; searching the
    result again with the same term changes nothing; and two searches, one
    after the other, give the same fields in either order. *)
Theorem searchFields_filters (jiraFields : list JiraField)
    (searchTerm otherTerm : string) :
  sublist (searchFields jiraFields searchTerm) jiraFields
  ∧ (Js.is_blank searchTerm = true →
     searchFields jiraFields searchTerm = jiraFields)
  ∧ (Js.toLowerCase searchTerm = Js.toLowerCase otherTerm →
     searchFields jiraFields searchTerm = searchFields jiraFields otherTerm)
  ∧ searchFields (searchFields jiraFields searchTerm) searchTerm
    = searchFields jiraFields searchTerm
  ∧ searchFields (searchFields jiraFields searchTerm) otherTerm
    = searchFields (searchFields jiraFields otherTerm) searchTerm.
Proof.
  split; [|split; [|split; [|split]]].
  - unfold searchFields. destruct (Js.is_blank searchTerm);
      [reflexivity|apply filter_sublist].
  - unfold searchFields. by intros ->.
  - intros Hsame. unfold searchFields.
    rewrite <- (is_blank_toLowerCase searchTerm),
      <- (is_blank_toLowerCase otherTerm), Hsame.
    done.
  - unfold searchFields. destruct (Js.is_blank searchTerm); [done|].
    apply filter_filter_same.
  - unfold searchFields.
    destruct (Js.is_blank searchTerm), (Js.is_blank otherTerm); try done.
    apply filter_filter_comm.
Qed.

(** A search term of no-break spaces is one of white space only, and
    capital letters with accents are lower-cased as well. *)
Example searchFields_beyond_ascii :
  searchFields [summaryField; priorityField]
    (String Js.nbsp (String Js.nbsp EmptyString))
  = [summaryField; priorityField]
  ∧ Js.toLowerCase (String (ascii_of_nat 201) "PIC")
    = String (ascii_of_nat 233) "pic".
Proof. split; reflexivity. Qed.

(** X24. [categorizeFields] files every field under one category at least;
    the categories [commonly_used], [project_specific] and
    [optional_standard] are pairwise disjoint, and no system field is
    filed under [optional_standard]. *)
Theorem categories_cover (jiraFields : list JiraField) :
  let c := categorizeFields jiraFields in
  (∀ field, field ∈ jiraFields ↔
            field ∈ commonly_used c ∨ field ∈ project_specific c
            ∨ field ∈ optional_standard c ∨ field ∈ system_fields c)
  ∧ (∀ field, field ∈ project_specific c → field ∉ commonly_used c)
  ∧ (∀ field, field ∈ optional_standard c →
              (field ∉ commonly_used c) ∧ (field ∉ project_specific c)
              ∧ (field ∉ system_fields c)).
Proof.
  unfold categorizeFields. simpl. split; [|split].
  - intros field. rewrite !elem_of_filter_bool. split; [|tauto].
    intros Hin.
    destruct (isCommonlyUsedField field) eqn:Hc; [tauto|].
    destruct (isProjectSpecificField field) eqn:Hp; [tauto|].
    destruct (isSystemField field) eqn:Hs; tauto.
  - intros field. rewrite !elem_of_filter_bool.
    unfold isProjectSpecificField.
    intros [_ [_ Hc%negb_true_iff]%andb_prop] [_ Hc']. congruence.
  - intros field. rewrite !elem_of_filter_bool.
    intros [_ [[Hc%negb_true_iff Hp%negb_true_iff]%andb_prop
                 Hs%negb_true_iff]%andb_prop].
    repeat split; intros [_ ?]; congruence.
Qed.

(** X25. [getFieldUsageStats] marks a field as popular exactly when it is
    commonly used or required. *)
Theorem popular_fields (field : JiraField) :
  is_popular (getFieldUsageStats field)
  = isCommonlyUsedField field || jf_required field.
Proof.
  unfold getFieldUsageStats. simpl.
  destruct (isCommonlyUsedField field); [done|].
  destruct (jf_required field); [done|].
  destruct (isSystemField field); [done|].
  destruct (isProjectSpecificField field); done.
Qed.

(** ** The issue type of a work item type *)

Lemma firstCandidate_elem candidates issueTypes found :
  firstCandidate candidates issueTypes = Some found → found ∈ issueTypes.
Proof.
  induction candidates as [|candidate candidates IH]; simpl; [discriminate|].
  destruct (List.find _ issueTypes) as [type|] eqn:Hfind; [|done].
  intros [= <-]. apply List.find_some in Hfind as [Hin _].
  by apply list_elem_of_In.
Qed.

(** X26. [mapWorkItemTypeToJiraIssueType] gives [null] only when the Jira
    instance has no issue type; otherwise it gives one of the issue types
    of the instance: the first one whose name contains a candidate name of
    the work item type and, failing that, the first issue type. *)
Theorem issue_type_chosen (type : WorkItemType) (issueTypes : list IssueType) :
  (mapWorkItemTypeToJiraIssueType type issueTypes = None ↔ issueTypes = [])
  ∧ (∀ found, mapWorkItemTypeToJiraIssueType type issueTypes = Some found →
              found ∈ issueTypes)
  ∧ (firstCandidate (issueTypeCandidates type) issueTypes = None →
     mapWorkItemTypeToJiraIssueType type issueTypes = head issueTypes).
Proof.
  unfold mapWorkItemTypeToJiraIssueType. split; [|split].
  - destruct (firstCandidate _ issueTypes) as [found|] eqn:Hfound.
    + split; [discriminate|]. intros ->.
      apply firstCandidate_elem in Hfound. by apply elem_of_nil in Hfound.
    + destruct issueTypes; simpl; split; done.
  - intros found. destruct (firstCandidate _ issueTypes) eqn:Hfound.
    + intros [= <-]. by eapply firstCandidate_elem.
    + destruct issueTypes; simpl; [discriminate|]. intros [= <-]. constructor.
  - by intros ->.
Qed.

(** ** The saved mappings *)

Lemma sameType_eq (a b : WorkItemType) : sameType a b = true ↔ a = b.
Proof. destruct a, b; simpl; split; intros; congruence. Qed.

Lemma find_app_none {A} (test : A → bool) (l k : list A) :
  List.find test l = None → List.find test (l ++ k) = List.find test k.
Proof.
  induction l as [|x l IH]; simpl; [done|].
  destruct (test x); [discriminate|]. done.
Qed.

Lemma find_filter_other (type other : WorkItemType)
    (mappings : list JiraFieldMapping) :
  other ≠ type →
  List.find (fun m => sameType (workItemType m) other)
    (List.filter (fun m => negb (sameType (workItemType m) type)) mappings)
  = List.find (fun m => sameType (workItemType m) other) mappings.
Proof.
  intros Hother. induction mappings as [|m mappings IH]; simpl; [done|].
  destruct (sameType (workItemType m) type) eqn:Htype; simpl.
  - apply sameType_eq in Htype.
    destruct (sameType (workItemType m) other) eqn:Hm; [|done].
    apply sameType_eq in Hm. congruence.
  - destruct (sameType (workItemType m) other); [done|]. apply IH.
Qed.

Lemma find_filter_same (type : WorkItemType) (mappings : list JiraFieldMapping) :
  List.filter (fun m => sameType (workItemType m) type)
    (List.filter (fun m => negb (sameType (workItemType m) type)) mappings)
  = [].
Proof.
  induction mappings as [|m mappings IH]; simpl; [done|].
  destruct (sameType (workItemType m) type) eqn:Htype; simpl; [done|].
  by rewrite Htype.
Qed.

Lemma find_filter_none (type : WorkItemType) (mappings : list JiraFieldMapping) :
  List.find (fun m => sameType (workItemType m) type)
    (List.filter (fun m => negb (sameType (workItemType m) type)) mappings)
  = None.
Proof.
  induction mappings as [|m mappings IH]; simpl; [done|].
  destruct (sameType (workItemType m) type) eqn:Htype; simpl; [done|].
  by rewrite Htype.
Qed.

Lemma find_app_some {A} (test : A → bool) (l k : list A) (x : A) :
  List.find test l = Some x → List.find test (l ++ k) = Some x.
Proof.
  induction l as [|y l IH]; simpl; [discriminate|].
  destruct (test y); [done|]. apply IH.
Qed.

(** What a usable storage holds after [saveFieldMapping]. *)
Lemma saveFieldMapping_usable browser mapping stored :
  usable browser stored = true →
  saveFieldMapping browser mapping stored
  = Saved (List.filter
             (fun m => negb (sameType (workItemType m) (workItemType mapping)))
             (match stored with
              | Saved mappings => mappings
              | _ => []
              end)
           ++ [mapping]).
Proof.
  unfold usable, saveFieldMapping.
  destruct (window browser), (accessible browser), (roomLeft browser),
    stored; simpl; try discriminate; done.
Qed.

Lemma saveFieldMapping_unusable browser mapping stored :
  usable browser stored = false →
  saveFieldMapping browser mapping stored = stored.
Proof.
  unfold usable, saveFieldMapping.
  destruct (window browser), (accessible browser), (roomLeft browser),
    stored; simpl; try discriminate; done.
Qed.

Lemma saved_mapping_found_first browser mapping stored :
  usable browser stored = true →
  getFieldMapping browser (workItemType mapping)
    (saveFieldMapping browser mapping stored)
  = Some mapping.
Proof.
  intros Husable. rewrite saveFieldMapping_usable by done.
  unfold usable in Husable. unfold getFieldMapping.
  destruct (window browser), (accessible browser); try discriminate. simpl.
  rewrite find_app_none by apply find_filter_none.
  simpl. by rewrite (proj2 (sameType_eq _ _) eq_refl).
Qed.

(** X27. With a window, a storage that can be read and written and an item
    that can be parsed, a mapping that is saved is the one found again for
    its work item type, and the only one kept for that type, and the
    mappings of the other types are found as before. In every other case
    [saveFieldMapping] leaves the item as it is and throws nothing.
    [getFieldMapping] finds nothing without a window, in a storage that
    cannot be read and in an item that cannot be parsed, nor after
    [clearFieldMappings]. *)
Theorem saved_mapping_found (browser : Browser) (mapping : JiraFieldMapping)
    (stored : Storage) :
  (if usable browser stored
   then getFieldMapping browser (workItemType mapping)
          (saveFieldMapping browser mapping stored) = Some mapping
        ∧ mappings_for (workItemType mapping)
            (saveFieldMapping browser mapping stored) = [mapping]
        ∧ (∀ other, other ≠ workItemType mapping →
             getFieldMapping browser other
               (saveFieldMapping browser mapping stored)
             = getFieldMapping browser other stored)
   else saveFieldMapping browser mapping stored = stored)
  ∧ (window browser = false ∨ accessible browser = false
     ∨ stored = Unreadable →
     ∀ type, getFieldMapping browser type stored = None)
  ∧ (∀ cleared type,
       clearFieldMappings browser stored = Ok cleared →
       getFieldMapping browser type cleared = None).
Proof.
  split; [|split].
  - destruct (usable browser stored) eqn:Husable;
      [|by apply saveFieldMapping_unusable].
    split; [by apply saved_mapping_found_first|].
    rewrite saveFieldMapping_usable by done.
    unfold usable in Husable. unfold getFieldMapping, mappings_for.
    destruct (window browser), (accessible browser); try discriminate.
    simpl. split.
    + rewrite List.filter_app, find_filter_same. simpl.
      by rewrite (proj2 (sameType_eq _ _) eq_refl).
    + intros other Hother.
      set (mappings := match stored with
                       | Saved mappings => mappings
                       | _ => []
                       end).
      assert (List.find (fun m => sameType (workItemType m) other) mappings
              = match stored with
                | Saved mappings =>
                    List.find (fun m => sameType (workItemType m) other)
                      mappings
                | _ => None
                end) as <- by (by destruct stored).
      rewrite <- (find_filter_other (workItemType mapping) other mappings)
        by done.
      destruct (List.find (fun m => sameType (workItemType m) other)
                  (List.filter
                     (fun m => negb (sameType (workItemType m)
                                       (workItemType mapping)))
                     mappings)) as [m|] eqn:Hfind.
      * by apply find_app_some.
      * rewrite find_app_none by done. simpl.
        destruct (sameType (workItemType mapping) other) eqn:Hsame; [|done].
        apply sameType_eq in Hsame. congruence.
  - unfold getFieldMapping.
    intros [-> | [-> | ->]] type; simpl; [done| |].
    + by destruct (window browser).
    + by destruct (window browser), (accessible browser).
  - unfold clearFieldMappings, getFieldMapping. intros cleared type.
    destruct (window browser); simpl; [|done].
    destruct (accessible browser); simpl; [|discriminate].
    by intros [= <-].
Qed.

(** The mappings of an epic and of a story, saved one after the other in
    an empty storage, are both found; without room left in the storage the
    second one is not saved, and the first one is still found. *)
Example two_mappings_saved :
  let epics := {| workItemType := WEpic; issueType := "Epic";
                  fields := minimalFields;
                  discoveredAt := "2026-11-02T08:00:00.000Z" |} in
  let stories := {| workItemType := WStory; issueType := "Story";
                    fields := minimalFields;
                    discoveredAt := "2026-11-02T09:00:00.000Z" |} in
  let full := {| window := true; accessible := true; roomLeft := false |} in
  getFieldMapping chrome WEpic
    (saveFieldMapping chrome stories (saveFieldMapping chrome epics NoItem))
  = Some epics
  ∧ getFieldMapping chrome WStory
      (saveFieldMapping chrome stories (saveFieldMapping chrome epics NoItem))
    = Some stories
  ∧ getFieldMapping full WStory
      (saveFieldMapping full stories (saveFieldMapping chrome epics NoItem))
    = None
  ∧ getFieldMapping full WEpic
      (saveFieldMapping full stories (saveFieldMapping chrome epics NoItem))
    = Some epics.
Proof. repeat split. Qed.

End CatalogProperties.

(** ** Discovery from a failed creation *)

Section DiscoveryProperties.
Import JiraFieldService.
Variable now : Clock.

Lemma withActualOptions_id getFieldOptions field :
  jf_id (withActualOptions getFieldOptions field) = jf_id field.
Proof. unfold withActualOptions. by repeat case_match. Qed.

Lemma withActualOptions_ids getFieldOptions (discoveredFields : list JiraField) :
  jf_id <$> List.map (withActualOptions getFieldOptions) discoveredFields
  = jf_id <$> discoveredFields.
Proof.
  induction discoveredFields as [|f fs IH]; [done|].
  cbn [List.map]. rewrite !fmap_cons, IH, withActualOptions_id. done.
Qed.

Lemma nameOfAny_named type name : nameOfAny type = Ok name → named type.
Proof.
  unfold nameOfAny, named.
  destruct type; try discriminate;
    destruct (FieldExtractionService.get "name" _) as [[]|];
    try discriminate; eauto.
Qed.

Lemma named_truthy type : named type → FieldExtractionService.js_truthy type = true.
Proof. intros [name Hname]. by destruct type. Qed.

Lemma find_any_some candidate items found :
  find_any candidate items = Ok (Some found) → named found.
Proof.
  induction items as [|type items IH]; simpl; [discriminate|].
  destruct (nameOfAny type) as [name|] eqn:Hname; simpl; [|discriminate].
  destruct (Js.includes _ _); [|done].
  intros [= <-]. by eapply nameOfAny_named.
Qed.

Lemma find_any_none candidate items :
  find_any candidate items = Ok None → Forall named items.
Proof.
  induction items as [|type items IH]; simpl; [constructor|].
  destruct (nameOfAny type) as [name|] eqn:Hname; simpl; [|discriminate].
  destruct (Js.includes _ _); [discriminate|].
  intros Hrest. constructor; [by eapply nameOfAny_named|auto].
Qed.

Lemma firstCandidate_any_some candidates items found :
  firstCandidate_any candidates items = Ok (Some found) → named found.
Proof.
  induction candidates as [|candidate candidates IH]; simpl; [discriminate|].
  destruct (find_any candidate items) as [[f|]|] eqn:Hfind; simpl;
    [|done|discriminate].
  intros [= <-]. by eapply find_any_some.
Qed.

Lemma firstCandidate_any_none candidate candidates items :
  firstCandidate_any (candidate :: candidates) items = Ok None →
  Forall named items.
Proof.
  simpl. destruct (find_any candidate items) as [[f|]|] eqn:Hfind; simpl;
    try discriminate.
  intros _. by eapply find_any_none.
Qed.

Lemma issueTypeCandidates_cons type :
  ∃ candidate candidates, issueTypeCandidates type = candidate :: candidates.
Proof. destruct type; simpl; eauto. Qed.

(** An issue type that is returned has a name; none is returned for the
    empty array only. *)
Lemma mapped_issue_type type issueTypes issueType :
  mapWorkItemTypeToJiraIssueType_any type issueTypes = Ok issueType →
  match issueType with
  | Some found => named found
  | None => issueTypes = JArr []
  end.
Proof.
  unfold mapWorkItemTypeToJiraIssueType_any.
  destruct issueTypes as [| | | |items|]; try discriminate.
  destruct (issueTypeCandidates_cons type) as (candidate & candidates & ->).
  destruct (firstCandidate_any (candidate :: candidates) items)
    as [[found|]|] eqn:Hfound; [| |discriminate].
  - intros [= <-]. by eapply firstCandidate_any_some.
  - apply firstCandidate_any_none in Hfound.
    destruct items as [|first items]; simpl; [by intros [= <-]|].
    inversion Hfound as [|? ? Hfirst _]; subst.
    rewrite (named_truthy _ Hfirst). by intros [= <-].
Qed.

(** On issue types that have names, it is
    [mapWorkItemTypeToJiraIssueType]. *)
Lemma find_any_typed candidate (issueTypes : list IssueType) :
  find_any candidate (issueTypeJson <$> issueTypes)
  = Ok (issueTypeJson
          <$> List.find (fun type =>
                Js.includes (Js.toLowerCase (it_name type))
                  (Js.toLowerCase candidate)) issueTypes).
Proof.
  induction issueTypes as [|type issueTypes IH]; [done|].
  rewrite fmap_cons. cbn [find_any List.find]. simpl nameOfAny.
  cbn [rbind]. destruct (Js.includes _ _); [done|]. apply IH.
Qed.

Lemma firstCandidate_any_typed candidates (issueTypes : list IssueType) :
  firstCandidate_any candidates (issueTypeJson <$> issueTypes)
  = Ok (issueTypeJson <$> firstCandidate candidates issueTypes).
Proof.
  induction candidates as [|candidate candidates IH]; [done|].
  cbn [firstCandidate_any firstCandidate]. rewrite find_any_typed.
  cbn [rbind]. destruct (List.find _ issueTypes); [done|]. apply IH.
Qed.

Lemma mapWorkItemTypeToJiraIssueType_typed type (issueTypes : list IssueType) :
  mapWorkItemTypeToJiraIssueType_any type (JArr (issueTypeJson <$> issueTypes))
  = Ok (issueTypeJson <$> mapWorkItemTypeToJiraIssueType type issueTypes).
Proof.
  unfold mapWorkItemTypeToJiraIssueType_any, mapWorkItemTypeToJiraIssueType.
  rewrite firstCandidate_any_typed. cbn [rbind].
  destruct (firstCandidate _ issueTypes); [done|].
  by destruct issueTypes.
Qed.

(** X28. [discoverFieldsFromError] gives [null], and leaves the storage as
    it is, exactly when the parsing of the payload throws or the choice of
    the issue type does (on an answer of [getIssueTypes] that is not an
    array, or that reaches an element without a name). Otherwise it gives
    a mapping for the work item type with the fields parsed, in their
    order and under their ids (the options fetched for the custom fields
    change allowed values only), named after the issue type chosen, or
    'Unknown' when there is none or its name is empty. That mapping is
    handed to [saveFieldMapping], and it is the one found afterwards for
    the work item type when the storage is usable. For a payload that
    names no required field, the fields of the mapping are the four
    minimal fields. *)
Theorem discovery_from_error (isoNow : string) (browser : Browser)
    (getFieldOptions : string → list string) (issueTypes : json)
    (type : WorkItemType) (errorData : json) (stored : Storage) :
  match parseErrorForRequiredFields now errorData,
        mapWorkItemTypeToJiraIssueType_any type issueTypes with
  | Ok discoveredFields, Ok chosen =>
      ∃ mapping,
        discoverFieldsFromError now isoNow browser getFieldOptions issueTypes
          type errorData stored
        = (Some mapping, saveFieldMapping browser mapping stored)
        ∧ workItemType mapping = type
        ∧ jf_id <$> fields mapping = jf_id <$> discoveredFields
        ∧ match chosen with
          | Some found =>
              ∃ name,
                FieldExtractionService.get "name" found = Some (JStr name)
                ∧ issueType mapping
                  = if Js.truthy_str name then name else "Unknown"
          | None => issueTypes = JArr [] ∧ issueType mapping = "Unknown"
          end
        ∧ (usable browser stored = true →
           getFieldMapping browser type
             (saveFieldMapping browser mapping stored) = Some mapping)
        ∧ (names_no_field errorData = true → fields mapping = minimalFields)
  | _, _ =>
      discoverFieldsFromError now isoNow browser getFieldOptions issueTypes
        type errorData stored
      = (None, stored)
  end.
Proof.
  unfold discoverFieldsFromError.
  destruct (parseErrorForRequiredFields now errorData)
    as [discoveredFields|?] eqn:Hparse; [|done].
  destruct discoveredFields as [|f fs].
  { by apply parseErrorForRequiredFields_nonempty in Hparse. }
  cbn [length Nat.eqb].
  destruct (mapWorkItemTypeToJiraIssueType_any type issueTypes)
    as [chosen|?] eqn:Hchosen; [|done].
  eexists. split; [reflexivity|].
  cbn [workItemType fields issueType]. split; [done|].
  split; [apply withActualOptions_ids|]. split; [|split].
  - apply mapped_issue_type in Hchosen.
    destruct chosen as [found|]; [|done].
    destruct Hchosen as [name Hname]. exists name. split; [done|].
    unfold issueTypeName. by rewrite Hname.
  - intros Husable.
    apply (saved_mapping_found_first browser
             {| workItemType := type; issueType := _; fields := _;
                discoveredAt := isoNow |}).
    done.
  - intros Hshape.
    rewrite (fallback_when_nothing_parsed now errorData) in Hparse
      by (by apply parsedFields_names_no_field).
    assert (f :: fs = minimalFields) as -> by congruence. reflexivity.
Qed.

(** A failed creation of an epic, in a Jira instance whose issue types
    have names: the mapping is named after the issue type Epic. When an
    issue type without a name comes before one that matches, nothing is
    discovered. *)
Example discovery_of_an_epic :
  (∃ mapping,
     discoverFieldsFromError november2026 "2026-11-02T08:00:00.000Z" chrome
       (fun _ => []) sampleIssueTypes WEpic sampleErrorPayload NoItem
     = (Some mapping, Saved [mapping])
     ∧ issueType mapping = "Epic"
     ∧ jf_id <$> fields mapping = ["summary"; "customfield_26362"])
  ∧ discoverFieldsFromError november2026 "2026-11-02T08:00:00.000Z" chrome
      (fun _ => []) namelessIssueTypes WEpic sampleErrorPayload NoItem
    = (None, NoItem).
Proof. split; [eexists; repeat split|reflexivity]. Qed.

(** X29. [discoverFieldsByTestCreation] gives no field only when the
    request fails or when the parsing of the error response throws; a
    creation that succeeds gives the two fields summary and description. *)
Theorem discovery_by_test_creation (response : Result (bool * json)) :
  (discoverFieldsByTestCreation now response = [] ↔
   match response with
   | Throw _ => True
   | Ok (true, _) => False
   | Ok (false, data) =>
       ∃ error, parseErrorForRequiredFields now data = Throw error
   end)
  ∧ (∀ data, jf_id <$> discoverFieldsByTestCreation now (Ok (true, data))
             = ["summary"; "description"]).
Proof.
  split; [|done].
  unfold discoverFieldsByTestCreation.
  destruct response as [[[] data]|?]; [done| |done].
  destruct (parseErrorForRequiredFields now data) as [parsed|error] eqn:Hparse.
  - split.
    + intros ->. by apply parseErrorForRequiredFields_nonempty in Hparse.
    + intros [? ?]. discriminate.
  - split; [eauto|done].
Qed.

End DiscoveryProperties.
